(** * Wireframer: a shallow embedding of the DOM analyzer ([src/analyzer.ts]),
      of the renderer ([src/renderer.ts]) and of the overlay ([src/main.ts])

    The analyzer walks a rendered element tree and reduces it to a tree of
    [WireframeNode]s; the renderer draws that tree on a canvas and returns
    the badges of its labels; the overlay counts the nodes, finds the badge
    under a click and re-renders after an edit.  This development embeds
    these functions one by one, keeping their names, and proves properties
    of them.

    Modelling conventions
    - Strings are [string]s of one-byte code units; case maps and character
      classes act on the ASCII range, as the patterns of the analyzer do.
    - Numbers that carry geometry (pixels, areas, ratios) are rationals [Q];
      the decimal literals of the source ([0.85], [0.3], [0.1]) are the
      fractions they denote.  The sides of a box are not negative in a
      browser; nothing here depends on it.  Depths are integers [Z].
    - The host (the browser) is read through [getComputedStyle] and
      [getBoundingClientRect].  A read may raise; this is recorded per
      element in [el_layoutThrows], and every function that performs such a
      read lives in the result monad [Res].
    - The lookup tables of the label cascade are object literals: read at a
      key they do not own, they give the member of [Object.prototype] of
      that name, if there is one.  A label is therefore a [JSValue].
    - The module counter [nodeIdCounter] is threaded explicitly.
    - [buildNodeTree] recurses on elements selected by [detectGridItems],
      which is not structural; it is defined with a recursion budget, and the
      budget [S (treeHeight el)] is shown to be enough.
    - A 2D context is the record of its styles and of its current path,
      together with the list of what has been drawn so far, each entry with
      the styles in force when it was drawn.  Angles are in units of
      [Math.PI].  The width of a text is what the host says: [measureText]
      is a variable of the renderer.
    - A [Map] is the list of its entries. *)

From Stdlib Require Import String Ascii List Bool ZArith QArith Qabs Lia Lqa.
From Stdlib Require Import DecimalString.
From Stdlib Require Import DecimalNat DecimalZ FinFun Qround.
Import ListNotations.

Set Warnings "-register-all".
Local Open Scope string_scope.
Local Open Scope list_scope.

(* ================================================================== *)
(** ** Strings, as the JavaScript string methods used by the analyzer  *)
(* ================================================================== *)

Module Str.

Definition code (c : ascii) : nat := nat_of_ascii c.

Definition between (lo hi : nat) (c : ascii) : bool :=
  (lo <=? code c)%nat && (code c <=? hi)%nat.

(** [[a-z]], [[A-Z]], [\d], [\w], [\s] *)
Definition isLower (c : ascii) : bool := between 97 122 c.
Definition isUpper (c : ascii) : bool := between 65 90 c.
Definition isDigit (c : ascii) : bool := between 48 57 c.
Definition isWordChar (c : ascii) : bool :=
  isLower c || isUpper c || isDigit c || (code c =? 95)%nat.
Definition isWhiteSpace (c : ascii) : bool :=
  between 9 13 c || (code c =? 32)%nat || (code c =? 160)%nat.
(** line terminators, which [.] does not match *)
Definition isLineTerminator (c : ascii) : bool :=
  (code c =? 10)%nat || (code c =? 13)%nat.

Definition lowerChar (c : ascii) : ascii :=
  if isUpper c then ascii_of_nat (code c + 32) else c.
Definition upperChar (c : ascii) : ascii :=
  if isLower c then ascii_of_nat (code c - 32) else c.

Fixpoint mapChars (f : ascii -> ascii) (s : string) : string :=
  match s with
  | EmptyString => EmptyString
  | String c s' => String (f c) (mapChars f s')
  end.

(** [s.toLowerCase()] *)
Definition toLowerCase (s : string) : string := mapChars lowerChar s.
(** [s.toUpperCase()] *)
Definition toUpperCase (s : string) : string := mapChars upperChar s.

(** [s.length] *)
Definition length (s : string) : nat := String.length s.

(** [s.slice(0, n)] *)
Fixpoint take (n : nat) (s : string) : string :=
  match n, s with
  | O, _ => EmptyString
  | S _, EmptyString => EmptyString
  | S n', String c s' => String c (take n' s')
  end.

(** [s.charAt(0)]: the empty string when [s] is empty *)
Definition charAt0 (s : string) : string :=
  match s with
  | EmptyString => EmptyString
  | String c _ => String c EmptyString
  end.

(** [s.slice(1)] *)
Definition slice1 (s : string) : string :=
  match s with
  | EmptyString => EmptyString
  | String _ s' => s'
  end.

Fixpoint trimStart (s : string) : string :=
  match s with
  | EmptyString => EmptyString
  | String c s' => if isWhiteSpace c then trimStart s' else s
  end.

(** drops the trailing white space: a character is kept when something
    that is kept follows it, or when it is not white space itself *)
Fixpoint trimEnd (s : string) : string :=
  match s with
  | EmptyString => EmptyString
  | String c s' =>
      match trimEnd s' with
      | EmptyString => if isWhiteSpace c then EmptyString else String c EmptyString
      | t => String c t
      end
  end.

(** [s.trim()] *)
Definition trim (s : string) : string := trimEnd (trimStart s).

(** truthiness of a string: [""] is falsy *)
Definition truthy (s : string) : bool :=
  match s with EmptyString => false | _ => true end.

(** [s.split(/\s+/)]: the pieces between maximal runs of white space,
    the empty pieces at both ends included *)
Fixpoint splitAux (cur : string) (inRun : bool) (s : string) : list string :=
  match s with
  | EmptyString => [cur]
  | String c s' =>
      if isWhiteSpace c then
        if inRun then splitAux cur true s'
        else cur :: splitAux EmptyString true s'
      else splitAux (cur ++ String c EmptyString) false s'
  end.
Definition splitWhiteSpace (s : string) : list string := splitAux EmptyString false s.

(** [s.replace(/[-_]/g, " ")] *)
Definition dashToSpace (c : ascii) : ascii :=
  if (code c =? 45)%nat || (code c =? 95)%nat then " "%char else c.
Definition replaceDashes (s : string) : string := mapChars dashToSpace s.

(** [s.replace(/([a-z])([A-Z])/g, "$1 $2")]: a match consumes both
    characters, and the scan resumes after them *)
Fixpoint splitCamel (s : string) : string :=
  match s with
  | EmptyString => EmptyString
  | String a s1 =>
      match s1 with
      | EmptyString => String a EmptyString
      | String b s2 =>
          if isLower a && isUpper b
          then String a (String " " (String b (splitCamel s2)))
          else String a (splitCamel s1)
      end
  end.

(** a set of strings given by its elements, and [set.has(x)] *)
Definition has (set : list string) (x : string) : bool :=
  existsb (String.eqb x) set.

(** the own entries of an object literal used as a lookup table *)
Fixpoint lookup (table : list (string * string)) (key : string) : option string :=
  match table with
  | [] => None
  | (k, v) :: rest => if String.eqb k key then Some v else lookup rest key
  end.

(** the members every object literal inherits from [Object.prototype] *)
Definition objectPrototypeKeys : list string :=
  [ "constructor"; "__defineGetter__"; "__defineSetter__"; "hasOwnProperty";
    "__lookupGetter__"; "__lookupSetter__"; "isPrototypeOf"; "propertyIsEnumerable";
    "toString"; "valueOf"; "__proto__"; "toLocaleString" ].

(** the decimal numeral of a counter, as a template literal prints it *)
Definition ofNat (n : nat) : string := NilEmpty.string_of_uint (Nat.to_uint n).

End Str.

(** A value that stands where the analyzer expects a string: a string, or
    the member of [Object.prototype] found under [key] when a lookup table
    is read at a key it does not own (a function or an object: truthy,
    equal to no string, and without string methods). *)
Inductive JSValue : Type :=
| Text (s : string)
| Inherited (key : string).

(** [table[key]]: an own entry, else an inherited member, else undefined *)
Definition tableGet (table : list (string * string)) (key : string) : option JSValue :=
  match Str.lookup table key with
  | Some v => Some (Text v)
  | None => if Str.has Str.objectPrototypeKeys key then Some (Inherited key) else None
  end.

(** [v === s] for a string [s] *)
Definition isText (v : JSValue) (s : string) : bool :=
  match v with
  | Text t => String.eqb t s
  | Inherited _ => false
  end.

(* ================================================================== *)
(** ** Regular expressions: the fragment the analyzer's patterns use   *)
(* ================================================================== *)

Module Regex.

Inductive regex : Type :=
| Empty                              (* the empty pattern *)
| Lit (c : ascii)                    (* a literal character *)
| Class (p : ascii -> bool)          (* a character class *)
| Dot                                (* [.] *)
| Seq (r1 r2 : regex)                (* concatenation *)
| Alt (r1 r2 : regex)                (* [r1|r2] *)
| Opt (r : regex)                    (* [r?] *)
| StarClass (p : ascii -> bool)      (* [[class]*] *)
| Bol                                (* [^] *)
| Eol                                (* [$] *)
| WordBoundary.                      (* [\b] *)

Record RegExp : Type := mkRegExp { source : regex; ignoreCase : bool }.

Definition charEq (icase : bool) (c x : ascii) : bool :=
  if icase then Ascii.eqb (Str.lowerChar c) (Str.lowerChar x) else Ascii.eqb c x.

Definition isWordAt (o : option ascii) : bool :=
  match o with Some c => Str.isWordChar c | None => false end.

Definition first (s : string) : option ascii :=
  match s with EmptyString => None | String c _ => Some c end.

(** greedy iteration of a class, backtracking into the continuation *)
Fixpoint starClass (p : ascii -> bool) (prev : option ascii) (s : string)
         (k : option ascii -> string -> bool) : bool :=
  match s with
  | EmptyString => k prev s
  | String c s' => (if p c then starClass p (Some c) s' k else false) || k prev s
  end.

(** [matchFrom icase r prev s k]: [r] matches a prefix of [s] (the
    character before [s] being [prev]) and [k] accepts what follows *)
Fixpoint matchFrom (icase : bool) (r : regex) (prev : option ascii) (s : string)
         (k : option ascii -> string -> bool) {struct r} : bool :=
  match r with
  | Empty => k prev s
  | Lit c =>
      match s with
      | String x s' => if charEq icase c x then k (Some x) s' else false
      | EmptyString => false
      end
  | Class p =>
      match s with
      | String x s' => if p x then k (Some x) s' else false
      | EmptyString => false
      end
  | Dot =>
      match s with
      | String x s' => if Str.isLineTerminator x then false else k (Some x) s'
      | EmptyString => false
      end
  | Seq r1 r2 =>
      matchFrom icase r1 prev s (fun prev' s' => matchFrom icase r2 prev' s' k)
  | Alt r1 r2 => matchFrom icase r1 prev s k || matchFrom icase r2 prev s k
  | Opt r1 => matchFrom icase r1 prev s k || k prev s
  | StarClass p => starClass p prev s k
  | Bol => match prev with None => k prev s | Some _ => false end
  | Eol => match s with EmptyString => k prev s | String _ _ => false end
  | WordBoundary =>
      if xorb (isWordAt prev) (isWordAt (first s)) then k prev s else false
  end.

(** a match may start at any position *)
Fixpoint searchFrom (icase : bool) (r : regex) (prev : option ascii) (s : string) : bool :=
  matchFrom icase r prev s (fun _ _ => true)
  || match s with
     | EmptyString => false
     | String c s' => searchFrom icase r (Some c) s'
     end.

(** [re.test(s)] *)
Definition test (re : RegExp) (s : string) : bool :=
  searchFrom (ignoreCase re) (source re) None s.

(** a literal word *)
Fixpoint lit (s : string) : regex :=
  match s with
  | EmptyString => Empty
  | String c EmptyString => Lit c
  | String c s' => Seq (Lit c) (lit s')
  end.

Fixpoint seqs (rs : list regex) : regex :=
  match rs with
  | [] => Empty
  | [r] => r
  | r :: rest => Seq r (seqs rest)
  end.

Fixpoint alts (rs : list regex) : regex :=
  match rs with
  | [] => Empty
  | [r] => r
  | r :: rest => Alt r (alts rest)
  end.

(** [[-_\s]] and [[-_]] and [\d] *)
Definition dashUnderSpace : regex :=
  Class (fun c => (Str.code c =? 45)%nat || (Str.code c =? 95)%nat || Str.isWhiteSpace c).
Definition dashUnder : regex :=
  Class (fun c => (Str.code c =? 45)%nat || (Str.code c =? 95)%nat).
Definition digit : regex := Class Str.isDigit.

(** [/.../i] and [/.../] *)
Definition ri (r : regex) : RegExp := mkRegExp r true.
Definition rx (r : regex) : RegExp := mkRegExp r false.

End Regex.

(* ================================================================== *)
(** ** Results of host reads                                           *)
(* ================================================================== *)

(** A computation returns a value, raises, or exhausts its recursion
    budget (only [buildNodeTree] has one). *)
Inductive Res (A : Type) : Type :=
| Ok (a : A)
| Throw
| OutOfFuel.

Arguments Ok {A} a.
Arguments Throw {A}.
Arguments OutOfFuel {A}.

Definition bind {A B : Type} (m : Res A) (k : A -> Res B) : Res B :=
  match m with
  | Ok a => k a
  | Throw => Throw
  | OutOfFuel => OutOfFuel
  end.

Notation "x <- m ;; k" := (bind m (fun x => k))
  (at level 61, m at next level, right associativity).
Notation "' pat <- m ;; k" := (bind m (fun x => match x with pat => k end))
  (at level 61, pat pattern, m at next level, right associativity).

(** [try { return m } catch (e) { return fallback }] *)
Definition tryCatch {A : Type} (m : Res A) (fallback : A) : Res A :=
  match m with
  | Ok a => Ok a
  | Throw => Ok fallback
  | OutOfFuel => OutOfFuel
  end.

(** a [for ... of] loop over a list, threading the loop's mutable state *)
Fixpoint forEach {A S : Type} (body : A -> S -> Res S) (l : list A) (s : S) : Res S :=
  match l with
  | [] => Ok s
  | x :: rest => s' <- body x s ;; forEach body rest s'
  end.

(** [Array.prototype.filter] with a predicate that reads the host *)
Fixpoint filterR {A : Type} (p : A -> Res bool) (l : list A) : Res (list A) :=
  match l with
  | [] => Ok []
  | x :: rest =>
      b <- p x ;;
      rest' <- filterR p rest ;;
      Ok (if b then x :: rest' else rest')
  end.

(** [Array.prototype.map] with a function that reads the host *)
Fixpoint mapR {A B : Type} (f : A -> Res B) (l : list A) : Res (list B) :=
  match l with
  | [] => Ok []
  | x :: rest =>
      y <- f x ;;
      rest' <- mapR f rest ;;
      Ok (y :: rest')
  end.

(* ================================================================== *)
(** ** The element tree handed to the analyzer                         *)
(* ================================================================== *)

(** what [instanceof HTMLElement] and [instanceof SVGElement] tell apart *)
Inductive ElementKind : Type := HTMLElement | SVGElement | OtherElement.

(** the fields of [getComputedStyle(el)] that are read; [css_opacity] is
    the number [parseFloat] returns for the computed opacity *)
Record CSSStyle : Type := mkStyle {
  css_display : string;
  css_visibility : string;
  css_opacity : Q;
  css_flexDirection : string
}.

(** [getBoundingClientRect()] *)
Record DOMRect : Type := mkRect {
  rect_left : Q;
  rect_top : Q;
  rect_width : Q;
  rect_height : Q
}.

Inductive Element : Type := mkElement {
  el_kind : ElementKind;
  el_tagName : string;              (* [el.tagName], upper case for HTML *)
  el_id : string;                   (* [el.id] *)
  el_class : string;                (* the class attribute *)
  el_role : option string;          (* [el.getAttribute("role")] *)
  el_type : option string;          (* [el.getAttribute("type")] *)
  el_textContent : string;          (* [el.textContent] *)
  el_style : CSSStyle;
  el_rect : DOMRect;
  el_layoutThrows : bool;           (* reading style or box of [el] raises *)
  el_children : list Element        (* [el.children], in document order *)
}.

(** the [window] and [document] values [analyzeDom] reads *)
Record Window : Type := mkWindow {
  scrollX : Q;
  scrollY : Q;
  innerWidth : Q;
  innerHeight : Q;
  bodyScrollHeight : Q;
  documentScrollHeight : Q;
  locationHref : string;
  nowISOString : string
}.

Definition isHTMLElement (el : Element) : bool :=
  match el_kind el with HTMLElement => true | _ => false end.
Definition isSVGElement (el : Element) : bool :=
  match el_kind el with SVGElement => true | _ => false end.

(** [el.className] when it is a string: on an SVG element it is an
    animated-string object *)
Definition className (el : Element) : option string :=
  match el_kind el with SVGElement => None | _ => Some (el_class el) end.

Definition getComputedStyle (el : Element) : Res CSSStyle :=
  if el_layoutThrows el then Throw else Ok (el_style el).

Definition getBoundingClientRect (el : Element) : Res DOMRect :=
  if el_layoutThrows el then Throw else Ok (el_rect el).

(** the descendants of [el] in document order *)
Fixpoint descendants (el : Element) : list Element :=
  flat_map (fun c => c :: descendants c) (el_children el).

(** the longest chain of children below [el] *)
Fixpoint treeHeight (el : Element) : nat :=
  fold_right (fun c h => Nat.max (S (treeHeight c)) h) O (el_children el).

(** a type selector: [el] has the given lower-case local name *)
Definition matchesTag (tags : list string) (el : Element) : bool :=
  Str.has tags (Str.toLowerCase (el_tagName el)).

(** [el.querySelectorAll(<a list of type selectors>)] *)
Definition querySelectorAllTags (tags : list string) (el : Element) : list Element :=
  filter (matchesTag tags) (descendants el).

(** [el.querySelector(<a list of type selectors>)] *)
Definition querySelectorTags (tags : list string) (el : Element) : option Element :=
  hd_error (querySelectorAllTags tags el).

(* ================================================================== *)
(** ** The wireframe model ([shared/types])                            *)
(* ================================================================== *)

Inductive SemanticType : Type :=
| header | navigation | hero | content | card | cta | footer.

Inductive ContentType : Type := image | button | text | icon.

Record BoundingBox : Type := mkBBox {
  bb_x : Q;
  bb_y : Q;
  bb_width : Q;
  bb_height : Q
}.

Record ContentHint : Type := mkHint {
  hint_type : ContentType;
  hint_bbox : BoundingBox;
  hint_label : option string
}.

Inductive WireframeNode : Type := mkNode {
  wn_id : string;
  wn_tagName : string;
  wn_label : JSValue;
  wn_bbox : BoundingBox;
  wn_depth : Z;
  wn_children : list WireframeNode;
  wn_isLandmark : bool;
  wn_semanticType : SemanticType;
  wn_contentHints : option (list ContentHint)
}.

Record WireframeModel : Type := mkModel {
  nodes : list WireframeNode;
  viewport : Q * Q;
  fullPageHeight : Q;
  pageUrl : string;
  capturedAt : string
}.

Record AnalyzerConfig : Type := mkConfig {
  minArea : Q;
  maxDepth : Z;
  viewportAreaThreshold : Q
}.

(** [Partial<AnalyzerConfig>] *)
Record PartialConfig : Type := mkPartial {
  p_minArea : option Q;
  p_maxDepth : option Z;
  p_viewportAreaThreshold : option Q
}.

(** number comparisons *)
Definition Qltb (a b : Q) : bool := negb (Qle_bool b a).
Definition Qleb (a b : Q) : bool := Qle_bool a b.
Definition Qeqb (a b : Q) : bool := Qeq_bool a b.
Definition Qmin (a b : Q) : Q := if Qle_bool a b then a else b.
Definition Qmax (a b : Q) : Q := if Qle_bool a b then b else a.

(* ================================================================== *)
(** ** The analyzer's tables                                           *)
(* ================================================================== *)

Import Regex.

(** Semantic landmark tags - these are ALWAYS significant *)
Definition LANDMARK_TAGS : list string :=
  ["header"; "nav"; "main"; "section"; "article"; "aside"; "footer"].

(** ARIA roles that indicate landmarks *)
Definition LANDMARK_ROLES : list string :=
  ["banner"; "navigation"; "main"; "contentinfo"; "complementary"; "region";
   "search"; "form"].

(** Tags to always skip - they don't represent layout structure *)
Definition SKIP_TAGS : list string :=
  [ "h1"; "h2"; "h3"; "h4"; "h5"; "h6"; "p"; "blockquote"; "pre";
    "span"; "a"; "em"; "strong"; "b"; "i"; "label"; "small"; "sub"; "sup";
    "abbr"; "code"; "kbd"; "mark"; "q"; "s"; "u"; "var"; "time"; "br"; "wbr";
    "script"; "style"; "link"; "meta"; "noscript"; "template";
    "img"; "svg"; "picture"; "video"; "audio"; "canvas"; "iframe";
    "input"; "textarea"; "select"; "button"; "form";
    "ul"; "ol"; "li"; "dl"; "dt"; "dd";
    "table"; "thead"; "tbody"; "tr"; "td"; "th" ].

(** [word[-_\s]?(a|b|...)] *)
Definition withSuffix (word : string) (suffixes : list string) : regex :=
  seqs [lit word; Opt dashUnderSpace; alts (map lit suffixes)].

(** Class patterns that indicate meaningful structural blocks *)
Definition STRUCTURAL_CLASS_PATTERNS : list (RegExp * string) :=
  [ (ri (alts [withSuffix "hero" ["section"]; withSuffix "hero" ["banner"];
               Seq (lit "hero") Eol]), "Hero");
    (ri (lit "hero"), "Hero");
    (ri (withSuffix "card" ["grid"; "list"; "container"]), "Cards");
    (ri (lit "card"), "Card");
    (ri (withSuffix "feature" ["grid"; "list"; "section"]), "Features");
    (ri (lit "feature"), "Feature");
    (ri (withSuffix "service" ["grid"; "list"; "section"]), "Services");
    (ri (lit "service"), "Service");
    (ri (lit "testimonial"), "Testimonials");
    (ri (lit "pricing"), "Pricing");
    (ri (alts [lit "cta";
               seqs [lit "call"; Opt dashUnder; lit "to"; Opt dashUnder; lit "action"]]),
     "CTA");
    (ri (lit "banner"), "Banner");
    (ri (lit "sidebar"), "Sidebar");
    (ri (withSuffix "contact" ["form"; "section"]), "Contact");
    (ri (withSuffix "about" ["section"; "us"]), "About");
    (ri (lit "team"), "Team");
    (ri (lit "faq"), "FAQ");
    (ri (lit "gallery"), "Gallery");
    (ri (lit "portfolio"), "Portfolio");
    (ri (withSuffix "blog" ["post"; "section"]), "Blog");
    (ri (lit "news"), "News");
    (ri (alts [lit "stats"; lit "statistics"]), "Stats");
    (ri (lit "benefits"), "Benefits");
    (ri (alts [lit "partners"; lit "clients"; lit "logos"]), "Partners");
    (ri (lit "newsletter"), "Newsletter");
    (ri (lit "social"), "Social");
    (ri (withSuffix "map" ["section"; "container"]), "Map");
    (ri (lit "location"), "Location");
    (ri (alts [lit "hours"; lit "schedule"; lit "opening"]), "Hours") ].

(** [^word$] *)
Definition whole (word : string) : regex := seqs [Bol; lit word; Eol].

(** Generic container patterns to skip (not meaningful for wireframes) *)
Definition GENERIC_CONTAINER_PATTERNS : list RegExp :=
  [ ri (whole "container");
    ri (whole "wrapper");
    ri (whole "inner");
    ri (whole "outer");
    ri (whole "content");
    ri (whole "box");
    ri (whole "row");
    ri (seqs [Bol; lit "col"; Opt (lit "umn"); Opt dashUnder; StarClass Str.isDigit; Eol]);
    ri (whole "grid");
    ri (whole "flex");
    ri (whole "layout");
    ri (seqs [Bol; lit "max"; Opt dashUnder; lit "w"]);
    ri (seqs [Bol; lit "mx"; Opt dashUnder; lit "auto"]);
    ri (seqs [Bol; lit "px"; Opt dashUnder; digit]);
    ri (seqs [Bol; lit "py"; Opt dashUnder; digit]);
    ri (seqs [Bol; lit "p"; Opt dashUnder; digit]);
    ri (seqs [Bol; lit "m"; Opt dashUnder; digit]) ].

Definition DEFAULT_CONFIG : AnalyzerConfig :=
  {| minArea := 10000; maxDepth := 3; viewportAreaThreshold := 5 # 100 |}.

(** Smaller minimum area for grid items (50x50) *)
Definition GRID_ITEM_MIN_AREA : Q := 2500.

(** Minimum sizes for content hint detection: (width, height) *)
Definition CONTENT_MIN_SIZES (t : ContentType) : Q * Q :=
  match t with
  | image => (30, 30)
  | button => (50, 20)
  | text => (50, 10)
  | icon => (12, 12)
  end.

(** Max content hints per node per type *)
Definition CONTENT_MAX_COUNTS (t : ContentType) : nat :=
  match t with
  | image => 5
  | button => 3
  | text => 1
  | icon => 6
  end.

(** [`wf-node-${++nodeIdCounter}`]: the identifier and the new counter *)
Definition generateNodeId (nodeIdCounter : nat) : string * nat :=
  (("wf-node-" ++ Str.ofNat (S nodeIdCounter))%string, S nodeIdCounter).

(* ================================================================== *)
(** ** The analyzer                                                    *)
(* ================================================================== *)

Section Analyzer.

Variable window : Window.

Definition area (rect : DOMRect) : Q := rect_width rect * rect_height rect.

Definition isElementVisible (el : Element) : Res bool :=
  style <- getComputedStyle el ;;
  if css_display style =? "none" then Ok false
  else if css_visibility style =? "hidden" then Ok false
  else if Qeqb (css_opacity style) 0 then Ok false
  else
    rect <- getBoundingClientRect el ;;
    if Qeqb (rect_width rect) 0 || Qeqb (rect_height rect) 0 then Ok false
    else Ok true.

Definition getAbsoluteBoundingBox (el : Element) : Res BoundingBox :=
  rect <- getBoundingClientRect el ;;
  Ok {| bb_x := rect_left rect + scrollX window;
        bb_y := rect_top rect + scrollY window;
        bb_width := rect_width rect;
        bb_height := rect_height rect |}.

Definition isLandmark (el : Element) : bool :=
  let tagName := Str.toLowerCase (el_tagName el) in
  if Str.has LANDMARK_TAGS tagName then true
  else
    match el_role el with
    | Some role => Str.truthy role && Str.has LANDMARK_ROLES role
    | None => false
    end.

(** the first label of the table whose pattern matches [s] *)
Fixpoint firstPattern (patterns : list (RegExp * string)) (s : string) : option string :=
  match patterns with
  | [] => None
  | (pattern, label) :: rest =>
      if test pattern s then Some label else firstPattern rest s
  end.

(** Get a meaningful label from class names.
    Returns null if no meaningful pattern found. *)
Definition getClassLabel (el : Element) : option string :=
  match className el with
  | None => None
  | Some cls =>
      if negb (Str.truthy cls) then None
      else firstPattern STRUCTURAL_CLASS_PATTERNS cls
  end.

(** Check if element has only generic/utility classes. *)
Definition hasOnlyGenericClasses (el : Element) : bool :=
  match className el with
  | None => true
  | Some cls =>
      if negb (Str.truthy cls) then true
      else
        let classes :=
          filter (fun c => (0 <? Str.length c)%nat) (Str.splitWhiteSpace cls) in
        if (List.length classes =? 0)%nat then true
        else forallb (fun c => existsb (fun pattern => test pattern c)
                                       GENERIC_CONTAINER_PATTERNS) classes
  end.

(** Check if element is a CSS grid or row-direction flexbox container. *)
Definition isGridOrFlexContainer (el : Element) : Res bool :=
  style <- getComputedStyle el ;;
  let display := css_display style in
  if (display =? "grid") || (display =? "inline-grid") then Ok true
  else if (display =? "flex") || (display =? "inline-flex") then
    let direction := css_flexDirection style in
    Ok ((direction =? "row") || (direction =? "row-reverse"))
  else Ok false.

(** Get visible child elements that could be grid items. *)
Definition getVisibleChildren (el : Element) : Res (list Element) :=
  filterR (fun child =>
             if isHTMLElement child then
               let tagName := Str.toLowerCase (el_tagName child) in
               if negb (Str.has SKIP_TAGS tagName) then isElementVisible child
               else Ok false
             else Ok false)
          (el_children el).

Definition ofLength {A : Type} (l : list A) : Q := inject_Z (Z.of_nat (List.length l)).

(** Check if children have similar dimensions (within tolerance). *)
Definition areChildrenSimilarlySized (children : list Element) (tolerance : Q) : Res bool :=
  if (List.length children <? 2)%nat then Ok false
  else
    sizes <- mapR getBoundingClientRect children ;;
    let significantSizes := filter (fun s => Qltb 1000 (area s)) sizes in
    if (List.length significantSizes <? 2)%nat then Ok false
    else
      let avgWidth :=
        fold_left (fun sum s => sum + rect_width s) significantSizes 0
        / ofLength significantSizes in
      let avgHeight :=
        fold_left (fun sum s => sum + rect_height s) significantSizes 0
        / ofLength significantSizes in
      Ok (forallb (fun s =>
                     let widthDiff := Qabs (rect_width s - avgWidth) / avgWidth in
                     let heightDiff := Qabs (rect_height s - avgHeight) / avgHeight in
                     Qleb widthDiff tolerance && Qleb heightDiff tolerance)
                  significantSizes).

(** Detect if an element is a grid/flex container with grid-like
    children.  Returns the children that should become grid item nodes,
    or null if not a grid. *)
Definition detectGridItems (el : Element) : Res (option (list Element)) :=
  isGrid <- isGridOrFlexContainer el ;;
  if negb isGrid then Ok None
  else
    children <- getVisibleChildren el ;;
    if (List.length children <? 2)%nat then Ok None
    else
      let nonLandmarkChildren := filter (fun child => negb (isLandmark child)) children in
      if (List.length nonLandmarkChildren <? 2)%nat then Ok None
      else
        similar <- areChildrenSimilarlySized nonLandmarkChildren (3 # 10) ;;
        if negb similar then Ok None
        else
          validChildren <-
            filterR (fun child =>
                       rect <- getBoundingClientRect child ;;
                       Ok (Qleb GRID_ITEM_MIN_AREA (rect_width rect * rect_height rect)))
                    nonLandmarkChildren ;;
          Ok (if (2 <=? List.length validChildren)%nat then Some validChildren else None).

(** Try to infer a label from the first heading inside an element. *)
Definition inferLabelFromContent (el : Element) : option string :=
  match querySelectorTags ["h1"; "h2"; "h3"] el with
  | Some heading =>
      if Str.truthy (el_textContent heading) then
        let text := Str.trim (el_textContent heading) in
        if (0 <? Str.length text)%nat && (Str.length text <? 50)%nat then
          let label := Str.take 25 text in
          Some (if (Str.length label <? Str.length text)%nat
                then (label ++ "...")%string else label)
        else None
      else None
  | None => None
  end.

(** Generate a label for a grid item. *)
Definition inferGridItemLabel (el : Element) : string :=
  match getClassLabel el with
  | Some classLabel => classLabel
  | None =>
      match inferLabelFromContent el with
      | Some contentLabel => contentLabel
      | None => "Card"
      end
  end.

(** Determine if an element should be included in the wireframe. *)
Definition isSignificant (el : Element) (viewportArea : Q) (config : AnalyzerConfig)
  : Res bool :=
  let tagName := Str.toLowerCase (el_tagName el) in
  if Str.has SKIP_TAGS tagName then Ok false
  else
    bbox <- getAbsoluteBoundingBox el ;;
    let area := bb_width bbox * bb_height bbox in
    if Qltb area (minArea config) then Ok false
    else if isLandmark el then Ok true
    else if match getClassLabel el with Some _ => true | None => false end then Ok true
    else if (tagName =? "div") && hasOnlyGenericClasses el then Ok false
    else if tagName =? "div" then
      if Qltb (viewportArea * (1 # 10)) area then Ok true else Ok false
    else Ok false.

Definition roleLabels : list (string * string) :=
  [ ("banner", "Header"); ("navigation", "Navigation"); ("main", "Main Content");
    ("contentinfo", "Footer"); ("complementary", "Sidebar"); ("search", "Search");
    ("region", "Region") ].

Definition tagLabels : list (string * string) :=
  [ ("header", "Header"); ("nav", "Navigation"); ("main", "Main Content");
    ("section", "Section"); ("article", "Article"); ("aside", "Sidebar");
    ("footer", "Footer") ].

(** step 2 of [generateLabel]: the label an id gives *)
Definition labelFromId (id : string) : string :=
  match firstPattern STRUCTURAL_CLASS_PATTERNS id with
  | Some label => label
  | None =>
      let cleanId := Str.toLowerCase (Str.splitCamel (Str.replaceDashes id)) in
      (Str.toUpperCase (Str.charAt0 cleanId) ++ Str.slice1 cleanId)%string
  end.

(** steps 3 to 6 of [generateLabel] *)
Definition labelFromRole (el : Element) : JSValue :=
  let tagName := Str.toLowerCase (el_tagName el) in
  let fromTag :=
    match (if (tagName =? "section") || (tagName =? "article") || (tagName =? "div")
           then inferLabelFromContent el else None) with
    | Some contentLabel => Text contentLabel
    | None =>
        match tableGet tagLabels tagName with
        | Some l => l
        | None =>
            if tagName =? "div" then Text "Block"
            else Text (Str.toUpperCase (Str.charAt0 tagName) ++ Str.slice1 tagName)%string
        end
    end in
  match el_role el with
  | Some role =>
      if Str.truthy role then
        match tableGet roleLabels role with
        | Some l => l
        | None => fromTag
        end
      else fromTag
  | None => fromTag
  end.

(** Generate a human-readable label for an element. *)
Definition generateLabel (el : Element) : JSValue :=
  match getClassLabel el with
  | Some classLabel => Text classLabel
  | None =>
      let id := el_id el in
      if Str.truthy id && (2 <? Str.length id)%nat && (Str.length id <? 30)%nat
      then Text (labelFromId id)
      else labelFromRole el
  end.

(** Classify element into a semantic type for color coding.  Past the
    tests on tag and role, [label.toLowerCase()] raises a TypeError when
    the label is not a string. *)
Definition getSemanticType (el : Element) (label : JSValue) : Res SemanticType :=
  let tagName := Str.toLowerCase (el_tagName el) in
  let role := el_role el in
  let roleIs (r : string) :=
    match role with Some r' => r' =? r | None => false end in
  if (tagName =? "header") || roleIs "banner" then Ok header
  else if (tagName =? "nav") || roleIs "navigation" then Ok navigation
  else if (tagName =? "footer") || roleIs "contentinfo" then Ok footer
  else
    match label with
    | Inherited _ => Throw
    | Text label =>
        let lowerLabel := Str.toLowerCase label in
        if test (rx (alts [lit "hero"; lit "banner"])) lowerLabel then Ok hero
        else if test (rx (alts [lit "card"; lit "feature"; lit "service";
                                lit "testimonial"; lit "team"; lit "benefit"]))
                     lowerLabel then Ok card
        else if test (rx (alts [lit "cta";
                                seqs [lit "call"; Opt Dot; lit "to"; Opt Dot; lit "action"];
                                lit "contact"; lit "newsletter"]))
                     lowerLabel then Ok cta
        else if test (rx (alts [lit "nav"; lit "menu"])) lowerLabel then Ok navigation
        else Ok content
    end.

(** Check if an element is a button or button-like link. *)
Definition isButtonElement (el : Element) : bool :=
  let tagName := Str.toLowerCase (el_tagName el) in
  if tagName =? "button" then true
  else if tagName =? "input" then
    match el_type el with
    | Some type => (type =? "submit") || (type =? "button")
    | None => false
    end
  else if tagName =? "a" then
    if match el_role el with Some role => role =? "button" | None => false end then true
    else
      match className el with
      | Some cls =>
          test (ri (seqs [WordBoundary; alts [lit "btn"; lit "button"; lit "cta"];
                          WordBoundary])) cls
      | None => false
      end
  else false.

(** Check if an element is an icon (small SVG or icon font). *)
Definition isIconElement (el : Element) : Res bool :=
  let tagName := Str.toLowerCase (el_tagName el) in
  if tagName =? "svg" then
    rect <- getBoundingClientRect el ;;
    Ok (Qleb (rect_width rect * rect_height rect) 400)
  else if (tagName =? "i") || (tagName =? "span") then
    match className el with
    | Some cls =>
        Ok (test (ri (seqs [WordBoundary;
                            alts [lit "icon"; lit "fa-"; lit "bi-"; lit "material-icons"];
                            WordBoundary])) cls)
    | None => Ok false
    end
  else Ok false.

(** Get bounding box for any Element. *)
Definition getElementBoundingBox (el : Element) : Res BoundingBox :=
  rect <- getBoundingClientRect el ;;
  Ok {| bb_x := rect_left rect + scrollX window;
        bb_y := rect_top rect + scrollY window;
        bb_width := rect_width rect;
        bb_height := rect_height rect |}.

(** the [hints] array and the [counts] record of [detectContentHintsUnsafe] *)
Record HintState : Type := mkHintState {
  hints : list ContentHint;
  counts : ContentType -> nat
}.

Definition sameType (a b : ContentType) : bool :=
  match a, b with
  | image, image | button, button | text, text | icon, icon => true
  | _, _ => false
  end.

(** Helper to add hint if within limits *)
Definition addHint (type : ContentType) (bbox : BoundingBox) (label : option string)
           (st : HintState) : HintState :=
  let minSize := CONTENT_MIN_SIZES type in
  let maxCount := CONTENT_MAX_COUNTS type in
  if Qltb (bb_width bbox) (fst minSize) || Qltb (bb_height bbox) (snd minSize) then st
  else if (maxCount <=? counts st type)%nat then st
  else {| hints := hints st ++ [ {| hint_type := type; hint_bbox := bbox;
                                    hint_label := label |} ];
          counts := fun t => if sameType t type then S (counts st t) else counts st t |}.

(** the running box of the text loop; [None] is the initial state
    ([minX = Infinity], [hasVisibleText = false]) *)
Definition TextBox : Type := option (Q * Q * Q * Q).

Definition growTextBox (bbox : BoundingBox) (acc : TextBox) : TextBox :=
  match acc with
  | None =>
      Some (bb_x bbox, bb_y bbox, bb_x bbox + bb_width bbox, bb_y bbox + bb_height bbox)
  | Some (minX, minY, maxX, maxY) =>
      Some (Qmin minX (bb_x bbox), Qmin minY (bb_y bbox),
            Qmax maxX (bb_x bbox + bb_width bbox),
            Qmax maxY (bb_y bbox + bb_height bbox))
  end.

Definition imagesLoop (img : Element) (st : HintState) : Res HintState :=
  if negb (isHTMLElement img) then Ok st
  else
    visible <- isElementVisible img ;;
    if negb visible then Ok st
    else
      bbox <- getAbsoluteBoundingBox img ;;
      Ok (addHint image bbox None st).

Definition largeSvgLoop (svg : Element) (st : HintState) : Res HintState :=
  if negb (isSVGElement svg) then Ok st
  else
    rect <- getBoundingClientRect svg ;;
    if Qeqb (rect_width rect) 0 || Qeqb (rect_height rect) 0 then Ok st
    else
      let area := rect_width rect * rect_height rect in
      if Qltb 400 area then
        bbox <- getElementBoundingBox svg ;;
        Ok (addHint image bbox None st)
      else Ok st.

Definition buttonsLoop (btn : Element) (st : HintState) : Res HintState :=
  if negb (isHTMLElement btn) then Ok st
  else if negb (isButtonElement btn) then Ok st
  else
    visible <- isElementVisible btn ;;
    if negb visible then Ok st
    else
      bbox <- getAbsoluteBoundingBox btn ;;
      let label :=
        let t := Str.take 20 (Str.trim (el_textContent btn)) in
        if Str.truthy t then Some t else None in
      Ok (addHint button bbox label st).

Definition svgIconLoop (svg : Element) (st : HintState) : Res HintState :=
  if negb (isSVGElement svg) then Ok st
  else
    isIcon <- isIconElement svg ;;
    if isIcon then
      bbox <- getElementBoundingBox svg ;;
      Ok (addHint icon bbox None st)
    else Ok st.

Definition iconFontLoop (ic : Element) (st : HintState) : Res HintState :=
  if negb (isHTMLElement ic) then Ok st
  else
    isIcon <- isIconElement ic ;;
    if negb isIcon then Ok st
    else
      visible <- isElementVisible ic ;;
      if negb visible then Ok st
      else
        bbox <- getAbsoluteBoundingBox ic ;;
        Ok (addHint icon bbox None st).

Definition textLoop (t : Element) (acc : TextBox) : Res TextBox :=
  if negb (isHTMLElement t) then Ok acc
  else
    visible <- isElementVisible t ;;
    if negb visible then Ok acc
    else
      rect <- getBoundingClientRect t ;;
      if Qltb (rect_width rect) 20 || Qltb (rect_height rect) 10 then Ok acc
      else
        bbox <- getAbsoluteBoundingBox t ;;
        Ok (growTextBox bbox acc).

(** the selector [button, a, input[type='submit'], input[type='button']] *)
Definition matchesButtonSelector (el : Element) : bool :=
  let tagName := Str.toLowerCase (el_tagName el) in
  (tagName =? "button") || (tagName =? "a")
  || ((tagName =? "input")
      && match el_type el with
         | Some type => (type =? "submit") || (type =? "button")
         | None => false
         end).

Definition detectContentHintsUnsafe (el : Element) : Res (list ContentHint) :=
  let st0 := {| hints := []; counts := fun _ => O |} in
  (* Detect images: <img>, <picture>, <figure>, large <svg> *)
  let images := querySelectorAllTags ["img"; "picture"; "figure"] el in
  st1 <- forEach imagesLoop images st0 ;;
  (* Large SVGs are images (small ones are icons, handled below) *)
  let svgs := querySelectorAllTags ["svg"] el in
  st2 <- forEach largeSvgLoop svgs st1 ;;
  (* Detect buttons *)
  let buttons := filter matchesButtonSelector (descendants el) in
  st3 <- forEach buttonsLoop buttons st2 ;;
  (* Detect icons (small SVGs, icon fonts) *)
  st4 <- forEach svgIconLoop svgs st3 ;;
  let iconFonts := querySelectorAllTags ["i"; "span"] el in
  st5 <- forEach iconFontLoop iconFonts st4 ;;
  (* Detect text blocks: collapse all <p> and headings into one hint *)
  let textElements := querySelectorAllTags ["p"; "h1"; "h2"; "h3"; "h4"; "h5"; "h6"] el in
  st6 <-
    (if (0 <? List.length textElements)%nat
        && (counts st5 text <? CONTENT_MAX_COUNTS text)%nat
     then
       box <- forEach textLoop textElements None ;;
       match box with
       | Some (minX, minY, maxX, maxY) =>
           Ok (addHint text {| bb_x := minX; bb_y := minY;
                               bb_width := maxX - minX;
                               bb_height := maxY - minY |} None st5)
       | None => Ok st5
       end
     else Ok st5) ;;
  Ok (hints st6).

(** Detect content elements within a node and return hints for rendering.
    Wrapped in try-catch to prevent breaking node creation on errors. *)
Definition detectContentHints (el : Element) : list ContentHint :=
  match detectContentHintsUnsafe el with
  | Ok hs => hs
  | _ => []
  end.

(** Check if bboxes are similar (for wrapper collapse). *)
Definition bboxesSimilar (a b : BoundingBox) : bool :=
  let areaA := bb_width a * bb_height a in
  let areaB := bb_width b * bb_height b in
  Qltb (areaA * (85 # 100)) areaB.

(** the recursive call of [buildNodeTree], at a smaller budget *)
Definition BuildFn : Type :=
  Element -> Z -> bool -> nat -> Res (option WireframeNode * nat).

(** the three child loops of [buildNodeTree]: build every selected
    element of [els] and push the nodes obtained onto [childNodes] *)
Fixpoint buildChildren (recur : BuildFn) (select : Element -> bool) (els : list Element)
         (depth : Z) (isGridItem : bool) (childNodes : list WireframeNode)
         (counter : nat) : Res (list WireframeNode * nat) :=
  match els with
  | [] => Ok (childNodes, counter)
  | child :: rest =>
      if select child then
        '(node, counter') <- recur child depth isGridItem counter ;;
        buildChildren recur select rest depth isGridItem
                      (match node with
                       | Some n => childNodes ++ [n]
                       | None => childNodes
                       end) counter'
      else buildChildren recur select rest depth isGridItem childNodes counter
  end.

(** Wrapper collapse: prefer child if it's more meaningful.
    Skip collapse for grid containers. *)
Definition wrapperCollapse (el : Element) (bbox : BoundingBox)
           (gridItems : option (list Element)) (childNodes : list WireframeNode)
  : option WireframeNode :=
  match childNodes, gridItems with
  | [child], None =>
      if bboxesSimilar bbox (wn_bbox child) then
        if negb (isLandmark el) && wn_isLandmark child then Some child
        else
          let myLabel := generateLabel el in
          if isText myLabel "Block" || isText myLabel "Section" then
            if negb (isText (wn_label child) "Block")
               && negb (isText (wn_label child) "Section")
            then Some child
            else None
          else None
      else None
  | _, _ => None
  end.

(** Create node for this element *)
Definition createNode (el : Element) (bbox : BoundingBox) (depth : Z) (isGridItem : bool)
           (childNodes : list WireframeNode) (counter : nat)
  : Res (WireframeNode * nat) :=
  let label := if isGridItem then Text (inferGridItemLabel el) else generateLabel el in
  let contentHints := detectContentHints el in
  let '(id, counter') := generateNodeId counter in
  semanticType <- (if isGridItem then Ok card else getSemanticType el label) ;;
  Ok ({| wn_id := id;
         wn_tagName := Str.toLowerCase (el_tagName el);
         wn_label := label;
         wn_bbox := bbox;
         wn_depth := depth;
         wn_children := childNodes;
         wn_isLandmark := isLandmark el;
         wn_semanticType := semanticType;
         wn_contentHints :=
           if (0 <? List.length contentHints)%nat then Some contentHints else None |},
      counter').

(** Process children: the grid items as cards and then the landmark
    children, or else every child, one level down when this element is
    significant and at the same depth when it is not *)
Definition processChildren (recur : BuildFn) (el : Element) (depth : Z)
           (significant : bool) (gridItems : option (list Element)) (isGridItem : bool)
           (counter : nat) : Res (list WireframeNode * nat) :=
  match gridItems with
  | Some items =>
      (* Process grid items as cards (leaf nodes) *)
      '(cards, c) <-
        buildChildren recur (fun _ => true) items (depth + 1)%Z true [] counter ;;
      (* Also process landmark children normally *)
      buildChildren recur (fun child => isHTMLElement child && isLandmark child)
                    (el_children el) (depth + 1)%Z false cards c
  | None =>
      if negb isGridItem then
        (* Normal child processing *)
        buildChildren recur isHTMLElement (el_children el)
                      (if significant then (depth + 1)%Z else depth)
                      false [] counter
      else Ok ([], counter)
  end.

(** what [buildNodeTree] returns once the children are built: the
    bubbled-up child of an insignificant element, the surviving child
    of a wrapper collapse, or a new node *)
Definition returnNode (el : Element) (bbox : BoundingBox) (depth : Z) (isGridItem : bool)
           (significant : bool) (gridItems : option (list Element))
           (childNodes : list WireframeNode) (counter : nat)
  : Res (option WireframeNode * nat) :=
  (* If this element isn't significant, bubble up children *)
  if negb significant then
    match childNodes with
    | [only] => Ok (Some only, counter)
    | _ => Ok (None, counter)
    end
  else
    match wrapperCollapse el bbox gridItems childNodes with
    | Some child => Ok (Some child, counter)
    | None =>
        '(node, counter') <- createNode el bbox depth isGridItem childNodes counter ;;
        Ok (Some node, counter')
    end.

(** the body of [buildNodeTree]; [recur] stands for the function itself *)
Definition buildNodeTreeBody (recur : BuildFn) (el : Element) (depth : Z)
           (viewportArea : Q) (config : AnalyzerConfig) (isGridItem : bool)
           (counter : nat) : Res (option WireframeNode * nat) :=
  (* Grid items can exist at maxDepth (they're leaf nodes) *)
  if (maxDepth config <? depth)%Z && negb isGridItem then Ok (None, counter)
  else
    visible <- isElementVisible el ;;
    if negb visible then Ok (None, counter)
    else
      bbox <- getAbsoluteBoundingBox el ;;
      (* Grid items bypass normal significance filtering *)
      significant <-
        (if isGridItem then Ok true else isSignificant el viewportArea config) ;;
      (* Check for grid container BEFORE normal child processing *)
      gridItems <-
        (if significant && negb isGridItem then detectGridItems el else Ok None) ;;
      '(childNodes, counter1) <-
        processChildren recur el depth significant gridItems isGridItem counter ;;
      returnNode el bbox depth isGridItem significant gridItems childNodes counter1.

(** Recursively build wireframe nodes from DOM elements. *)
Fixpoint buildNodeTree (fuel : nat) (el : Element) (depth : Z) (viewportArea : Q)
         (config : AnalyzerConfig) (isGridItem : bool) (counter : nat)
  : Res (option WireframeNode * nat) :=
  match fuel with
  | O => OutOfFuel
  | S fuel' =>
      buildNodeTreeBody
        (fun child d g c => buildNodeTree fuel' child d viewportArea config g c)
        el depth viewportArea config isGridItem counter
  end.

(** [{ ...DEFAULT_CONFIG, ...config }] *)
Definition mergeConfig (config : PartialConfig) : AnalyzerConfig :=
  {| minArea := match p_minArea config with Some v => v | None => minArea DEFAULT_CONFIG end;
     maxDepth := match p_maxDepth config with Some v => v | None => maxDepth DEFAULT_CONFIG end;
     viewportAreaThreshold :=
       match p_viewportAreaThreshold config with
       | Some v => v
       | None => viewportAreaThreshold DEFAULT_CONFIG
       end |}.

(** Analyze the DOM and build a wireframe model.  [body] is the element
    whose children are analyzed; the counter restarts at 0. *)
Definition analyzeDom (body : Element) (config : PartialConfig) : Res WireframeModel :=
  let nodeIdCounter := O in
  let mergedConfig := mergeConfig config in
  let viewportWidth := innerWidth window in
  let viewportHeight := innerHeight window in
  let viewportArea := viewportWidth * viewportHeight in
  let fullPageHeight := Qmax (bodyScrollHeight window) (documentScrollHeight window) in
  '(nodes, _) <-
    buildChildren
      (fun child d g c =>
         buildNodeTree (S (treeHeight body)) child d viewportArea mergedConfig g c)
      isHTMLElement (el_children body) 0%Z false [] nodeIdCounter ;;
  Ok {| nodes := nodes;
        viewport := (viewportWidth, viewportHeight);
        fullPageHeight := fullPageHeight;
        pageUrl := locationHref window;
        capturedAt := nowISOString window |}.

End Analyzer.

(** Flatten the tree into an array of nodes. *)
Fixpoint traverse (node : WireframeNode) : list WireframeNode :=
  node :: flat_map traverse (wn_children node).

Definition flattenNodes (nodes : list WireframeNode) : list WireframeNode :=
  flat_map traverse nodes.

(* ================================================================== *)
(** ** More string methods, numerals and maps                          *)
(* ================================================================== *)

Module JSString.

(** [s.slice(0, -1)] *)
Fixpoint dropLast (s : string) : string :=
  match s with
  | EmptyString => EmptyString
  | String c s' =>
      match s' with
      | EmptyString => EmptyString
      | String _ _ => String c (dropLast s')
      end
  end.

(** [s.slice(from, to)] for [0 <= from <= to] *)
Definition slice (from to : nat) (s : string) : string :=
  String.substring from (to - from) s.

(** [s.replace(c, "")] for a one-character pattern: the first occurrence *)
Fixpoint removeFirst (c : ascii) (s : string) : string :=
  match s with
  | EmptyString => EmptyString
  | String x s' => if Ascii.eqb x c then s' else String x (removeFirst c s')
  end.

Definition hexDigit (c : ascii) : option Z :=
  let n := Z.of_nat (Str.code c) in
  if Str.isDigit c then Some (n - 48)%Z
  else if Str.between 97 102 c then Some (n - 87)%Z
  else if Str.between 65 70 c then Some (n - 55)%Z
  else None.

(** the value of the longest prefix of hexadecimal digits, if any *)
Fixpoint hexPrefix (s : string) (acc : option Z) : option Z :=
  match s with
  | EmptyString => acc
  | String c s' =>
      match hexDigit c with
      | Some d =>
          hexPrefix s' (Some (16 * match acc with Some a => a | None => 0 end + d)%Z)
      | None => acc
      end
  end.

(** [parseInt(s, 16)]; [None] is [NaN] *)
Definition parseInt16 (s : string) : option Z :=
  let s1 := Str.trimStart s in
  let '(negative, s2) :=
    match s1 with
    | String "-"%char r => (true, r)
    | String "+"%char r => (false, r)
    | _ => (false, s1)
    end in
  let s3 :=
    match s2 with
    | String "0"%char (String "x"%char r) => r
    | String "0"%char (String "X"%char r) => r
    | _ => s2
    end in
  option_map (fun v => if negative then (- v)%Z else v) (hexPrefix s3 None).

(** the decimal numeral of an integer, as a template literal prints it *)
Definition ofZ (z : Z) : string := NilZero.string_of_int (Z.to_int z).

(** a number that may be [NaN], as a template literal prints it *)
Definition ofNumber (n : option Z) : string :=
  match n with Some z => ofZ z | None => "NaN" end.

End JSString.

(** A [Map<string, string>]: its entries, in insertion order *)
Module JSMap.

Definition t : Type := list (string * string).

Definition get (m : t) (key : string) : option string := Str.lookup m key.

Fixpoint set (m : t) (key value : string) : t :=
  match m with
  | [] => [(key, value)]
  | (k, v) :: rest =>
      if String.eqb k key then (k, value) :: rest else (k, v) :: set rest key value
  end.

End JSMap.

(* ================================================================== *)
(** ** The 2D context the renderer draws with                          *)
(* ================================================================== *)

Module Canvas.

(** a segment of the current path; angles are in units of [Math.PI] *)
Inductive PathOp : Type :=
| MoveTo (x y : Q)
| LineTo (x y : Q)
| QuadraticCurveTo (cpx cpy x y : Q)
| Arc (x y radius startAngle endAngle : Q)
| ClosePath.

(** the font of the context: the default font, or the renderer's font
    family at the given size in px *)
Inductive Font : Type :=
| DefaultFont
| SystemFont (size : Q).

(** what reaches the bitmap, with the styles in force when it does *)
Inductive Drawn : Type :=
| FillRect (fillStyle : string) (x y w h : Q)
| Fill (fillStyle : string) (path : list PathOp)
| Stroke (strokeStyle : string) (lineWidth : Q) (lineDash : list Q) (lineCap : string)
         (path : list PathOp)
| FillText (fillStyle : string) (font : Font) (textBaseline textAlign : string)
           (text : JSValue) (x y : Q).

Record Context : Type := mkContext {
  fillStyle : string;
  strokeStyle : string;
  lineWidth : Q;
  lineDash : list Q;
  lineCap : string;
  font : Font;
  textBaseline : string;
  textAlign : string;
  path : list PathOp;
  drawn : list Drawn
}.

Definition setFillStyle (v : string) (c : Context) : Context :=
  mkContext v (strokeStyle c) (lineWidth c) (lineDash c) (lineCap c) (font c)
            (textBaseline c) (textAlign c) (path c) (drawn c).
Definition setStrokeStyle (v : string) (c : Context) : Context :=
  mkContext (fillStyle c) v (lineWidth c) (lineDash c) (lineCap c) (font c)
            (textBaseline c) (textAlign c) (path c) (drawn c).
Definition setLineWidth (v : Q) (c : Context) : Context :=
  mkContext (fillStyle c) (strokeStyle c) v (lineDash c) (lineCap c) (font c)
            (textBaseline c) (textAlign c) (path c) (drawn c).
Definition setLineDash (v : list Q) (c : Context) : Context :=
  mkContext (fillStyle c) (strokeStyle c) (lineWidth c) v (lineCap c) (font c)
            (textBaseline c) (textAlign c) (path c) (drawn c).
Definition setLineCap (v : string) (c : Context) : Context :=
  mkContext (fillStyle c) (strokeStyle c) (lineWidth c) (lineDash c) v (font c)
            (textBaseline c) (textAlign c) (path c) (drawn c).
(** [ctx.font = `${size}px <the renderer's family>`]: a size below zero
    is no font size, and the assignment is then ignored *)
Definition setFont (size : Q) (c : Context) : Context :=
  if Qltb size 0 then c
  else mkContext (fillStyle c) (strokeStyle c) (lineWidth c) (lineDash c) (lineCap c)
                 (SystemFont size) (textBaseline c) (textAlign c) (path c) (drawn c).
Definition setTextBaseline (v : string) (c : Context) : Context :=
  mkContext (fillStyle c) (strokeStyle c) (lineWidth c) (lineDash c) (lineCap c) (font c)
            v (textAlign c) (path c) (drawn c).
Definition setTextAlign (v : string) (c : Context) : Context :=
  mkContext (fillStyle c) (strokeStyle c) (lineWidth c) (lineDash c) (lineCap c) (font c)
            (textBaseline c) v (path c) (drawn c).
Definition setPath (v : list PathOp) (c : Context) : Context :=
  mkContext (fillStyle c) (strokeStyle c) (lineWidth c) (lineDash c) (lineCap c) (font c)
            (textBaseline c) (textAlign c) v (drawn c).
Definition draw (d : Drawn) (c : Context) : Context :=
  mkContext (fillStyle c) (strokeStyle c) (lineWidth c) (lineDash c) (lineCap c) (font c)
            (textBaseline c) (textAlign c) (path c) (drawn c ++ [d]).

Definition beginPath (c : Context) : Context := setPath [] c.
Definition addToPath (op : PathOp) (c : Context) : Context := setPath (path c ++ [op]) c.
Definition moveTo (x y : Q) : Context -> Context := addToPath (MoveTo x y).
Definition lineTo (x y : Q) : Context -> Context := addToPath (LineTo x y).
Definition quadraticCurveTo (cpx cpy x y : Q) : Context -> Context :=
  addToPath (QuadraticCurveTo cpx cpy x y).
Definition arc (x y radius startAngle endAngle : Q) : Context -> Context :=
  addToPath (Arc x y radius startAngle endAngle).
Definition closePath : Context -> Context := addToPath ClosePath.

Definition fill (c : Context) : Context := draw (Fill (fillStyle c) (path c)) c.
Definition stroke (c : Context) : Context :=
  draw (Stroke (strokeStyle c) (lineWidth c) (lineDash c) (lineCap c) (path c)) c.
Definition fillText (text : JSValue) (x y : Q) (c : Context) : Context :=
  draw (FillText (fillStyle c) (font c) (textBaseline c) (textAlign c) text x y) c.
Definition fillRect (x y w h : Q) (c : Context) : Context :=
  draw (FillRect (fillStyle c) x y w h) c.

(** a canvas element: its size and what [getContext("2d")] gives *)
Record HTMLCanvasElement : Type := mkCanvas {
  width : Q;
  height : Q;
  context2d : option Context
}.

End Canvas.

(* ================================================================== *)
(** ** The renderer ([src/renderer.ts])                                *)
(* ================================================================== *)

(** Configuration options for the renderer *)
Record RendererConfig : Type := mkRendererConfig {
  showLabels : bool;
  backgroundColor : string;
  blockFillColor : string;
  blockBorderColor : string;
  labelColor : string;
  labelFontSize : Q;
  labelOverrides : option JSMap.t;
  showContentHints : option bool
}.

(** [Partial<RendererConfig>] *)
Record PartialRendererConfig : Type := mkPartialRendererConfig {
  p_showLabels : option bool;
  p_backgroundColor : option string;
  p_blockFillColor : option string;
  p_blockBorderColor : option string;
  p_labelColor : option string;
  p_labelFontSize : option Q;
  p_labelOverrides : option JSMap.t;
  p_showContentHints : option bool
}.

(** Badge position info for click detection *)
Record BadgeInfo : Type := mkBadge {
  badge_nodeId : string;
  badge_x : Q;
  badge_y : Q;
  badge_width : Q;
  badge_height : Q;
  badge_label : JSValue
}.

(** Pastel colors for semantic differentiation *)
Definition SEMANTIC_COLORS (t : SemanticType) : string :=
  match t with
  | header => "#e8eaf6"
  | navigation => "#e3f2fd"
  | hero => "#f3e5f5"
  | content => "#f5f5f5"
  | card => "#fffde7"
  | cta => "#e8f5e9"
  | footer => "#eceff1"
  end.

Definition DEFAULT_RENDERER_CONFIG : RendererConfig :=
  {| showLabels := false;
     backgroundColor := "#ffffff";
     blockFillColor := "#f5f5f5";
     blockBorderColor := "#333333";
     labelColor := "#333333";
     labelFontSize := 12;
     labelOverrides := None;
     showContentHints := Some true |}.

(** Get border width based on node depth. *)
Definition getBorderWidth (depth : Z) : Z :=
  if (depth =? 0)%Z then 3%Z
  else if (depth <=? 2)%Z then 2%Z
  else 1%Z.

(** the channels [r], [g], [b] of [getFillColor] *)
Definition fillChannels (semanticType : SemanticType) (depth : Z)
  : option Z * option Z * option Z :=
  let baseColor := SEMANTIC_COLORS semanticType in
  let darkenAmount := Z.min (depth * 5) 20 in
  let hex := JSString.removeFirst "#" baseColor in
  let channel (from to : nat) :=
    option_map (fun v => Z.max 0 (v - darkenAmount))
               (JSString.parseInt16 (JSString.slice from to hex)) in
  (channel 0%nat 2%nat, channel 2%nat 4%nat, channel 4%nat 6%nat).

(** Get fill color based on semantic type, with depth-based darkening. *)
Definition getFillColor (semanticType : SemanticType) (depth : Z) : string :=
  let '(r, g, b) := fillChannels semanticType depth in
  ("rgb(" ++ JSString.ofNumber r ++ ", " ++ JSString.ofNumber g ++ ", " ++ JSString.ofNumber b ++ ")")
    %string.

Section Renderer.

Import Canvas.

(** [ctx.measureText(text).width] in the font of the context *)
Variable measureText : Font -> JSValue -> Q.

(** Draw a rounded rectangle on canvas. *)
Definition drawRoundedRect (x y width height radius : Q) (ctx : Context) : Context :=
  let ctx := beginPath ctx in
  let ctx := moveTo (x + radius) y ctx in
  let ctx := lineTo (x + width - radius) y ctx in
  let ctx := quadraticCurveTo (x + width) y (x + width) (y + radius) ctx in
  let ctx := lineTo (x + width) (y + height - radius) ctx in
  let ctx := quadraticCurveTo (x + width) (y + height) (x + width - radius) (y + height) ctx in
  let ctx := lineTo (x + radius) (y + height) ctx in
  let ctx := quadraticCurveTo x (y + height) x (y + height - radius) ctx in
  let ctx := lineTo x (y + radius) ctx in
  let ctx := quadraticCurveTo x y (x + radius) y ctx in
  closePath ctx.

(** Draw a pill shape (rounded rectangle with full-radius ends). *)
Definition drawPillShape (x y width height : Q) (ctx : Context) : Context :=
  let radius := height / 2 in
  let ctx := beginPath ctx in
  let ctx := moveTo (x + radius) y ctx in
  let ctx := lineTo (x + width - radius) y ctx in
  let ctx := arc (x + width - radius) (y + radius) radius (- (1 # 2)) (1 # 2) ctx in
  let ctx := lineTo (x + radius) (y + height) ctx in
  let ctx := arc (x + radius) (y + radius) radius (1 # 2) (- (1 # 2)) ctx in
  closePath ctx.

(** Render an image placeholder (box with diagonal cross). *)
Definition renderImagePlaceholder (hint : ContentHint) (ctx : Context) : Context :=
  let x := bb_x (hint_bbox hint) in
  let y := bb_y (hint_bbox hint) in
  let width := bb_width (hint_bbox hint) in
  let height := bb_height (hint_bbox hint) in
  let padding := 2 in
  let px := x + padding in
  let py := y + padding in
  let pw := width - padding * 2 in
  let ph := height - padding * 2 in
  if Qltb pw 10 || Qltb ph 10 then ctx
  else
    (* Draw border *)
    let ctx := setStrokeStyle "#999999" ctx in
    let ctx := setLineWidth 1 ctx in
    let ctx := setLineDash [] ctx in
    let ctx := drawRoundedRect px py pw ph 4 ctx in
    let ctx := stroke ctx in
    (* Draw diagonal cross *)
    let ctx := beginPath ctx in
    let ctx := moveTo px py ctx in
    let ctx := lineTo (px + pw) (py + ph) ctx in
    let ctx := moveTo (px + pw) py ctx in
    let ctx := lineTo px (py + ph) ctx in
    stroke ctx.

(** the [while] loops that shorten a label: as long as the label has more
    than 3 characters and does not fit with its ellipsis, its last
    character is dropped.  [chars] is the label, last character first. *)
Fixpoint shorten (fits : string -> bool) (chars : list ascii) : list ascii :=
  match chars with
  | [] => []
  | _ :: rest =>
      if (3 <? List.length chars)%nat
         && negb (fits (string_of_list_ascii (rev chars) ++ "...")%string)
      then shorten fits rest
      else chars
  end.

Definition shortenLabel (fits : string -> bool) (label : string) : string :=
  string_of_list_ascii (rev (shorten fits (rev (list_ascii_of_string label)))).

(** Render a button placeholder (pill shape). *)
Definition renderButtonPlaceholder (hint : ContentHint) (ctx : Context) : Context :=
  let x := bb_x (hint_bbox hint) in
  let y := bb_y (hint_bbox hint) in
  let width := bb_width (hint_bbox hint) in
  let height := bb_height (hint_bbox hint) in
  if Qltb width 20 || Qltb height 10 then ctx
  else
    (* Draw filled pill *)
    let ctx := setFillStyle "#e0e0e0" ctx in
    let ctx := drawPillShape x y width height ctx in
    let ctx := fill ctx in
    (* Draw border *)
    let ctx := setStrokeStyle "#666666" ctx in
    let ctx := setLineWidth 1 ctx in
    let ctx := setLineDash [] ctx in
    let ctx := drawPillShape x y width height ctx in
    let ctx := stroke ctx in
    (* Draw label if available *)
    match hint_label hint with
    | Some label =>
        if Str.truthy label && Qltb 40 width then
          let ctx := setFont (Qmin 11 (height - 6)) ctx in
          let ctx := setFillStyle "#333333" ctx in
          let ctx := setTextBaseline "middle" ctx in
          let ctx := setTextAlign "center" ctx in
          let maxTextWidth := width - 16 in
          let displayLabel :=
            if Qltb maxTextWidth (measureText (font ctx) (Text label)) then
              (shortenLabel
                 (fun s => negb (Qltb maxTextWidth (measureText (font ctx) (Text s))))
                 label ++ "...")%string
            else label in
          let ctx := fillText (Text displayLabel) (x + width / 2) (y + height / 2) ctx in
          setTextAlign "left" ctx
        else ctx
    | None => ctx
    end.

(** Render a text block placeholder (horizontal lines). *)
Definition renderTextPlaceholder (hint : ContentHint) (ctx : Context) : Context :=
  let x := bb_x (hint_bbox hint) in
  let y := bb_y (hint_bbox hint) in
  let width := bb_width (hint_bbox hint) in
  let height := bb_height (hint_bbox hint) in
  let padding := 4 in
  let lineHeight := 8 in
  let lineSpacing := 12 in
  let maxLines := Z.min 4 (Qfloor ((height - padding * 2) / lineSpacing)) in
  if (maxLines <? 1)%Z || Qltb width 30 then ctx
  else
    let ctx := setStrokeStyle "#cccccc" ctx in
    let ctx := setLineWidth 2 ctx in
    let ctx := setLineCap "round" ctx in
    let ctx := setLineDash [] ctx in
    let ctx :=
      fold_left
        (fun ctx (i : nat) =>
           let lineY := y + padding + inject_Z (Z.of_nat i) * lineSpacing + lineHeight / 2 in
           (* Last line is shorter *)
           let lineWidth :=
             if (Z.of_nat i =? maxLines - 1)%Z then (width - padding * 2) * (6 # 10)
             else width - padding * 2 in
           let ctx := beginPath ctx in
           let ctx := moveTo (x + padding) lineY ctx in
           let ctx := lineTo (x + padding + lineWidth) lineY ctx in
           stroke ctx)
        (seq 0 (Z.to_nat maxLines)) ctx in
    setLineCap "butt" ctx.

(** Render an icon placeholder (small circle). *)
Definition renderIconPlaceholder (hint : ContentHint) (ctx : Context) : Context :=
  let x := bb_x (hint_bbox hint) in
  let y := bb_y (hint_bbox hint) in
  let width := bb_width (hint_bbox hint) in
  let height := bb_height (hint_bbox hint) in
  let cx := x + width / 2 in
  let cy := y + height / 2 in
  let radius := Qmin width height / 2 - 1 in
  if Qltb radius 4 then ctx
  else
    let ctx := setStrokeStyle "#999999" ctx in
    let ctx := setLineWidth 1 ctx in
    let ctx := setLineDash [] ctx in
    let ctx := beginPath ctx in
    let ctx := arc cx cy radius 0 2 ctx in
    stroke ctx.

Definition typeOrder (t : ContentType) : nat :=
  match t with
  | text => 0
  | image => 1
  | button => 2
  | icon => 3
  end.

(** [[...hints].sort((a, b) => typeOrder[a.type] - typeOrder[b.type])]:
    the sort is stable *)
Fixpoint insertByType (h : ContentHint) (sorted : list ContentHint) : list ContentHint :=
  match sorted with
  | [] => [h]
  | k :: rest =>
      if (typeOrder (hint_type h) <=? typeOrder (hint_type k))%nat then h :: sorted
      else k :: insertByType h rest
  end.

Definition sortByType (hints : list ContentHint) : list ContentHint :=
  fold_right insertByType [] hints.

(** Render all content hints for a node.
    Z-order: text (back), images, buttons, icons (front) *)
Definition renderContentHints (hints : list ContentHint) (ctx : Context) : Context :=
  let sorted := sortByType hints in
  fold_left
    (fun ctx hint =>
       match hint_type hint with
       | image => renderImagePlaceholder hint ctx
       | button => renderButtonPlaceholder hint ctx
       | text => renderTextPlaceholder hint ctx
       | icon => renderIconPlaceholder hint ctx
       end)
    sorted ctx.

(** [`${displayLabel}...`] *)
Definition withEllipsis (s : string) : JSValue := Text (s ++ "...")%string.

(** Render a label badge with solid dark background.
    Returns badge dimensions for click detection.  A label that is no
    string has a length of 2 at most, or none: it is not shortened. *)
Definition renderLabelBadge (label : JSValue) (x y maxWidth fontSize : Q) (ctx : Context)
  : Context * (Q * Q * JSValue) :=
  let paddingX := 6 in
  let paddingY := 3 in
  let badgeRadius := 3 in
  let ctx := setFont fontSize ctx in
  (* Truncate label if needed *)
  let maxTextWidth := maxWidth - paddingX * 2 - 16 in
  let displayLabel :=
    match label with
    | Text s =>
        (* the first test of the loop measures the label without ellipsis *)
        if Qltb maxTextWidth (measureText (font ctx) label) && (3 <? Str.length s)%nat then
          let shortened :=
            shortenLabel
              (fun s' => negb (Qltb maxTextWidth (measureText (font ctx) (Text s'))))
              (JSString.dropLast s) in
          Text (shortened ++ "...")%string
        else label
    | Inherited _ => label
    end in
  let textWidth := measureText (font ctx) displayLabel in
  let badgeWidth := textWidth + paddingX * 2 in
  let badgeHeight := fontSize + paddingY * 2 in
  (* Draw badge background *)
  let ctx := setFillStyle "#333333" ctx in
  let ctx := drawRoundedRect x y badgeWidth badgeHeight badgeRadius ctx in
  let ctx := fill ctx in
  (* Draw text *)
  let ctx := setFillStyle "#ffffff" ctx in
  let ctx := setTextBaseline "top" ctx in
  let ctx := fillText displayLabel (x + paddingX) (y + paddingY) ctx in
  (ctx, (badgeWidth, badgeHeight, displayLabel)).

(** Render a single wireframe node.
    Returns badge info if a label was rendered, null otherwise. *)
Definition renderNode (node : WireframeNode) (config : RendererConfig) (ctx : Context)
  : Context * option BadgeInfo :=
  let id := wn_id node in
  let bbox := wn_bbox node in
  let depth := wn_depth node in
  let label := wn_label node in
  let borderWidth := inject_Z (getBorderWidth depth) in
  let cornerRadius := 4 in
  (* Adjust coordinates for border width *)
  let x := bb_x bbox + borderWidth / 2 in
  let y := bb_y bbox + borderWidth / 2 in
  let w := bb_width bbox - borderWidth in
  let h := bb_height bbox - borderWidth in
  (* Skip very small boxes *)
  if Qltb w 10 || Qltb h 10 then (ctx, None)
  else
    (* Draw fill with semantic color *)
    let ctx := setFillStyle (getFillColor (wn_semanticType node) depth) ctx in
    let ctx := drawRoundedRect x y w h cornerRadius ctx in
    let ctx := fill ctx in
    (* Draw border *)
    let ctx := setStrokeStyle (blockBorderColor config) ctx in
    let ctx := setLineWidth borderWidth ctx in
    (* Use dashed line for non-landmark elements at depth > 0 *)
    let ctx :=
      if negb (wn_isLandmark node) && (0 <? depth)%Z then setLineDash [4; 4] ctx
      else setLineDash [] ctx in
    let ctx := drawRoundedRect x y w h cornerRadius ctx in
    let ctx := stroke ctx in
    (* Reset line dash *)
    let ctx := setLineDash [] ctx in
    (* Draw content hints if enabled *)
    let ctx :=
      match wn_contentHints node with
      | Some hints =>
          if negb (match showContentHints config with Some false => true | _ => false end)
             && (0 <? List.length hints)%nat
          then renderContentHints hints ctx
          else ctx
      | None => ctx
      end in
    (* Draw label badge if enabled and box is large enough *)
    if showLabels config && Qltb 60 w && Qltb 30 h then
      (* Check for label override (empty string = hidden) *)
      let overriddenLabel :=
        match labelOverrides config with
        | Some overrides => JSMap.get overrides id
        | None => None
        end in
      let displayLabel :=
        match overriddenLabel with
        | Some l => Text l
        | None => label
        end in
      (* Skip if label is empty (hidden) *)
      if isText displayLabel "" then (ctx, None)
      else
        let fontSize := Qmin (labelFontSize config) 11 in
        let badgePadding := 8 in
        let badgeX := x + badgePadding in
        let badgeY := y + badgePadding in
        let '(ctx, (badgeWidth, badgeHeight, shown)) :=
          renderLabelBadge displayLabel badgeX badgeY (w - badgePadding * 2) fontSize ctx in
        (ctx, Some {| badge_nodeId := id;
                      badge_x := badgeX;
                      badge_y := badgeY;
                      badge_width := badgeWidth;
                      badge_height := badgeHeight;
                      badge_label := displayLabel |})
    else (ctx, None).

(** Recursively render nodes; the children of a node are drawn after it,
    on top.  Collects badge info for click detection.  [renderTree] is the
    body of the loop for one node. *)
Fixpoint renderTree (config : RendererConfig) (node : WireframeNode)
         (acc : Context * list BadgeInfo) : Context * list BadgeInfo :=
  let '(ctx, badges) := acc in
  let '(ctx, badge) := renderNode node config ctx in
  let badges := match badge with Some b => badges ++ [b] | None => badges end in
  (* Render children on top *)
  fold_left (fun acc child => renderTree config child acc) (wn_children node)
            (ctx, badges).

Definition renderNodeTree (nodes : list WireframeNode) (config : RendererConfig)
           (ctx : Context) (badges : list BadgeInfo) : Context * list BadgeInfo :=
  fold_left (fun acc node => renderTree config node acc) nodes (ctx, badges).

(** [{ ...DEFAULT_RENDERER_CONFIG, ...config }] *)
Definition mergeRendererConfig (config : PartialRendererConfig) : RendererConfig :=
  let pick {A : Type} (o : option A) (d : A) := match o with Some v => v | None => d end in
  {| showLabels := pick (p_showLabels config) (showLabels DEFAULT_RENDERER_CONFIG);
     backgroundColor :=
       pick (p_backgroundColor config) (backgroundColor DEFAULT_RENDERER_CONFIG);
     blockFillColor := pick (p_blockFillColor config) (blockFillColor DEFAULT_RENDERER_CONFIG);
     blockBorderColor :=
       pick (p_blockBorderColor config) (blockBorderColor DEFAULT_RENDERER_CONFIG);
     labelColor := pick (p_labelColor config) (labelColor DEFAULT_RENDERER_CONFIG);
     labelFontSize := pick (p_labelFontSize config) (labelFontSize DEFAULT_RENDERER_CONFIG);
     labelOverrides :=
       match p_labelOverrides config with
       | Some m => Some m
       | None => labelOverrides DEFAULT_RENDERER_CONFIG
       end;
     showContentHints :=
       match p_showContentHints config with
       | Some b => Some b
       | None => showContentHints DEFAULT_RENDERER_CONFIG
       end |}.

(** Render the wireframe model to a canvas.
    Returns badge positions for click detection. *)
Definition renderWireframe (model : WireframeModel) (canvas : HTMLCanvasElement)
           (config : PartialRendererConfig) : Res (HTMLCanvasElement * list BadgeInfo) :=
  let mergedConfig := mergeRendererConfig config in
  match context2d canvas with
  | None => Throw   (* Failed to get 2D context from canvas *)
  | Some ctx =>
      (* Clear and fill background *)
      let ctx := setFillStyle (backgroundColor mergedConfig) ctx in
      let ctx := fillRect 0 0 (width canvas) (height canvas) ctx in
      (* Render all nodes and collect badge positions *)
      let '(ctx, badges) := renderNodeTree (nodes model) mergedConfig ctx [] in
      Ok ({| width := width canvas; height := height canvas; context2d := Some ctx |},
          badges)
  end.

End Renderer.

(* ================================================================== *)
(** ** The overlay ([src/main.ts])                                     *)
(* ================================================================== *)

(** Count total nodes in the tree.  [countBelow node] is the summand
    [1 + countNodes(node.children)] of the loop. *)
Fixpoint countBelow (node : WireframeNode) : nat :=
  (1 + fold_left (fun count child => count + countBelow child) (wn_children node) 0)%nat.

Definition countNodes (nodes : list WireframeNode) : nat :=
  fold_left (fun count node => (count + countBelow node)%nat) nodes 0%nat.

(** Find which badge was clicked based on canvas coordinates.
    [searchBadges badges x y n] runs the loop from [i = n - 1] down to 0;
    the badge at an index below the length is always there. *)
Fixpoint searchBadges (badges : list BadgeInfo) (canvasX canvasY : Q) (n : nat)
  : option BadgeInfo :=
  match n with
  | O => None
  | S i =>
      match nth_error badges i with
      | Some badge =>
          if Qleb (badge_x badge) canvasX
             && Qleb canvasX (badge_x badge + badge_width badge)
             && Qleb (badge_y badge) canvasY
             && Qleb canvasY (badge_y badge + badge_height badge)
          then Some badge
          else searchBadges badges canvasX canvasY i
      | None => None
      end
  end.

Definition findBadgeAtPosition (badges : list BadgeInfo) (canvasX canvasY : Q)
  : option BadgeInfo :=
  (* Search in reverse order (top-most badges first) *)
  searchBadges badges canvasX canvasY (List.length badges).

(** the name under which the wireframe is exported (the handler of the
    "Export PNG" button): the page title with every character outside
    [[a-zA-Z0-9]] replaced by a dash, runs of dashes collapsed, cut to 50
    characters *)
Definition isAlphaNumeric (c : ascii) : bool :=
  Str.isLower c || Str.isUpper c || Str.isDigit c.

(** [s.replace(/[^a-zA-Z0-9]/g, "-")] *)
Definition dashOthers (s : string) : string :=
  Str.mapChars (fun c => if isAlphaNumeric c then c else "-"%char) s.

(** [s.replace(/-+/g, "-")]; [afterDash] tells that the character before
    belongs to the run of dashes being replaced *)
Fixpoint collapseDashes (afterDash : bool) (s : string) : string :=
  match s with
  | EmptyString => EmptyString
  | String c s' =>
      if Ascii.eqb c "-"%char then
        if afterDash then collapseDashes true s'
        else String "-"%char (collapseDashes true s')
      else String c (collapseDashes false s')
  end.

Definition exportPageTitle (title : string) : string :=
  Str.take 50 (collapseDashes false (dashOthers title)).

(** [`wireframe-${pageTitle || "page"}-${Date.now()}.png`] *)
Definition exportFileName (title : string) (now : nat) : string :=
  let pageTitle := exportPageTitle title in
  ("wireframe-" ++ (if Str.truthy pageTitle then pageTitle else "page")
                ++ "-" ++ Str.ofNat now ++ ".png")%string.

(** the state of the overlay *)
Record WireframeMapperState : Type := mkState {
  st_model : option WireframeModel;
  st_canvas : option Canvas.HTMLCanvasElement;
  st_showLabels : bool;
  st_labelOverrides : JSMap.t;
  st_badges : list BadgeInfo;
  st_canvasContainer : option Element;
  st_canvasScale : Q
}.

Section Overlay.

Variable measureText : Canvas.Font -> JSValue -> Q.

(** Re-render the canvas with current state. *)
Definition rerender (state : WireframeMapperState) : Res WireframeMapperState :=
  match st_model state, st_canvas state with
  | Some model, Some canvas =>
      let config :=
        {| p_showLabels := Some (st_showLabels state);
           p_backgroundColor := None;
           p_blockFillColor := None;
           p_blockBorderColor := None;
           p_labelColor := None;
           p_labelFontSize := None;
           p_labelOverrides := Some (st_labelOverrides state);
           p_showContentHints := None |} in
      '(canvas', badges) <- renderWireframe measureText model canvas config ;;
      Ok {| st_model := st_model state;
            st_canvas := Some canvas';
            st_showLabels := st_showLabels state;
            st_labelOverrides := st_labelOverrides state;
            st_badges := badges;
            st_canvasContainer := st_canvasContainer state;
            st_canvasScale := st_canvasScale state |}
  | _, _ => Ok state
  end.

(** what [saveEdit] does to the state when the editor of [badge] is
    left with the text [value] (the editor itself is removed from the
    page afterwards) *)
Definition saveEdit (badge : BadgeInfo) (value : string) (state : WireframeMapperState)
  : Res WireframeMapperState :=
  let newLabel := Str.trim value in
  if negb (isText (badge_label badge) newLabel) then
    rerender {| st_model := st_model state;
                st_canvas := st_canvas state;
                st_showLabels := st_showLabels state;
                st_labelOverrides :=
                  JSMap.set (st_labelOverrides state) (badge_nodeId badge) newLabel;
                st_badges := st_badges state;
                st_canvasContainer := st_canvasContainer state;
                st_canvasScale := st_canvasScale state |}
  else Ok state.

End Overlay.

(* ================================================================== *)
(** ** Concrete pages                                                  *)
(* ================================================================== *)

Module Page.

Definition blockStyle : CSSStyle :=
  {| css_display := "block"; css_visibility := "visible"; css_opacity := 1;
     css_flexDirection := "row" |}.

Definition rowFlexStyle : CSSStyle :=
  {| css_display := "flex"; css_visibility := "visible"; css_opacity := 1;
     css_flexDirection := "row" |}.

(** an HTML element whose layout reads succeed *)
Definition html (tag id cls : string) (role : option string) (txt : string)
           (style : CSSStyle) (rect : DOMRect) (kids : list Element) : Element :=
  {| el_kind := HTMLElement; el_tagName := tag; el_id := id; el_class := cls;
     el_role := role; el_type := None; el_textContent := txt; el_style := style;
     el_rect := rect; el_layoutThrows := false; el_children := kids |}.

(** an [<svg>] element *)
Definition svg (rect : DOMRect) (throws : bool) : Element :=
  {| el_kind := SVGElement; el_tagName := "svg"; el_id := ""; el_class := "";
     el_role := None; el_type := None; el_textContent := ""; el_style := blockStyle;
     el_rect := rect; el_layoutThrows := throws; el_children := [] |}.

(** a plain [<div>] of the given box *)
Definition box (rect : DOMRect) : Element :=
  html "DIV" "" "" None "" blockStyle rect [].

Definition img (rect : DOMRect) : Element :=
  html "IMG" "" "" None "" blockStyle rect [].

(** a 1280x800 viewport, not scrolled *)
Definition window1280 : Window :=
  {| scrollX := 0; scrollY := 0; innerWidth := 1280; innerHeight := 800;
     bodyScrollHeight := 800; documentScrollHeight := 800;
     locationHref := "https://example.test/"; nowISOString := "2025-01-01T00:00:00.000Z" |}.

Definition noConfig : PartialConfig :=
  {| p_minArea := None; p_maxDepth := None; p_viewportAreaThreshold := None |}.

Definition body (kids : list Element) : Element :=
  html "BODY" "" "" None "" blockStyle (mkRect 0 0 1280 800) kids.

(** *** The header / navigation / button page *)
Definition contactLink : Element :=
  html "A" "" "btn" None "Contact" blockStyle (mkRect 1100 20 120 40) [].
Definition navBar : Element :=
  html "NAV" "" "" (Some "navigation") "Contact" blockStyle (mkRect 0 0 1280 80) [contactLink].
Definition pageHeader : Element :=
  html "HEADER" "header" "" None "Contact" blockStyle (mkRect 0 0 1280 80) [navBar].
Definition headerPage : Element := body [pageHeader].

(** *** Four nested sections around a [nav], which sits at depth 4 *)
Definition full : DOMRect := mkRect 0 0 1280 800.
Definition section5 : Element := html "NAV" "omega" "" None "" blockStyle full [].
Definition section4 : Element := html "SECTION" "gamma" "" None "" blockStyle full [section5].
Definition section3 : Element := html "SECTION" "delta" "" None "" blockStyle full [section4].
Definition section2 : Element := html "SECTION" "bravo" "" None "" blockStyle full [section3].
Definition section1 : Element := html "SECTION" "alpha" "" None "" blockStyle full [section2].
Definition nestedPage : Element := body [section1].

(** *** A landmark below a significant wrapper that collapses *)
Definition innerNav : Element :=
  html "NAV" "" "" None "" blockStyle (mkRect 0 0 1280 80) [].
Definition heroWrapper : Element :=
  html "DIV" "" "hero" None "" blockStyle (mkRect 0 0 1280 80) [innerNav].
Definition outerHeader : Element :=
  html "HEADER" "" "" None "" blockStyle (mkRect 0 0 1280 80) [heroWrapper].
Definition collapsePage : Element := body [outerHeader].

(** *** A grid container whose first child is a landmark *)
Definition gridHeader : Element :=
  html "HEADER" "" "" None "" blockStyle (mkRect 0 0 280 200) [].
Definition cardA : Element := box (mkRect 300 0 280 200).
Definition cardB : Element := box (mkRect 600 0 280 200).
Definition mixedGrid : Element :=
  html "MAIN" "" "" None "" rowFlexStyle (mkRect 0 0 1280 200) [gridHeader; cardA; cardB].
Definition mixedGridPage : Element := body [mixedGrid].

(** *** The same header next to a card, in a container that is no grid *)
Definition featureCard : Element :=
  html "DIV" "" "card" None "" blockStyle (mkRect 300 0 280 200) [].
Definition blockMain : Element :=
  html "MAIN" "" "" None "" blockStyle (mkRect 0 0 1280 200) [gridHeader; featureCard].

(** *** A row-flex section of plain boxes *)
Definition rowOf (rects : list DOMRect) : Element :=
  html "SECTION" "" "" None "" rowFlexStyle (mkRect 0 0 1280 200) (map box rects).

(** four 280x200 boxes *)
Definition first280 : DOMRect := mkRect 0 0 280 200.
Definition second280 : DOMRect := mkRect 290 0 280 200.
Definition third280 : DOMRect := mkRect 580 0 280 200.
Definition fourth280 : DOMRect := mkRect 870 0 280 200.
(** a fifth box of width 100: as tall as the others, or 10 high *)
Definition tallFifth : DOMRect := mkRect 1160 0 100 200.
Definition flatFifth : DOMRect := mkRect 1160 0 100 10.

(** *** Wrapper collapse at the 85% boundary and below a landmark *)
Definition navAt85 : Element :=
  html "NAV" "" "" None "" blockStyle (mkRect 0 0 170 100) [].
Definition heroAt85 : Element :=
  html "DIV" "" "hero" None "" blockStyle (mkRect 0 0 200 100) [navAt85].
Definition heroChild : Element :=
  html "DIV" "" "hero" None "" blockStyle (mkRect 0 0 1280 400) [].
Definition plainSection : Element :=
  html "SECTION" "" "" None "" blockStyle (mkRect 0 0 1280 400) [heroChild].

(** *** Seven images and a small vector graphic that cannot be measured *)
Definition brokenGallery : Element :=
  html "DIV" "" "" None "" blockStyle (mkRect 0 0 1280 400)
       [ img (mkRect 0 0 50 50); img (mkRect 60 0 50 50); img (mkRect 120 0 50 50);
         img (mkRect 180 0 50 50); img (mkRect 240 0 50 50); img (mkRect 300 0 50 50);
         img (mkRect 360 0 50 50); svg (mkRect 420 0 10 10) true ].

(** *** One large vector graphic followed by six images *)
Definition picture (n : Z) : Element := img (mkRect (inject_Z (60 * n)) 0 50 50).
Definition gallery : Element :=
  html "DIV" "" "" None "" blockStyle (mkRect 0 0 1280 400)
       [ svg (mkRect 0 0 50 50) false;
         picture 1; picture 2; picture 3; picture 4; picture 5; picture 6 ].
Definition sevenImages : Element :=
  html "DIV" "" "" None "" blockStyle (mkRect 0 0 1280 400)
       [ picture 0; picture 1; picture 2; picture 3; picture 4; picture 5; picture 6 ].

(** *** An id of 29 characters on an element with a role *)
Definition id29 : string := "abcdefghijklmnopqrstuvwxyzabc".
Definition bannerWithLongId : Element :=
  html "DIV" id29 "" (Some "banner") "" blockStyle (mkRect 0 0 1280 80) [].

(** *** A header and a footer inside a generic container *)
Definition smallHeader : Element :=
  html "HEADER" "" "" None "" blockStyle (mkRect 0 0 1280 80) [].
Definition smallFooter : Element :=
  html "FOOTER" "" "" None "" blockStyle (mkRect 0 80 1280 80) [].
Definition genericContainer : Element :=
  html "DIV" "" "container" None "" blockStyle (mkRect 0 0 1280 160)
       [smallHeader; smallFooter].

(** *** A navigation bar next to a hidden box, in a plain container *)
Definition hiddenStyle : CSSStyle :=
  {| css_display := "none"; css_visibility := "visible"; css_opacity := 1;
     css_flexDirection := "row" |}.
Definition hiddenBox : Element :=
  html "DIV" "" "" None "" hiddenStyle (mkRect 0 0 0 0) [].
Definition plainWrapper : Element :=
  html "DIV" "" "" None "" blockStyle (mkRect 0 0 1280 80) [hiddenBox; navBar].
Definition wrappedPage : Element := body [plainWrapper].

(** *** A section whose role names a member of [Object.prototype] *)
Definition constructorSection : Element :=
  html "SECTION" "" "" (Some "constructor") "" blockStyle (mkRect 0 0 1280 400) [].
Definition constructorHeader : Element :=
  html "HEADER" "" "" (Some "constructor") "" blockStyle (mkRect 0 0 1280 80) [].
Definition regionSection : Element :=
  html "SECTION" "" "" (Some "region") "" blockStyle (mkRect 0 0 1280 400) [].

(** *** A page whose vector graphic cannot be measured *)
Definition brokenSection : Element :=
  html "SECTION" "" "" None "" blockStyle (mkRect 0 0 1280 400)
       [ svg (mkRect 0 0 50 50) true; picture 1 ].
Definition brokenSvgPage : Element := body [brokenSection].

End Page.

(** *** An article with a long headline and a paragraph *)
Module Article.

Definition headline : Element :=
  Page.html "H2" "" "" None "Welcome to our unusually long headline" Page.blockStyle
            (mkRect 100 100 400 40) [].
Definition paragraph : Element :=
  Page.html "P" "" "" None "Some text." Page.blockStyle (mkRect 100 150 600 100) [].
Definition story : Element :=
  Page.html "ARTICLE" "" "" None "Welcome to our unusually long headline Some text."
            Page.blockStyle (mkRect 0 0 1280 400) [headline; paragraph].

(** the text hint of the article *)
Definition storyText : ContentHint :=
  {| hint_type := text;
     hint_bbox := {| bb_x := 100; bb_y := 100; bb_width := 600; bb_height := 150 |};
     hint_label := None |}.

End Article.

(** *** A canvas, a host that measures 7 px per character, an overlay *)
Module Screen.

Definition measure (font : Canvas.Font) (text : JSValue) : Q :=
  match text with
  | Text s => 7 * inject_Z (Z.of_nat (Str.length s))
  | Inherited _ => 70
  end.

(** a context in its initial state *)
Definition blank : Canvas.Context :=
  {| Canvas.fillStyle := "#000000"; Canvas.strokeStyle := "#000000";
     Canvas.lineWidth := 1; Canvas.lineDash := []; Canvas.lineCap := "butt";
     Canvas.font := Canvas.DefaultFont; Canvas.textBaseline := "alphabetic";
     Canvas.textAlign := "start"; Canvas.path := []; Canvas.drawn := [] |}.

Definition canvas : Canvas.HTMLCanvasElement :=
  {| Canvas.width := 1280; Canvas.height := 800; Canvas.context2d := Some blank |}.

Definition labelled : PartialRendererConfig :=
  {| p_showLabels := Some true; p_backgroundColor := None; p_blockFillColor := None;
     p_blockBorderColor := None; p_labelColor := None; p_labelFontSize := None;
     p_labelOverrides := None; p_showContentHints := None |}.

(** the model of the header page, and an overlay that shows it *)
Definition headerNav : WireframeNode :=
  {| wn_id := "wf-node-1"; wn_tagName := "nav"; wn_label := Text "Navigation";
     wn_bbox := {| bb_x := 0; bb_y := 0; bb_width := 1280; bb_height := 80 |};
     wn_depth := 1; wn_children := []; wn_isLandmark := true;
     wn_semanticType := navigation; wn_contentHints := None |}.

Definition headerRoot : WireframeNode :=
  {| wn_id := "wf-node-2"; wn_tagName := "header"; wn_label := Text "Header";
     wn_bbox := {| bb_x := 0; bb_y := 0; bb_width := 1280; bb_height := 80 |};
     wn_depth := 0; wn_children := [headerNav]; wn_isLandmark := true;
     wn_semanticType := header; wn_contentHints := None |}.

Definition headerModel : WireframeModel :=
  {| nodes := [headerRoot]; viewport := (1280, 800); fullPageHeight := 800;
     pageUrl := "https://example.test/"; capturedAt := "2025-01-01T00:00:00.000Z" |}.

Definition headerBadge : BadgeInfo :=
  {| badge_nodeId := "wf-node-2"; badge_x := 19 # 2; badge_y := 19 # 2;
     badge_width := 54; badge_height := 17; badge_label := Text "Header" |}.

Definition overlay : WireframeMapperState :=
  {| st_model := Some headerModel; st_canvas := Some canvas; st_showLabels := true;
     st_labelOverrides := []; st_badges := [headerBadge]; st_canvasContainer := None;
     st_canvasScale := 1 |}.

End Screen.

(* ================================================================== *)
(** ** Vocabulary of the properties                                    *)
(* ================================================================== *)

(** [Built Q els ns]: the nodes [ns] come from the elements [els], in the
    order of [els]; an element gives at most one node, related to it by [Q] *)
Inductive Built (Q : Element -> WireframeNode -> Prop)
  : list Element -> list WireframeNode -> Prop :=
| Built_nil : Built Q [] []
| Built_skip (e : Element) (es : list Element) (ns : list WireframeNode) :
    Built Q es ns -> Built Q (e :: es) ns
| Built_take (e : Element) (es : list Element) (n : WireframeNode)
             (ns : list WireframeNode) :
    Q e n -> Built Q es ns -> Built Q (e :: es) (n :: ns).

(** [P] holds of a node and of every node below it *)
Definition NodeAll (P : WireframeNode -> Prop) (n : WireframeNode) : Prop :=
  forall m : WireframeNode, In m (traverse n) -> P m.

(** [sub] is [l] with some elements left out *)
Inductive Subseq {A : Type} : list A -> list A -> Prop :=
| Subseq_nil : Subseq [] []
| Subseq_skip (a : A) (sub l : list A) : Subseq sub l -> Subseq sub (a :: l)
| Subseq_take (a : A) (sub l : list A) : Subseq sub l -> Subseq (a :: sub) (a :: l).

(** the label cascade, with the id step taken for the ids whose length
    lies in [[lo, hi)]: a class pattern that matches decides the label;
    otherwise an id of such a length does, and any other id leaves the
    label to the ARIA role and the steps after it *)
Definition labelCascade (lo hi : nat) (el : Element) : Prop :=
  match getClassLabel el with
  | Some classLabel => generateLabel el = Text classLabel
  | None =>
      if (lo <=? Str.length (el_id el))%nat && (Str.length (el_id el) <? hi)%nat
      then generateLabel el = Text (labelFromId (el_id el))
      else generateLabel el = labelFromRole el
  end.

(** the role and the tag name of [e] name no member of [Object.prototype] *)
Definition plainKeys (e : Element) : bool :=
  negb (Str.has Str.objectPrototypeKeys (Str.toLowerCase (el_tagName e)))
  && match el_role e with
     | Some role => negb (Str.has Str.objectPrototypeKeys role)
     | None => true
     end.

(** the layout of an HTML element can be read and its role and tag are
    plain keys; nothing is asked of other elements (vector graphics,
    foreign content) *)
Definition readableHTML (e : Element) : bool :=
  implb (isHTMLElement e) (negb (el_layoutThrows e) && plainKeys e).

(** every HTML element in the list can be read and has plain keys *)
Definition readablePlain (els : list Element) : bool := forallb readableHTML els.

(** ** Wrapper collapse, as a property *)

Definition boxArea (b : BoundingBox) : Q := bb_width b * bb_height b.

(** the child's box covers at least, or more than, 85% of the parent's *)
Definition coversAtLeast85 (parent child : BoundingBox) : Prop :=
  (85 # 100) * boxArea parent <= boxArea child.
Definition coversMoreThan85 (parent child : BoundingBox) : Prop :=
  (85 # 100) * boxArea parent < boxArea child.

(** [el] is visited within the depth limit, is visible and significant, is
    no grid container, and its children give exactly the node [child] *)
Definition oneChildNoGrid (window : Window) (fuel : nat) (el : Element) (depth : Z)
           (viewportArea : Q) (config : AnalyzerConfig) (counter : nat)
           (bbox : BoundingBox) (child : WireframeNode) (counter1 : nat) : Prop :=
  (maxDepth config <? depth)%Z = false
  /\ isElementVisible el = Ok true
  /\ getAbsoluteBoundingBox window el = Ok bbox
  /\ isSignificant window el viewportArea config = Ok true
  /\ detectGridItems el = Ok None
  /\ buildChildren
       (fun c d g k => buildNodeTree window fuel c d viewportArea config g k)
       isHTMLElement (el_children el) (depth + 1)%Z false [] counter
     = Ok ([child], counter1).

(** the two reasons to prefer the child: (a) it is a landmark and [el] is
    not, (b) [el] has a fallback label and the child has not *)
Definition childIsMoreMeaningful (el : Element) (child : WireframeNode) : Prop :=
  (isLandmark el = false /\ wn_isLandmark child = true)
  \/ ((generateLabel el = Text "Block" \/ generateLabel el = Text "Section")
      /\ wn_label child <> Text "Block" /\ wn_label child <> Text "Section").

(** the node created for [el] itself, holding [child] *)
Definition ownNodeWith (window : Window) (el : Element) (bbox : BoundingBox) (depth : Z)
           (child : WireframeNode) (n : WireframeNode) : Prop :=
  wn_tagName n = Str.toLowerCase (el_tagName el)
  /\ wn_bbox n = bbox
  /\ wn_depth n = depth
  /\ wn_isLandmark n = isLandmark el
  /\ wn_label n = generateLabel el
  /\ wn_children n = [child].

(** the forward rule: a child that covers enough and is more meaningful
    is returned in place of the element *)
Definition collapseRule (covers : BoundingBox -> BoundingBox -> Prop)
           (window : Window) (fuel : nat) (el : Element) (depth : Z) (viewportArea : Q)
           (config : AnalyzerConfig) (counter : nat) (bbox : BoundingBox)
           (child : WireframeNode) (counter1 : nat) : Prop :=
  oneChildNoGrid window fuel el depth viewportArea config counter bbox child counter1 ->
  covers bbox (wn_bbox child) ->
  childIsMoreMeaningful el child ->
  buildNodeTree window (S fuel) el depth viewportArea config false counter
  = Ok (Some child, counter1).

(** the direction stated for landmarks: a landmark [<section>] over one
    non-landmark child that covers enough is what the build returns *)
Definition sectionSurvives (covers : BoundingBox -> BoundingBox -> Prop)
           (window : Window) (fuel : nat) (el : Element) (depth : Z) (viewportArea : Q)
           (config : AnalyzerConfig) (counter : nat) (bbox : BoundingBox)
           (child : WireframeNode) (counter1 : nat) : Prop :=
  oneChildNoGrid window fuel el depth viewportArea config counter bbox child counter1 ->
  Str.toLowerCase (el_tagName el) = "section" ->
  wn_tagName child = "div" /\ wn_isLandmark child = false ->
  covers bbox (wn_bbox child) ->
  exists n counter',
    buildNodeTree window (S fuel) el depth viewportArea config false counter
    = Ok (Some n, counter')
    /\ wn_tagName n = "section".

Module CollapsePage.
Import Page.

(** the nodes the children of [heroAt85] and of [plainSection] give *)
Definition navNode : WireframeNode :=
  {| wn_id := "wf-node-1"; wn_tagName := "nav"; wn_label := Text "Navigation";
     wn_bbox := {| bb_x := 0; bb_y := 0; bb_width := 170; bb_height := 100 |};
     wn_depth := 1; wn_children := []; wn_isLandmark := true;
     wn_semanticType := navigation; wn_contentHints := None |}.

Definition heroNode : WireframeNode :=
  {| wn_id := "wf-node-1"; wn_tagName := "div"; wn_label := Text "Hero";
     wn_bbox := {| bb_x := 0; bb_y := 0; bb_width := 1280; bb_height := 400 |};
     wn_depth := 1; wn_children := []; wn_isLandmark := false;
     wn_semanticType := hero; wn_contentHints := None |}.

Definition box200 : BoundingBox :=
  {| bb_x := 0; bb_y := 0; bb_width := 200; bb_height := 100 |}.
Definition box1280 : BoundingBox :=
  {| bb_x := 0; bb_y := 0; bb_width := 1280; bb_height := 400 |}.

Definition viewportArea : Q := 1280 * 800.
End CollapsePage.

(** ** Landmark preservation, as a property *)

(** a visible landmark whose box has at least the minimum area *)
Definition qualifyingLandmark (window : Window) (config : AnalyzerConfig) (e : Element)
  : Prop :=
  isHTMLElement e = true
  /\ isLandmark e = true
  /\ isElementVisible e = Ok true
  /\ exists bbox, getAbsoluteBoundingBox window e = Ok bbox
                  /\ minArea config <= boxArea bbox.

(** some node of the model was made from [e] or, standing for it after
    wrapper collapses, from an element below [e] *)
Definition landmarkKept (window : Window) (model : WireframeModel) (e : Element) : Prop :=
  exists n d,
    In n (flattenNodes (nodes model))
    /\ In d (e :: descendants e)
    /\ wn_tagName n = Str.toLowerCase (el_tagName d)
    /\ getAbsoluteBoundingBox window d = Ok (wn_bbox n).

Definition landmarksPreserved (window : Window) (body : Element) (config : PartialConfig)
  : Prop :=
  forall model,
    analyzeDom window body config = Ok model ->
    forall e, In e (descendants body) ->
              qualifyingLandmark window (mergeConfig config) e ->
              landmarkKept window model e.

(** the node [n] stands for the landmark [el] built at [depth]: it is the
    node of [el], or the only node the children of [el] gave, returned in
    its place because [el] has a fallback label and covers little more
    than it *)
Definition standsFor (window : Window) (el : Element) (depth : Z)
           (viewportArea : Q) (config : AnalyzerConfig) (bbox : BoundingBox)
           (n : WireframeNode) : Prop :=
  (wn_tagName n = Str.toLowerCase (el_tagName el)
   /\ wn_bbox n = bbox /\ wn_depth n = depth /\ wn_isLandmark n = true
   /\ wn_label n = generateLabel el)
  \/ ((generateLabel el = Text "Block" \/ generateLabel el = Text "Section")
      /\ wn_label n <> Text "Block" /\ wn_label n <> Text "Section"
      /\ coversMoreThan85 bbox (wn_bbox n)
      /\ exists fuel c0 c1,
          buildChildren
            (fun c d g k => buildNodeTree window fuel c d viewportArea config g k)
            isHTMLElement (el_children el) (depth + 1)%Z false [] c0
          = Ok ([n], c1)).

(** what is asked of a landmark for it to give a node *)
Definition reachedLandmark (window : Window) (el : Element) (depth : Z)
           (config : AnalyzerConfig) (bbox : BoundingBox) : Prop :=
  (maxDepth config <? depth)%Z = false
  /\ isElementVisible el = Ok true
  /\ isLandmark el = true
  /\ Str.has SKIP_TAGS (Str.toLowerCase (el_tagName el)) = false
  /\ getAbsoluteBoundingBox window el = Ok bbox
  /\ minArea config <= boxArea bbox.

(** a child that gives no node at [depth]: it is no HTML element, or the
    call of [buildNodeTree] on it returns no node (it is not visible, for
    instance) *)
Definition givesNothing (window : Window) (viewportArea : Q) (config : AnalyzerConfig)
           (depth : Z) (c : Element) : Prop :=
  isHTMLElement c = true ->
  forall fuel counter r counter',
    buildNodeTree window fuel c depth viewportArea config false counter
    = Ok (r, counter') ->
    r = None.

(** [leadsTo window viewportArea config a d e de]: the call of
    [buildNodeTree] on [a] at depth [d] leads, through calls on children,
    to the call on [e] at depth [de], and every call on the way hands the
    node of its child up.  The elements above [e] are visible, and each of
    them is
    - significant, with the next element among its element children (in
      a grid container: among its landmark children), one level down; or
    - not significant, with the next element as the only one of its
      children that gives a node, at the same depth. *)
Inductive leadsTo (window : Window) (viewportArea : Q) (config : AnalyzerConfig)
  : Element -> Z -> Element -> Z -> Prop :=
| leadsTo_here (a : Element) (d : Z) : leadsTo window viewportArea config a d a d
| leadsTo_significant (a : Element) (d : Z) (c e : Element) (de : Z) :
    isElementVisible a = Ok true ->
    isSignificant window a viewportArea config = Ok true ->
    In c (el_children a) ->
    isHTMLElement c = true ->
    detectGridItems a = Ok None \/ isLandmark c = true ->
    leadsTo window viewportArea config c (d + 1)%Z e de ->
    leadsTo window viewportArea config a d e de
| leadsTo_only_child (a : Element) (d : Z) (before : list Element) (c : Element)
                     (after : list Element) (e : Element) (de : Z) :
    isElementVisible a = Ok true ->
    isSignificant window a viewportArea config = Ok false ->
    el_children a = before ++ c :: after ->
    isHTMLElement c = true ->
    Forall (givesNothing window viewportArea config d) (before ++ after) ->
    leadsTo window viewportArea config c d e de ->
    leadsTo window viewportArea config a d e de.

(** ** Document order, as a property *)

(** the node [n] was created for the element [e] *)
Definition madeFrom (window : Window) (e : Element) (n : WireframeNode) : Prop :=
  wn_tagName n = Str.toLowerCase (el_tagName e)
  /\ getAbsoluteBoundingBox window e = Ok (wn_bbox n)
  /\ wn_isLandmark n = isLandmark e.

(** the node [k] is the card of the grid item [c], one of [items]: a
    leaf made from [c], which is no landmark *)
Definition cardFrom (window : Window) (items : list Element) (c : Element)
           (k : WireframeNode) : Prop :=
  In c items /\ isLandmark c = false
  /\ madeFrom window c k /\ wn_semanticType k = card /\ wn_children k = [].

(** [InOrder grids window e n]: the node [n] was created for [e] or for an
    element below [e], and at every level below [n] the child nodes follow
    the document order of the elements they come from.  With [grids], this
    is so only below an element for which grid detection returns nothing;
    the children of a grid container, for which it returns [items], are
    the cards of items, in document order, followed by the nodes of its
    landmark children, in document order. *)
Inductive InOrder (grids : bool) (window : Window) : Element -> WireframeNode -> Prop :=
| InOrder_here (e : Element) (n : WireframeNode) :
    madeFrom window e n ->
    (grids = true -> wn_children n <> [] -> detectGridItems e = Ok None) ->
    Built (InOrder grids window) (el_children e) (wn_children n) ->
    InOrder grids window e n
| InOrder_grid (e : Element) (n : WireframeNode) (items : list Element)
               (cards marks : list WireframeNode) :
    grids = true ->
    madeFrom window e n ->
    detectGridItems e = Ok (Some items) ->
    wn_children n = cards ++ marks ->
    Built (cardFrom window items) (el_children e) cards ->
    Built (fun c k => isLandmark c = true /\ InOrder grids window c k)
          (el_children e) marks ->
    InOrder grids window e n
| InOrder_below (e c : Element) (n : WireframeNode) :
    In c (el_children e) ->
    InOrder grids window c n ->
    InOrder grids window e n.

(** a node for [Page.blockMain] whose children are the card and then the
    header: the order of a grid container, below an element that is none *)
Module SwappedOrder.
Definition headerNode : WireframeNode :=
  {| wn_id := "wf-node-1"; wn_tagName := "header"; wn_label := Text "Header";
     wn_bbox := {| bb_x := 0; bb_y := 0; bb_width := 280; bb_height := 200 |};
     wn_depth := 1; wn_children := []; wn_isLandmark := true;
     wn_semanticType := header; wn_contentHints := None |}.
Definition cardNode : WireframeNode :=
  {| wn_id := "wf-node-2"; wn_tagName := "div"; wn_label := Text "Card";
     wn_bbox := {| bb_x := 300; bb_y := 0; bb_width := 280; bb_height := 200 |};
     wn_depth := 1; wn_children := []; wn_isLandmark := false;
     wn_semanticType := card; wn_contentHints := None |}.
Definition mainNode : WireframeNode :=
  {| wn_id := "wf-node-3"; wn_tagName := "main"; wn_label := Text "Main Content";
     wn_bbox := {| bb_x := 0; bb_y := 0; bb_width := 1280; bb_height := 200 |};
     wn_depth := 0; wn_children := [cardNode; headerNode]; wn_isLandmark := true;
     wn_semanticType := content; wn_contentHints := None |}.
End SwappedOrder.

(** the root nodes, and the children of every node, are in document order *)
Definition documentOrder (grids : bool) (window : Window) (body : Element)
           (config : PartialConfig) : Prop :=
  forall model,
    analyzeDom window body config = Ok model ->
    Built (InOrder grids window) (el_children body) (nodes model).

(** ** Content hints, as properties *)

Definition hintsOfType (t : ContentType) (hs : list ContentHint) : list ContentHint :=
  filter (fun h => sameType (hint_type h) t) hs.

(** a hint is at least as large as the minimum size of its type *)
Definition meetsMinSize (h : ContentHint) : Prop :=
  fst (CONTENT_MIN_SIZES (hint_type h)) <= bb_width (hint_bbox h)
  /\ snd (CONTENT_MIN_SIZES (hint_type h)) <= bb_height (hint_bbox h).

(** what [isElementVisible] finds when the element can be read *)
Definition looksVisible (e : Element) : bool :=
  negb (css_display (el_style e) =? "none")
  && negb (css_visibility (el_style e) =? "hidden")
  && negb (Qeqb (css_opacity (el_style e)) 0)
  && negb (Qeqb (rect_width (el_rect e)) 0 || Qeqb (rect_height (el_rect e)) 0).

(** what [getAbsoluteBoundingBox] finds when the element can be read *)
Definition absoluteBox (window : Window) (e : Element) : BoundingBox :=
  {| bb_x := rect_left (el_rect e) + scrollX window;
     bb_y := rect_top (el_rect e) + scrollY window;
     bb_width := rect_width (el_rect e);
     bb_height := rect_height (el_rect e) |}.

Definition bigEnough (t : ContentType) (b : BoundingBox) : bool :=
  negb (Qltb (bb_width b) (fst (CONTENT_MIN_SIZES t))
        || Qltb (bb_height b) (snd (CONTENT_MIN_SIZES t))).

(** a visible [img], [picture] or [figure] of at least 30x30 *)
Definition pictureOK (window : Window) (e : Element) : bool :=
  isHTMLElement e && looksVisible e && bigEnough image (absoluteBox window e).
Definition qualifiesAsPicture (window : Window) (e : Element) : bool :=
  matchesTag ["img"; "picture"; "figure"] e && pictureOK window e.

(** a vector graphic of more than 400 px2 and at least 30x30 *)
Definition largeSvgOK (window : Window) (e : Element) : bool :=
  isSVGElement e
  && negb (Qeqb (rect_width (el_rect e)) 0 || Qeqb (rect_height (el_rect e)) 0)
  && Qltb 400 (rect_width (el_rect e) * rect_height (el_rect e))
  && bigEnough image (absoluteBox window e).
Definition qualifiesAsLargeSvg (window : Window) (e : Element) : bool :=
  matchesTag ["svg"] e && largeSvgOK window e.

Definition imageHintOf (window : Window) (e : Element) : ContentHint :=
  {| hint_type := image; hint_bbox := absoluteBox window e; hint_label := None |}.

(** the qualifying image descendants, in document order *)
Definition imagesInDocumentOrder (window : Window) (el : Element) : list Element :=
  filter (fun e => qualifiesAsPicture window e || qualifiesAsLargeSvg window e)
         (descendants el).

(** the qualifying image descendants, in the order of the scan: the
    pictures in document order, then the vector graphics in document order *)
Definition imagesInScanOrder (window : Window) (el : Element) : list Element :=
  filter (qualifiesAsPicture window) (descendants el)
  ++ filter (qualifiesAsLargeSvg window) (descendants el).

(** with seven qualifying images, the image hints are the first five of
    the given enumeration *)
Definition firstFiveOf (enumeration : Window -> Element -> list Element)
           (window : Window) (el : Element) : Prop :=
  List.length (enumeration window el) = 7%nat ->
  hintsOfType image (detectContentHints window el)
  = map (imageHintOf window) (firstn 5 (enumeration window el)).

(** the running state of the extraction is consistent: the counters count
    the hints, stay within the caps, and every hint is large enough *)
Definition hintInvariant (st : HintState) : Prop :=
  (forall t, counts st t = List.length (hintsOfType t (hints st)))
  /\ (forall t, (counts st t <= CONTENT_MAX_COUNTS t)%nat)
  /\ Forall meetsMinSize (hints st).

(** the image hints so far are those of the first five of [seen] *)
Definition imagesSoFar (window : Window) (seen : list Element) (st : HintState) : Prop :=
  hintsOfType image (hints st) = map (imageHintOf window) (firstn 5 seen)
  /\ counts st image = List.length (hintsOfType image (hints st)).

(** a loop step that may add one hint of type [t] *)
Definition addsOnly (t : ContentType) (st st' : HintState) : Prop :=
  st' = st \/ exists b l, st' = addHint t b l st.

(** ** Grid detection, as a property *)

(** a box of about 280x200: both sides within 5% *)
Definition near280x200 (r : DOMRect) : Prop :=
  (266 <= rect_width r /\ rect_width r <= 294)
  /\ (190 <= rect_height r /\ rect_height r <= 210).

(** a child that grid detection considers: a visible HTML element
    outside the skip set that is no landmark *)
Definition gridCandidate (c : Element) : Prop :=
  isHTMLElement c = true
  /\ Str.has SKIP_TAGS (Str.toLowerCase (el_tagName c)) = false
  /\ isElementVisible c = Ok true
  /\ isLandmark c = false.

(** a flex container that lays its children out in a row *)
Definition rowFlex (el : Element) : Prop :=
  exists style,
    getComputedStyle el = Ok style
    /\ css_display style = "flex" /\ css_flexDirection style = "row".

(** a row-flex container with five children, all of them candidates:
    four boxes of about 280x200 and then one of width 100 *)
Definition rowOfFive (el c1 c2 c3 c4 c5 : Element) : Prop :=
  rowFlex el
  /\ el_children el = [c1; c2; c3; c4; c5]
  /\ Forall gridCandidate [c1; c2; c3; c4; c5]
  /\ Forall (fun c => near280x200 (el_rect c)) [c1; c2; c3; c4]
  /\ rect_width (el_rect c5) == 100.

(** the build gets to create the node of [el] at [depth]: [el] is within
    the depth limit, visible and significant, and its label is a string *)
Definition builtAsBlock (window : Window) (config : AnalyzerConfig) (viewportArea : Q)
           (el : Element) (depth : Z) : Prop :=
  (depth <= maxDepth config)%Z
  /\ isElementVisible el = Ok true
  /\ isSignificant window el viewportArea config = Ok true
  /\ exists label, generateLabel el = Text label.

(** the card the grid item [c] gives *)
Definition itemCard (window : Window) (c : Element) (depth : Z) (counter : nat)
  : WireframeNode :=
  {| wn_id := fst (generateNodeId counter);
     wn_tagName := Str.toLowerCase (el_tagName c);
     wn_label := Text (inferGridItemLabel c);
     wn_bbox := absoluteBox window c;
     wn_depth := depth;
     wn_children := [];
     wn_isLandmark := false;
     wn_semanticType := card;
     wn_contentHints :=
       if (0 <? List.length (detectContentHints window c))%nat
       then Some (detectContentHints window c) else None |}.

(** grid detection keeps the first four children of [el], and the build
    of [el] gives its node, whose children are their four cards, one level
    down, in document order *)
Definition fourCards (window : Window) (config : AnalyzerConfig) (viewportArea : Q)
           (fuel : nat) (depth : Z) (counter : nat) (el c1 c2 c3 c4 : Element) : Prop :=
  detectGridItems el = Ok (Some [c1; c2; c3; c4])
  /\ exists n,
      buildNodeTree window (S (S fuel)) el depth viewportArea config false counter
      = Ok (Some n, (5 + counter)%nat)
      /\ wn_tagName n = Str.toLowerCase (el_tagName el)
      /\ wn_depth n = depth
      /\ wn_children n
         = [ itemCard window c1 (depth + 1) counter;
             itemCard window c2 (depth + 1) (1 + counter);
             itemCard window c3 (depth + 1) (2 + counter);
             itemCard window c4 (depth + 1) (3 + counter) ].

(** grid detection returns nothing for [el], and the build of [el] puts
    its children through the loop of every other container: none of them
    is built as a grid item *)
Definition noGridItems (window : Window) (config : AnalyzerConfig) (viewportArea : Q)
           (fuel : nat) (depth : Z) (counter : nat) (el : Element) : Prop :=
  detectGridItems el = Ok None
  /\ buildNodeTree window (S fuel) el depth viewportArea config false counter
     = ('(childNodes, counter1) <-
          buildChildren
            (fun c d g k => buildNodeTree window fuel c d viewportArea config g k)
            isHTMLElement (el_children el) (depth + 1)%Z false [] counter ;;
        returnNode window el (absoluteBox window el) depth false true None
                   childNodes counter1).

(** a computation that ends within its recursion budget: it returns or
    raises *)
Definition withinBudget {A : Type} (r : Res A) : Prop := r <> OutOfFuel.

(** ** Depths, as a property *)

(** every child of [m] lies at least one level below [m] *)
Definition childrenDeeper (m : WireframeNode) : Prop :=
  Forall (fun k => (wn_depth m + 1 <= wn_depth k)%Z) (wn_children m).

(** the node lies at depth [d] or below, and so does every edge under it *)
Definition atDepthOrBelow (d : Z) (n : WireframeNode) : Prop :=
  (d <= wn_depth n)%Z /\ NodeAll childrenDeeper n.

(** ** Where the nodes of a model come from *)

(** [VisibleBelow e d]: [d] is [e] or lies below it, and every element on
    the way from [e] down to [d], both included, is visible *)
Inductive VisibleBelow : Element -> Element -> Prop :=
| VisibleBelow_here (e : Element) :
    isElementVisible e = Ok true -> VisibleBelow e e
| VisibleBelow_child (e c d : Element) :
    isElementVisible e = Ok true -> In c (el_children e) -> VisibleBelow c d ->
    VisibleBelow e d.

(** the fields a node copies from its element *)
Definition ownFields (window : Window) (e : Element) (n : WireframeNode) : Prop :=
  wn_tagName n = Str.toLowerCase (el_tagName e)
  /\ getAbsoluteBoundingBox window e = Ok (wn_bbox n)
  /\ wn_isLandmark n = isLandmark e.

(** a node created for a significant element, within the depth limit *)
Definition blockOf (window : Window) (viewportArea : Q) (config : AnalyzerConfig)
           (e : Element) (n : WireframeNode) : Prop :=
  isSignificant window e viewportArea config = Ok true
  /\ (wn_depth n <= maxDepth config)%Z
  /\ wn_label n = generateLabel e
  /\ getSemanticType e (wn_label n) = Ok (wn_semanticType n).

(** what grid detection asks of a grid item *)
Definition gridItemOK (e : Element) : Prop :=
  isHTMLElement e = true
  /\ Str.has SKIP_TAGS (Str.toLowerCase (el_tagName e)) = false
  /\ isElementVisible e = Ok true
  /\ isLandmark e = false
  /\ exists rect, getBoundingClientRect e = Ok rect /\ GRID_ITEM_MIN_AREA <= area rect.

(** a node created for a grid item: a leaf card *)
Definition cardOf (config : AnalyzerConfig) (e : Element) (n : WireframeNode) : Prop :=
  gridItemOK e
  /\ (wn_depth n <= maxDepth config + 1)%Z
  /\ wn_label n = Text (inferGridItemLabel e)
  /\ wn_semanticType n = card
  /\ wn_children n = [].

(** the node [n] was created for the HTML element [e] *)
Definition createdFor (window : Window) (viewportArea : Q) (config : AnalyzerConfig)
           (e : Element) (n : WireframeNode) : Prop :=
  isHTMLElement e = true
  /\ ownFields window e n
  /\ (blockOf window viewportArea config e n \/ cardOf config e n).

(** the node [n], found at depth [depth] or deeper, was created for a
    visible element at or below [el] *)
Definition sourcedBelow (window : Window) (viewportArea : Q) (config : AnalyzerConfig)
           (el : Element) (depth : Z) (n : WireframeNode) : Prop :=
  (depth <= wn_depth n)%Z
  /\ exists e, VisibleBelow el e /\ createdFor window viewportArea config e n.

(** ** Identifiers, as a property *)

(** the identifier made at the counter value [k] *)
Definition idOf (k : nat) : string := ("wf-node-" ++ Str.ofNat k)%string.

(** the identifiers of the nodes [ns] and of the nodes below them were
    made at distinct counter values, all in [(lo, hi]] *)
Definition Numbered (lo hi : nat) (ns : list WireframeNode) : Prop :=
  exists ks : list nat,
    map wn_id (flattenNodes ns) = map idOf ks
    /\ NoDup ks
    /\ Forall (fun k => (lo < k <= hi)%nat) ks.

(** ** Uniform grids, as a property *)

(** a child that grid detection accepts, of width [w] and height [h] *)
Definition uniformItem (w h : Q) (c : Element) : Prop :=
  isHTMLElement c = true
  /\ Str.has SKIP_TAGS (Str.toLowerCase (el_tagName c)) = false
  /\ isElementVisible c = Ok true
  /\ isLandmark c = false
  /\ rect_width (el_rect c) == w
  /\ rect_height (el_rect c) == h.

(** ** The hints of one extraction, as properties *)

(** the label of a button hint: absent, or the first 20 characters at
    most of the trimmed text, and not empty *)
Definition buttonLabel (l : option string) : Prop :=
  match l with
  | Some s => (1 <= Str.length s <= 20)%nat
  | None => True
  end.

Definition noLabel (l : option string) : Prop := l = None.

(** the hints [new] are of type [t] and their labels satisfy [P] *)
Definition hintsOf (t : ContentType) (P : option string -> Prop) (new : list ContentHint)
  : Prop :=
  Forall (fun h => hint_type h = t /\ P (hint_label h)) new.

(** a loop step that may add one hint of type [t] with a label in [P] *)
Definition addsLabelled (t : ContentType) (P : option string -> Prop) (st st' : HintState)
  : Prop :=
  st' = st \/ exists b l, P l /\ st' = addHint t b l st.

(** the hints of [st'] are those of [st] followed by hints of type [t] *)
Definition grows (t : ContentType) (P : option string -> Prop) (st st' : HintState) : Prop :=
  exists new, hints st' = hints st ++ new /\ hintsOf t P new.

(** a text element that takes part in the text hint: a visible HTML
    element matched by the selector, at least 20 wide and 10 high *)
Definition countedText (e : Element) : bool :=
  matchesTag ["p"; "h1"; "h2"; "h3"; "h4"; "h5"; "h6"] e
  && isHTMLElement e && looksVisible e
  && negb (Qltb (rect_width (el_rect e)) 20 || Qltb (rect_height (el_rect e)) 10).

(** the box [outer] spans the box [inner]: it starts at or before the
    left and top edges of [inner], and measured from there, as the text
    hint measures its width and height, the right and bottom edges of
    [inner] lie within its width and height *)
Definition spans (outer inner : BoundingBox) : Prop :=
  bb_x outer <= bb_x inner
  /\ bb_y outer <= bb_y inner
  /\ (bb_x inner + bb_width inner) - bb_x outer <= bb_width outer
  /\ (bb_y inner + bb_height inner) - bb_y outer <= bb_height outer.

(** the running box of the text loop covers the box [b] *)
Definition covers (acc : TextBox) (b : BoundingBox) : Prop :=
  match acc with
  | Some (minX, minY, maxX, maxY) =>
      minX <= bb_x b /\ minY <= bb_y b
      /\ bb_x b + bb_width b <= maxX /\ bb_y b + bb_height b <= maxY
  | None => False
  end.

(** ** Click detection, as a property *)

(** the point lies on the badge, borders included *)
Definition onBadge (canvasX canvasY : Q) (badge : BadgeInfo) : Prop :=
  (badge_x badge <= canvasX /\ canvasX <= badge_x badge + badge_width badge)
  /\ (badge_y badge <= canvasY /\ canvasY <= badge_y badge + badge_height badge).

(** ** Fill colours, as a property *)

(** the channels of the base colour of a semantic type *)
Definition baseChannels (t : SemanticType) : Z * Z * Z :=
  match t with
  | header => (232, 234, 246)
  | navigation => (227, 242, 253)
  | hero => (243, 229, 245)
  | content => (245, 245, 245)
  | card => (255, 253, 231)
  | cta => (232, 245, 233)
  | footer => (236, 239, 241)
  end%Z.

(** ** Badges, as properties *)

(** the label the badge of [node] shows: its override, or its own label *)
Definition shownLabel (config : RendererConfig) (node : WireframeNode) : JSValue :=
  match labelOverrides config with
  | Some overrides =>
      match JSMap.get overrides (wn_id node) with
      | Some l => Text l
      | None => wn_label node
      end
  | None => wn_label node
  end.

(** [badge] is the badge of [node]: it carries the identifier of the
    node and the label shown for it, which is not empty, and it sits 8 px
    inside the top left corner of the node's box, within its border *)
Definition badgeOn (config : RendererConfig) (node : WireframeNode) (badge : BadgeInfo)
  : Prop :=
  badge_nodeId badge = wn_id node
  /\ badge_label badge = shownLabel config node
  /\ badge_label badge <> Text ""
  /\ badge_x badge
     = bb_x (wn_bbox node) + inject_Z (getBorderWidth (wn_depth node)) / 2 + 8
  /\ badge_y badge
     = bb_y (wn_bbox node) + inject_Z (getBorderWidth (wn_depth node)) / 2 + 8
  /\ badge_height badge = Qmin (labelFontSize config) 11 + 3 * 2.

(** the text a badge displays for the label [s]: the label itself, or a
    prefix of it of at least 3 characters followed by an ellipsis; what is
    displayed fits into [maxTextWidth] unless it is cut down to 3
    characters, or was not longer in the first place *)
Definition displayedFor (measure : JSValue -> Q) (maxTextWidth : Q) (s : string)
           (shown : JSValue) : Prop :=
  (shown = Text s
   /\ (measure (Text s) <= maxTextWidth \/ (Str.length s <= 3)%nat))
  \/ exists p,
      shown = Text (p ++ "...")%string
      /\ String.prefix p s = true
      /\ (3 <= Str.length p < Str.length s)%nat
      /\ (measure (Text (p ++ "...")%string) <= maxTextWidth \/ Str.length p = 3%nat).

(** ** Export names, as a property *)

(** every character of [s] is a letter, a digit or a dash, and no dash
    follows a dash *)
Fixpoint safeName (afterDash : bool) (s : string) : bool :=
  match s with
  | EmptyString => true
  | String c s' =>
      if Ascii.eqb c "-"%char then negb afterDash && safeName true s'
      else isAlphaNumeric c && safeName false s'
  end.

(* ================================================================== *)
(** * Properties of the analyzer                                       *)
(* ================================================================== *)

(** ** The result monad *)

Lemma bind_Ok {A B : Type} (m : Res A) (k : A -> Res B) (b : B) :
  bind m k = Ok b -> exists a, m = Ok a /\ k a = Ok b.
Proof.
  destruct m as [a| |]; simpl; intros H; try discriminate.
  exists a. split; [reflexivity | exact H].
Qed.

(** splits a hypothesis [bind m k = Ok b] *)
Ltac bindOk H x Hx :=
  apply bind_Ok in H; destruct H as [x [Hx H]].

(** ** The label cascade *)

(** C8, as amended: once the class patterns have failed, the id step is
    taken for ids of length 3 to 29, that is in [[3,30)], and the cascade
    goes on to the ARIA role for every other id. *)
Theorem id_step_interval (el : Element) : labelCascade 3 30 el.
Proof.
  unfold labelCascade, generateLabel.
  destruct (getClassLabel el) as [l|]; [reflexivity|].
  destruct (el_id el) as [|c s] eqn:Hid; [reflexivity|].
  cbn [Str.truthy andb].
  replace (3 <=? Str.length (String c s))%nat
    with (2 <? Str.length (String c s))%nat by reflexivity.
  destruct ((2 <? Str.length (String c s))%nat
            && (Str.length (String c s) <? 30)%nat); reflexivity.
Qed.

(** C8, as stated, fails: an id of 29 characters still takes the id step. *)
Lemma id_step_29_counterexample : ~ labelCascade 3 29 Page.bannerWithLongId.
Proof.
  unfold labelCascade. vm_compute. intros H. discriminate H.
Qed.

(** ** Concrete runs *)

(** C9: the header / navigation / button page gives one root node, the
    header, with one child, the navigation, whose content hints are the
    single button "Contact" at (1100,20,120,40). *)
Theorem header_page_scenario :
  exists (model : WireframeModel) (root child : WireframeNode),
    analyzeDom Page.window1280 Page.headerPage Page.noConfig = Ok model
    /\ viewport model = (1280, 800)
    /\ nodes model = [root]
    /\ wn_tagName root = "header" /\ wn_label root = Text "Header"
    /\ wn_semanticType root = header /\ wn_isLandmark root = true
    /\ wn_children root = [child]
    /\ wn_tagName child = "nav" /\ wn_label child = Text "Navigation"
    /\ wn_semanticType child = navigation /\ wn_isLandmark child = true
    /\ wn_children child = []
    /\ wn_contentHints child =
         Some [ {| hint_type := button;
                   hint_bbox := {| bb_x := 1100; bb_y := 20;
                                   bb_width := 120; bb_height := 40 |};
                   hint_label := Some "Contact" |} ].
Proof.
  eexists. eexists. eexists.
  split; [vm_compute; reflexivity|].
  cbn. repeat split; reflexivity.
Qed.

(** C2, evaluated where it fails: a header holding a significant [div]
    that collapses into its [nav] child.  The header node has depth 0 and
    its only child, the navigation node, has depth 2.  At the root, a
    section that collapses into its [div] leaves a root node of depth 1. *)
Theorem collapsed_child_keeps_its_depth :
  (exists (model : WireframeModel) (parent child : WireframeNode),
      analyzeDom Page.window1280 Page.collapsePage Page.noConfig = Ok model
      /\ nodes model = [parent]
      /\ wn_tagName parent = "header" /\ wn_depth parent = 0%Z
      /\ wn_children parent = [child]
      /\ wn_tagName child = "nav" /\ wn_depth child = 2%Z)
  /\ (exists (model : WireframeModel) (root : WireframeNode),
         analyzeDom Page.window1280 (Page.body [Page.plainSection]) Page.noConfig
         = Ok model
         /\ nodes model = [root]
         /\ wn_tagName root = "div" /\ wn_depth root = 1%Z).
Proof.
  split.
  - eexists. eexists. eexists.
    split; [vm_compute; reflexivity|].
    cbn. repeat split; reflexivity.
  - eexists. eexists.
    split; [vm_compute; reflexivity|].
    cbn. repeat split; reflexivity.
Qed.



Lemma traverse_eq (n : WireframeNode) :
  traverse n = n :: flat_map traverse (wn_children n).
Proof. destruct n; reflexivity. Qed.

(** ** The shape of one call of [buildNodeTree] *)

Section BuildShape.

Variable window : Window.

(** a call that returns went past the depth guard and the visibility
    test, or stopped at one of them with no node *)
Lemma buildNodeTreeBody_Ok (recur : BuildFn) (el : Element) (depth : Z) (viewportArea : Q)
      (config : AnalyzerConfig) (isGridItem : bool) (counter : nat)
      (r : option WireframeNode) (counter' : nat) :
  buildNodeTreeBody window recur el depth viewportArea config isGridItem counter
  = Ok (r, counter') ->
  (r = None /\ counter' = counter
   /\ ((maxDepth config <? depth)%Z && negb isGridItem = true
       \/ isElementVisible el = Ok false))
  \/ exists bbox significant gridItems childNodes counter1,
      (maxDepth config <? depth)%Z && negb isGridItem = false
      /\ isElementVisible el = Ok true
      /\ getAbsoluteBoundingBox window el = Ok bbox
      /\ (if isGridItem then Ok true else isSignificant window el viewportArea config)
         = Ok significant
      /\ (if significant && negb isGridItem then detectGridItems el else Ok None)
         = Ok gridItems
      /\ processChildren recur el depth significant gridItems isGridItem counter
         = Ok (childNodes, counter1)
      /\ returnNode window el bbox depth isGridItem significant gridItems childNodes
                    counter1 = Ok (r, counter').
Proof.
  unfold buildNodeTreeBody. intros H.
  destruct ((maxDepth config <? depth)%Z && negb isGridItem) eqn:Hguard.
  - injection H as <- <-. left. auto.
  - bindOk H visible Hvis. destruct visible; cbn [negb] in H.
    + bindOk H bbox Hbbox. bindOk H significant Hsig. bindOk H gridItems Hgrid.
      bindOk H kids Hkids. destruct kids as [childNodes counter1]. right.
      exists bbox, significant, gridItems, childNodes, counter1.
      repeat split; assumption.
    + injection H as <- <-. left. auto.
Qed.

(** the nodes pushed by a child loop come from the selected elements,
    in their order *)
Lemma buildChildren_Built (Q : Element -> WireframeNode -> Prop) (recur : BuildFn)
      (select : Element -> bool) (depth : Z) (isGridItem : bool) (els : list Element) :
  (forall child c n c', In child els -> select child = true ->
                        recur child depth isGridItem c = Ok (Some n, c') -> Q child n) ->
  forall acc counter res counter',
    buildChildren recur select els depth isGridItem acc counter = Ok (res, counter') ->
    exists new, res = acc ++ new /\ Built Q els new.
Proof.
  induction els as [|child rest IH]; intros HQ acc counter res counter' H.
  - injection H as <- <-. exists []. split; [now rewrite app_nil_r | constructor].
  - cbn [buildChildren] in H.
    assert (HQ' : forall child0 c n c', In child0 rest -> select child0 = true ->
                    recur child0 depth isGridItem c = Ok (Some n, c') -> Q child0 n)
      by (intros; eapply HQ; eauto; now right).
    destruct (select child) eqn:Hsel.
    + bindOk H r Hr. destruct r as [[n|] c1].
      * destruct (IH HQ' _ _ _ _ H) as [new [-> Hnew]].
        exists (n :: new). split; [now rewrite <- app_assoc|].
        apply Built_take; [|exact Hnew]. eapply HQ; eauto. now left.
      * destruct (IH HQ' _ _ _ _ H) as [new [-> Hnew]].
        exists new. split; [reflexivity | now apply Built_skip].
    + destruct (IH HQ' _ _ _ _ H) as [new [-> Hnew]].
      exists new. split; [reflexivity | now apply Built_skip].
Qed.

Lemma Built_Forall (Q : Element -> WireframeNode -> Prop) (els : list Element)
      (ns : list WireframeNode) :
  Built Q els ns -> Forall (fun n => exists e, In e els /\ Q e n) ns.
Proof.
  induction 1 as [|e es ns _ IH|e es n ns Hq _ IH].
  - constructor.
  - eapply Forall_impl; [|exact IH]. intros n [e' [Hin Hq]]. exists e'. split; [now right|exact Hq].
  - constructor.
    + exists e. split; [now left|exact Hq].
    + eapply Forall_impl; [|exact IH]. intros n' [e' [Hin Hq']]. exists e'.
      split; [now right|exact Hq'].
Qed.

(** every node of the children phase was returned by a recursive call *)
Lemma processChildren_Forall (P : WireframeNode -> Prop) (recur : BuildFn) (el : Element)
      (depth : Z) (significant : bool) (gridItems : option (list Element))
      (isGridItem : bool) (counter : nat) (childNodes : list WireframeNode)
      (counter1 : nat) :
  (forall child d g c n c', recur child d g c = Ok (Some n, c') -> P n) ->
  processChildren recur el depth significant gridItems isGridItem counter
  = Ok (childNodes, counter1) ->
  Forall P childNodes.
Proof.
  intros HP H. unfold processChildren in H.
  assert (Hloop : forall select els d g acc c res c',
             buildChildren recur select els d g acc c = Ok (res, c') ->
             Forall P acc -> Forall P res).
  { intros select els d g acc c res c' Hb Hacc.
    destruct (buildChildren_Built (fun _ n => P n) recur select d g els
                (fun child c0 n c1 _ _ Hr => HP _ _ _ _ _ _ Hr) _ _ _ _ Hb)
      as [new [-> Hnew]].
    apply Forall_app. split; [exact Hacc|].
    eapply Forall_impl; [|exact (Built_Forall _ _ _ Hnew)].
    intros n [e [_ Hn]]. exact Hn. }
  destruct gridItems as [items|].
  - bindOk H r Hr. destruct r as [cards c].
    eapply Hloop; [exact H|]. eapply Hloop; [exact Hr|constructor].
  - destruct isGridItem; cbn [negb] in H.
    + injection H as <- <-. constructor.
    + eapply Hloop; [exact H|constructor].
Qed.

(** the node returned is one of the child nodes, or a node created for
    this element with these child nodes *)
Lemma returnNode_Some (el : Element) (bbox : BoundingBox) (depth : Z) (isGridItem : bool)
      (significant : bool) (gridItems : option (list Element))
      (childNodes : list WireframeNode) (counter : nat) (n : WireframeNode)
      (counter' : nat) :
  returnNode window el bbox depth isGridItem significant gridItems childNodes counter
  = Ok (Some n, counter') ->
  (childNodes = [n] /\ counter' = counter /\ (significant = false \/ gridItems = None))
  \/ (significant = true
      /\ wrapperCollapse el bbox gridItems childNodes = None
      /\ createNode window el bbox depth isGridItem childNodes counter
         = Ok (n, counter')).
Proof.
  unfold returnNode. intros H. destruct significant; cbn [negb] in H.
  - destruct (wrapperCollapse el bbox gridItems childNodes) as [child|] eqn:Hw.
    + injection H as <- <-. left.
      unfold wrapperCollapse in Hw.
      destruct childNodes as [|c [|c' rest]]; try discriminate.
      destruct gridItems; try discriminate.
      split; [|split; [reflexivity | now right]].
      destruct (bboxesSimilar bbox (wn_bbox c)); try discriminate.
      destruct (negb (isLandmark el) && wn_isLandmark c).
      * now injection Hw as ->.
      * destruct (isText (generateLabel el) "Block" || isText (generateLabel el) "Section");
          try discriminate.
        destruct (negb (isText (wn_label c) "Block")
                  && negb (isText (wn_label c) "Section"));
          try discriminate.
        now injection Hw as ->.
    + bindOk H r Hc. destruct r as [node c2].
      injection H as <- <-. right. auto.
  - destruct childNodes as [|c [|c' rest]]; try discriminate.
    injection H as <- <-. left. auto.
Qed.

(** the fields of a created node *)
Lemma createNode_fields (el : Element) (bbox : BoundingBox) (depth : Z)
      (isGridItem : bool) (childNodes : list WireframeNode) (counter : nat)
      (n : WireframeNode) (counter' : nat) :
  createNode window el bbox depth isGridItem childNodes counter = Ok (n, counter') ->
  wn_tagName n = Str.toLowerCase (el_tagName el)
  /\ wn_bbox n = bbox /\ wn_depth n = depth /\ wn_children n = childNodes
  /\ wn_isLandmark n = isLandmark el
  /\ wn_label n = (if isGridItem then Text (inferGridItemLabel el) else generateLabel el)
  /\ (isGridItem = true -> wn_semanticType n = card)
  /\ (wn_contentHints n = None \/ exists h hs, wn_contentHints n = Some (h :: hs))
  /\ counter' = S counter.
Proof.
  unfold createNode. cbn [generateNodeId]. intros H. bindOk H sem Hsem.
  injection H as <- <-. cbn.
  repeat split.
  - intros ->. now injection Hsem as <-.
  - destruct (detectContentHints window el) as [|h hs]; cbn; [now left|].
    right. now exists h, hs.
Qed.

(** a property that every created node has holds throughout every tree
    that is returned *)
Lemma buildNodeTree_NodeAll (P : WireframeNode -> Prop) :
  (forall el bbox depth isGridItem childNodes counter n counter',
      createNode window el bbox depth isGridItem childNodes counter = Ok (n, counter') ->
      P n) ->
  forall fuel el depth viewportArea config isGridItem counter n counter',
    buildNodeTree window fuel el depth viewportArea config isGridItem counter
    = Ok (Some n, counter') ->
    NodeAll P n.
Proof.
  intros Hcreate. induction fuel as [|fuel IH]; intros el depth va cfg g c n c' H.
  - discriminate H.
  - cbn [buildNodeTree] in H. apply buildNodeTreeBody_Ok in H.
    destruct H as [[Hnone _]|H]; [discriminate Hnone|].
    destruct H as (bbox & sig & grid & kids & c1 & _ & _ & _ & _ & _ & Hkids & Hret).
    assert (Hall : Forall (NodeAll P) kids).
    { eapply processChildren_Forall; [|exact Hkids].
      intros child d g0 c0 n0 c0' Hr. eapply IH. exact Hr. }
    apply returnNode_Some in Hret. destruct Hret as [[-> _]|(_ & _ & Hc)].
    + now inversion Hall.
    + intros m Hm. rewrite traverse_eq in Hm. destruct Hm as [<-|Hm].
      * eapply Hcreate. exact Hc.
      * apply createNode_fields in Hc. destruct Hc as (_ & _ & _ & Hk & _).
        rewrite Hk in Hm. apply in_flat_map in Hm. destruct Hm as [k [Hk1 Hk2]].
        rewrite Forall_forall in Hall. exact (Hall k Hk1 m Hk2).
Qed.

(** the same, for the model [analyzeDom] returns *)
Lemma analyzeDom_NodeAll (P : WireframeNode -> Prop) :
  (forall el bbox depth isGridItem childNodes counter n counter',
      createNode window el bbox depth isGridItem childNodes counter = Ok (n, counter') ->
      P n) ->
  forall body config model,
    analyzeDom window body config = Ok model ->
    forall n, In n (flattenNodes (nodes model)) -> P n.
Proof.
  intros Hcreate body config model H n Hn.
  unfold analyzeDom in H. bindOk H r Hr. destruct r as [ns c]. injection H as <-.
  cbn [nodes] in Hn. unfold flattenNodes in Hn. apply in_flat_map in Hn.
  destruct Hn as [root [Hroot Hn]].
  apply (buildChildren_Built (fun _ k => NodeAll P k)) in Hr;
    [|intros child c0 k c1 _ _ Hk; exact (buildNodeTree_NodeAll P Hcreate _ _ _ _ _ _ _ _ _ Hk)].
  destruct Hr as [new [-> Hnew]].
  apply Built_Forall in Hnew. rewrite Forall_forall in Hnew.
  destruct (Hnew root Hroot) as [_ [_ Hall]]. exact (Hall n Hn).
Qed.

End BuildShape.

(** ** Depths along the edges *)

Section Depths.

Variable window : Window.

Lemma atDepthOrBelow_weaken (d d' : Z) (n : WireframeNode) :
  (d' <= d)%Z -> atDepthOrBelow d n -> atDepthOrBelow d' n.
Proof. intros Hd [H1 H2]. split; [lia | exact H2]. Qed.

(** the nodes of a call lie at the depth of the call or below, and along
    every edge under them the depth grows by at least one *)
Lemma buildNodeTree_atDepthOrBelow (fuel : nat) :
  forall el depth viewportArea config isGridItem counter n counter',
    buildNodeTree window fuel el depth viewportArea config isGridItem counter
    = Ok (Some n, counter') ->
    atDepthOrBelow depth n.
Proof.
  induction fuel as [|fuel IH]; intros el depth va cfg g counter n counter' H;
    [discriminate H|].
  cbn [buildNodeTree] in H. apply buildNodeTreeBody_Ok in H.
  destruct H as [[Hnone _]|H]; [discriminate Hnone|].
  destruct H as (bbox & sig & grid & kids & c1 & _ & _ & _ & _ & Hgrid & Hkids & Hret).
  assert (Hloop : forall select els d g0 acc c res c',
             buildChildren
               (fun child d0 g1 c0 => buildNodeTree window fuel child d0 va cfg g1 c0)
               select els d g0 acc c = Ok (res, c') ->
             Forall (atDepthOrBelow d) acc -> Forall (atDepthOrBelow d) res).
  { intros select els d g0 acc c res c' Hb Hacc.
    apply (buildChildren_Built (fun _ k => atDepthOrBelow d k)) in Hb.
    - destruct Hb as [new [-> Hnew]]. apply Forall_app. split; [exact Hacc|].
      eapply Forall_impl; [|exact (Built_Forall _ _ _ Hnew)].
      intros k [_ [_ Hk]]. exact Hk.
    - intros child c0 k c0' _ _ Hk. exact (IH _ _ _ _ _ _ _ _ Hk). }
  assert (Hall : Forall (atDepthOrBelow (if sig then depth + 1 else depth)%Z) kids).
  { unfold processChildren in Hkids. destruct grid as [items|].
    - destruct sig; [|discriminate Hgrid].
      bindOk Hkids r Hr. destruct r as [cards c].
      eapply Hloop; [exact Hkids|]. eapply Hloop; [exact Hr|constructor].
    - destruct (negb g).
      + eapply Hloop; [exact Hkids|constructor].
      + injection Hkids as <- _. constructor. }
  apply (returnNode_Some window) in Hret.
  destruct Hret as [(-> & _ & _)|(-> & _ & Hc)].
  - inversion Hall as [|? ? Hn _]; subst.
    eapply atDepthOrBelow_weaken; [|exact Hn]. destruct sig; lia.
  - apply (createNode_fields window) in Hc.
    destruct Hc as (_ & _ & Hd & Hch & _). split; [lia|].
    intros m Hm. rewrite traverse_eq in Hm. destruct Hm as [<-|Hm].
    + unfold childrenDeeper. rewrite Hch, Hd.
      eapply Forall_impl; [|exact Hall]. intros k [Hk _]. exact Hk.
    + rewrite Hch in Hm. apply in_flat_map in Hm. destruct Hm as [k [Hk1 Hk2]].
      rewrite Forall_forall in Hall. destruct (Hall k Hk1) as [_ Hk]. exact (Hk m Hk2).
Qed.

(** in a returned model, every child lies at least one level below its
    parent; after a wrapper collapse it lies more than one level below *)
Lemma depth_grows_along_edges (body : Element) (config : PartialConfig)
      (model : WireframeModel) (parent child : WireframeNode) :
  analyzeDom window body config = Ok model ->
  In parent (flattenNodes (nodes model)) ->
  In child (wn_children parent) ->
  (wn_depth parent + 1 <= wn_depth child)%Z.
Proof.
  intros H Hp Hc.
  unfold analyzeDom in H. bindOk H r Hr. destruct r as [ns c]. injection H as <-.
  cbn [nodes] in Hp. unfold flattenNodes in Hp. apply in_flat_map in Hp.
  destruct Hp as [root [Hroot Hp]].
  apply (buildChildren_Built (fun _ k => atDepthOrBelow 0 k)) in Hr.
  - destruct Hr as [new [-> Hnew]].
    apply Built_Forall in Hnew. rewrite Forall_forall in Hnew.
    destruct (Hnew root Hroot) as [_ [_ [_ Hall]]].
    specialize (Hall parent Hp). unfold childrenDeeper in Hall.
    rewrite Forall_forall in Hall. now apply Hall.
  - intros ch c0 k c1 _ _ Hk. exact (buildNodeTree_atDepthOrBelow _ _ _ _ _ _ _ _ _ Hk).
Qed.

End Depths.

(** ** Children of an insignificant container *)

(** Two landmarks inside a [div] whose only class is generic: the [div] is
    not significant, gets two child nodes and returns none of them. *)
Lemma generic_container_drops_landmarks :
  isSignificant Page.window1280 Page.genericContainer (1280 * 800) DEFAULT_CONFIG
  = Ok false
  /\ exists model,
      analyzeDom Page.window1280 (Page.body [Page.genericContainer]) Page.noConfig
      = Ok model
      /\ nodes model = [].
Proof.
  split; [vm_compute; reflexivity|].
  eexists. split; [vm_compute; reflexivity | reflexivity].
Qed.

(** ** Content hints of a node *)

(** C10: no node of a returned model carries an empty list of content
    hints; the field is absent or holds at least one hint. *)
Theorem contentHints_absent_or_nonempty (window : Window) (body : Element)
        (config : PartialConfig) (model : WireframeModel) (n : WireframeNode) :
  analyzeDom window body config = Ok model ->
  In n (flattenNodes (nodes model)) ->
  wn_contentHints n = None
  \/ exists h hs, wn_contentHints n = Some (h :: hs).
Proof.
  intros H.
  apply (analyzeDom_NodeAll window
           (fun n => wn_contentHints n = None
                     \/ exists h hs, wn_contentHints n = Some (h :: hs)))
    with (body := body) (config := config); [|exact H].
  intros el bbox depth g kids c k c' Hc.
  apply createNode_fields in Hc. tauto.
Qed.

(** ** Lists filtered through host reads *)

Lemma Subseq_refl {A : Type} (l : list A) : Subseq l l.
Proof. induction l; constructor; assumption. Qed.

Lemma Subseq_trans {A : Type} (l1 l2 l3 : list A) :
  Subseq l1 l2 -> Subseq l2 l3 -> Subseq l1 l3.
Proof.
  intros H12 H23. revert l1 H12.
  induction H23 as [|a sub l _ IH|a sub l _ IH]; intros l1 H12.
  - exact H12.
  - apply Subseq_skip. now apply IH.
  - inversion H12; subst.
    + apply Subseq_skip. now apply IH.
    + apply Subseq_take. now apply IH.
Qed.

Lemma Subseq_In {A : Type} (sub l : list A) (a : A) :
  Subseq sub l -> In a sub -> In a l.
Proof.
  induction 1 as [|b sub l _ IH|b sub l _ IH]; intros Hin.
  - exact Hin.
  - right. now apply IH.
  - destruct Hin as [->|Hin]; [now left | right; now apply IH].
Qed.

Lemma filter_Subseq {A : Type} (f : A -> bool) (l : list A) : Subseq (filter f l) l.
Proof.
  induction l as [|a l IH]; cbn; [constructor|].
  destruct (f a); constructor; exact IH.
Qed.

Lemma filterR_Subseq {A : Type} (p : A -> Res bool) (l l' : list A) :
  filterR p l = Ok l' -> Subseq l' l /\ Forall (fun a => p a = Ok true) l'.
Proof.
  revert l'. induction l as [|a l IH]; intros l' H; cbn in H.
  - injection H as <-. split; constructor.
  - bindOk H b Hb. bindOk H rest Hrest. injection H as <-.
    destruct (IH _ Hrest) as [Hs Hf]. destruct b.
    + split; [now apply Subseq_take | now constructor].
    + split; [now apply Subseq_skip | exact Hf].
Qed.

Lemma filterR_all {A : Type} (p : A -> Res bool) (l : list A) :
  Forall (fun a => p a = Ok true) l -> filterR p l = Ok l.
Proof.
  induction 1 as [|a l Ha _ IH]; [reflexivity|].
  cbn [filterR]. rewrite Ha, IH. reflexivity.
Qed.

Lemma mapR_all {A B : Type} (f : A -> Res B) (g : A -> B) (l : list A) :
  Forall (fun a => f a = Ok (g a)) l -> mapR f l = Ok (map g l).
Proof.
  induction 1 as [|a l Ha _ IH]; [reflexivity|].
  cbn [mapR map]. rewrite Ha, IH. reflexivity.
Qed.

Lemma filter_all {A : Type} (p : A -> bool) (l : list A) :
  Forall (fun a => p a = true) l -> filter p l = l.
Proof.
  induction 1 as [|a l Ha _ IH]; [reflexivity|].
  cbn [filter]. now rewrite Ha, IH.
Qed.

Lemma filterR_total {A : Type} (p : A -> Res bool) (l : list A) :
  (forall a, In a l -> exists b, p a = Ok b) -> exists l', filterR p l = Ok l'.
Proof.
  induction l as [|a l IH]; intros H; cbn.
  - now exists [].
  - destruct (H a (or_introl eq_refl)) as [b ->].
    destruct IH as [l' ->]; [intros; apply H; now right|].
    cbn. eauto.
Qed.

Lemma mapR_total {A B : Type} (f : A -> Res B) (l : list A) :
  (forall a, In a l -> exists b, f a = Ok b) -> exists l', mapR f l = Ok l'.
Proof.
  induction l as [|a l IH]; intros H; cbn.
  - now exists [].
  - destruct (H a (or_introl eq_refl)) as [b ->].
    destruct IH as [l' ->]; [intros; apply H; now right|].
    cbn. eauto.
Qed.

(** ** Host reads on a readable element *)

Lemma readable_rect (e : Element) :
  el_layoutThrows e = false -> getBoundingClientRect e = Ok (el_rect e).
Proof. unfold getBoundingClientRect. now intros ->. Qed.

Lemma readable_style (e : Element) :
  el_layoutThrows e = false -> getComputedStyle e = Ok (el_style e).
Proof. unfold getComputedStyle. now intros ->. Qed.

Lemma readableHTML_readable (e : Element) :
  readableHTML e = true -> isHTMLElement e = true ->
  el_layoutThrows e = false /\ plainKeys e = true.
Proof.
  unfold readableHTML. intros H Hh. rewrite Hh in H. cbn [implb] in H.
  apply andb_prop in H. destruct H as [H1 H2]. split; [|exact H2].
  now destruct (el_layoutThrows e).
Qed.

(** ** Labels of elements with plain keys *)

Lemma tableGet_plain (table : list (string * string)) (key : string) :
  Str.has Str.objectPrototypeKeys key = false ->
  tableGet table key = match Str.lookup table key with
                       | Some v => Some (Text v)
                       | None => None
                       end.
Proof. unfold tableGet. intros ->. reflexivity. Qed.

Lemma generateLabel_Text (e : Element) :
  plainKeys e = true -> exists s, generateLabel e = Text s.
Proof.
  unfold plainKeys. intros H. apply andb_prop in H. destruct H as [Htag Hrole].
  apply negb_true_iff in Htag.
  unfold generateLabel. destruct (getClassLabel e); [eauto|].
  destruct (Str.truthy (el_id e) && _ && _); [eauto|].
  unfold labelFromRole. cbv zeta. rewrite (tableGet_plain tagLabels _ Htag).
  match goal with
  | |- exists s, match el_role e with Some _ => _ | None => ?f end = Text s =>
      assert (Hfrom : exists s, f = Text s)
  end.
  { match goal with
    | |- context [if ?b then inferLabelFromContent e else None] =>
        destruct (if b then inferLabelFromContent e else None)
    end; [eauto|].
    destruct (Str.lookup tagLabels _); [eauto|].
    match goal with |- context [if ?b then _ else _] => destruct b end; eauto. }
  destruct (el_role e) as [role|]; [|exact Hfrom].
  destruct (Str.truthy role); [|exact Hfrom].
  apply negb_true_iff in Hrole. rewrite (tableGet_plain roleLabels _ Hrole).
  destruct (Str.lookup roleLabels role); [eauto | exact Hfrom].
Qed.

Lemma getSemanticType_Text (e : Element) (s : string) :
  exists t, getSemanticType e (Text s) = Ok t.
Proof.
  unfold getSemanticType.
  repeat match goal with |- context [if ?b then _ else _] => destruct b end; eauto.
Qed.

Lemma createNode_total (window : Window) (el : Element) (bbox : BoundingBox) (depth : Z)
      (isGridItem : bool) (childNodes : list WireframeNode) (counter : nat) :
  plainKeys el = true ->
  exists n counter',
    createNode window el bbox depth isGridItem childNodes counter = Ok (n, counter').
Proof.
  intros Hplain. unfold createNode. cbn [generateNodeId].
  destruct isGridItem; [cbn; eauto|].
  destruct (generateLabel_Text el Hplain) as [s ->].
  destruct (getSemanticType_Text el s) as [t ->]. cbn. eauto.
Qed.

(** an element whose own label is a string gets its node *)
Lemma createNode_labelled (window : Window) (el : Element) (bbox : BoundingBox)
      (depth : Z) (isGridItem : bool) (childNodes : list WireframeNode) (counter : nat) :
  (exists label, generateLabel el = Text label) ->
  exists n counter',
    createNode window el bbox depth isGridItem childNodes counter = Ok (n, counter').
Proof.
  intros [s Hs]. unfold createNode. cbn [generateNodeId].
  destruct isGridItem; [cbn; eauto|].
  rewrite Hs. destruct (getSemanticType_Text el s) as [t ->]. cbn. eauto.
Qed.

Lemma isElementVisible_total (e : Element) :
  el_layoutThrows e = false -> exists b, isElementVisible e = Ok b.
Proof.
  intros H. unfold isElementVisible.
  rewrite (readable_style e H), (readable_rect e H). cbn [bind].
  repeat match goal with |- context [if ?b then _ else _] => destruct b end; eauto.
Qed.

Lemma getAbsoluteBoundingBox_total (window : Window) (e : Element) :
  el_layoutThrows e = false -> exists b, getAbsoluteBoundingBox window e = Ok b.
Proof.
  intros H. unfold getAbsoluteBoundingBox. rewrite (readable_rect e H). cbn. eauto.
Qed.

Lemma isSignificant_total (window : Window) (e : Element) (va : Q) (cfg : AnalyzerConfig) :
  el_layoutThrows e = false -> exists b, isSignificant window e va cfg = Ok b.
Proof.
  intros H. unfold isSignificant, getAbsoluteBoundingBox.
  rewrite (readable_rect e H). cbn [bind].
  repeat match goal with |- context [if ?b then _ else _] => destruct b end; eauto.
Qed.

(** ** Grid items are children of the container *)

Lemma getVisibleChildren_Subseq (el : Element) (l : list Element) :
  getVisibleChildren el = Ok l ->
  Subseq l (el_children el) /\ Forall (fun c => isHTMLElement c = true) l.
Proof.
  unfold getVisibleChildren. intros H. apply filterR_Subseq in H.
  destruct H as [Hs Hf]. split; [exact Hs|].
  eapply Forall_impl; [|exact Hf]. cbn. intros c Hc.
  destruct (isHTMLElement c); [reflexivity | discriminate Hc].
Qed.

Lemma detectGridItems_Some (el : Element) (items : list Element) :
  detectGridItems el = Ok (Some items) ->
  Subseq items (el_children el)
  /\ Forall (fun c => isHTMLElement c = true /\ isLandmark c = false) items.
Proof.
  unfold detectGridItems. intros H.
  bindOk H isGrid Hgrid. destruct isGrid; cbn [negb] in H; [|discriminate H].
  bindOk H children Hch.
  destruct (List.length children <? 2)%nat; [discriminate H|].
  destruct (List.length (filter (fun child => negb (isLandmark child)) children) <? 2)%nat;
    [discriminate H|].
  bindOk H similar Hsim. destruct similar; cbn [negb] in H; [|discriminate H].
  bindOk H valid Hvalid.
  destruct (2 <=? List.length valid)%nat; [|discriminate H].
  injection H as <-.
  apply getVisibleChildren_Subseq in Hch. destruct Hch as [Hs Hhtml].
  apply filterR_Subseq in Hvalid. destruct Hvalid as [Hs' _].
  assert (Hsub : Subseq valid children)
    by (eapply Subseq_trans; [exact Hs'|apply filter_Subseq]).
  split; [eapply Subseq_trans; eassumption|].
  rewrite Forall_forall in *. intros c Hc.
  pose proof (Subseq_In _ _ _ Hs' Hc) as Hc'. apply filter_In in Hc'.
  destruct Hc' as [Hc1 Hc2]. split; [now apply Hhtml|].
  now destruct (isLandmark c).
Qed.

Lemma detectGridItems_total (el : Element) :
  el_layoutThrows el = false ->
  (forall c, In c (el_children el) -> isHTMLElement c = true -> el_layoutThrows c = false) ->
  exists g, detectGridItems el = Ok g.
Proof.
  intros Hel Hkids. unfold detectGridItems, isGridOrFlexContainer.
  rewrite (readable_style el Hel). cbn [bind].
  assert (Hvis : exists l, getVisibleChildren el = Ok l).
  { unfold getVisibleChildren. apply filterR_total. intros c Hc.
    destruct (isHTMLElement c) eqn:Hh; [|eauto].
    destruct (negb (Str.has SKIP_TAGS (Str.toLowerCase (el_tagName c)))); [|eauto].
    apply isElementVisible_total. now apply Hkids. }
  destruct Hvis as [children Hch].
  assert (Hread : forall c, In c (filter (fun child => negb (isLandmark child)) children) ->
                            el_layoutThrows c = false).
  { intros c Hc. apply filter_In in Hc. destruct Hc as [Hc _].
    destruct (getVisibleChildren_Subseq _ _ Hch) as [Hs Hhtml].
    rewrite Forall_forall in Hhtml.
    apply Hkids; [eapply Subseq_In; eassumption | now apply Hhtml]. }
  assert (Hrest : exists g,
             (children <- getVisibleChildren el ;;
              if (List.length children <? 2)%nat then Ok None
              else
                let nonLandmarkChildren :=
                  filter (fun child => negb (isLandmark child)) children in
                if (List.length nonLandmarkChildren <? 2)%nat then Ok None
                else
                  similar <- areChildrenSimilarlySized nonLandmarkChildren (3 # 10) ;;
                  if negb similar then Ok None
                  else
                    validChildren <-
                      filterR (fun child =>
                                 rect <- getBoundingClientRect child ;;
                                 Ok (Qleb GRID_ITEM_MIN_AREA
                                          (rect_width rect * rect_height rect)))
                              nonLandmarkChildren ;;
                    Ok (if (2 <=? List.length validChildren)%nat
                        then Some validChildren else None)) = Ok g).
  { rewrite Hch. cbn [bind].
    destruct (List.length children <? 2)%nat; [eauto|]. cbn zeta.
    destruct (List.length (filter (fun child => negb (isLandmark child)) children) <? 2)%nat
      eqn:Hlen; [eauto|].
    unfold areChildrenSimilarlySized. rewrite Hlen.
    destruct (mapR_total getBoundingClientRect
                (filter (fun child => negb (isLandmark child)) children)) as [sizes ->].
    { intros c Hc. rewrite (readable_rect c (Hread c Hc)). eauto. }
    cbn [bind].
    match goal with
    | |- exists g, bind (if ?b then _ else _) _ = _ => destruct b
    end; cbn [bind negb]; [eauto|].
    match goal with
    | |- exists g, (if negb ?b then _ else _) = _ => destruct b
    end; cbn [negb]; [|eauto].
    match goal with
    | |- exists g, bind (filterR ?p ?l) _ = _ =>
        destruct (filterR_total p l) as [valid ->]
    end.
    { intros c Hc. rewrite (readable_rect c (Hread c Hc)). cbn. eauto. }
    cbn. eauto. }
  destruct ((css_display (el_style el) =? "grid")
            || (css_display (el_style el) =? "inline-grid")); cbn [bind negb];
    [exact Hrest|].
  destruct ((css_display (el_style el) =? "flex")
            || (css_display (el_style el) =? "inline-flex")); cbn [bind negb]; [|eauto].
  destruct ((css_flexDirection (el_style el) =? "row")
            || (css_flexDirection (el_style el) =? "row-reverse")); cbn [bind negb];
    [exact Hrest|eauto].
Qed.

(** ** The recursion budget and the readable tree *)

Lemma treeHeight_child (el c : Element) :
  In c (el_children el) -> (treeHeight c < treeHeight el)%nat.
Proof.
  destruct el as [k t i cl r ty tx st re th kids]. cbn [el_children treeHeight].
  induction kids as [|a kids IH]; intros Hin; [destruct Hin|].
  cbn [fold_right]. destruct Hin as [->|Hin]; [lia|].
  specialize (IH Hin). lia.
Qed.

Lemma descendants_eq (el : Element) :
  descendants el = flat_map (fun c => c :: descendants c) (el_children el).
Proof. destruct el; reflexivity. Qed.

Lemma descendants_child (el c : Element) :
  In c (el_children el) -> incl (c :: descendants c) (descendants el).
Proof.
  intros Hin x Hx. rewrite (descendants_eq el). apply in_flat_map. now exists c.
Qed.

Lemma readablePlain_child (el c : Element) :
  readablePlain (descendants el) = true -> In c (el_children el) ->
  readablePlain (c :: descendants c) = true.
Proof.
  unfold readablePlain. rewrite !forallb_forall. intros H Hin x Hx.
  apply H. eapply descendants_child; eassumption.
Qed.

Lemma readablePlain_cons (el : Element) :
  readablePlain (el :: descendants el) = true ->
  readableHTML el = true /\ readablePlain (descendants el) = true.
Proof. unfold readablePlain. cbn [forallb]. intros H. now apply andb_prop in H. Qed.

Section Totality.

Variable window : Window.

Lemma buildChildren_total (recur : BuildFn) (select : Element -> bool) (depth : Z)
      (isGridItem : bool) (els : list Element) :
  (forall child, In child els -> select child = true ->
                 forall c, exists r c', recur child depth isGridItem c = Ok (r, c')) ->
  forall acc counter,
  exists res counter',
    buildChildren recur select els depth isGridItem acc counter = Ok (res, counter').
Proof.
  induction els as [|child rest IH]; intros H acc counter; cbn [buildChildren].
  - eauto.
  - assert (H' : forall child0, In child0 rest -> select child0 = true ->
                   forall c, exists r c', recur child0 depth isGridItem c = Ok (r, c'))
      by (intros; apply H; [now right|assumption]).
    destruct (select child) eqn:Hsel; [|now apply IH].
    destruct (H child (or_introl eq_refl) Hsel counter) as [r [c' ->]].
    cbn [bind]. now apply IH.
Qed.

(** with a budget above the height of the tree, the build of a tree
    whose HTML elements are readable and have plain keys returns: it
    neither raises nor runs out of budget *)
Lemma buildNodeTree_total (fuel : nat) :
  forall el depth viewportArea config isGridItem counter,
    (treeHeight el < fuel)%nat ->
    isHTMLElement el = true ->
    readablePlain (el :: descendants el) = true ->
    exists r counter',
      buildNodeTree window fuel el depth viewportArea config isGridItem counter
      = Ok (r, counter').
Proof.
  induction fuel as [|fuel IH]; intros el depth va cfg g counter Hh Hhtml Hwf; [lia|].
  apply readablePlain_cons in Hwf. destruct Hwf as [Hel Hwf].
  destruct (readableHTML_readable el Hel Hhtml) as [Hread Hplain].
  assert (Hkid : forall c, In c (el_children el) -> isHTMLElement c = true ->
                           forall d g0 c0, exists r c',
                             buildNodeTree window fuel c d va cfg g0 c0 = Ok (r, c')).
  { intros c Hc Hch d g0 c0. apply IH.
    - pose proof (treeHeight_child el c Hc). lia.
    - exact Hch.
    - eapply readablePlain_child; eassumption. }
  assert (Hkidread : forall c, In c (el_children el) -> isHTMLElement c = true ->
                               el_layoutThrows c = false).
  { intros c Hc Hch.
      pose proof (readablePlain_child el c Hwf Hc) as Hw. apply readablePlain_cons in Hw.
      now apply readableHTML_readable. }
  cbn [buildNodeTree]. unfold buildNodeTreeBody.
  destruct ((maxDepth cfg <? depth)%Z && negb g); [eauto|].
  destruct (isElementVisible_total el Hread) as [visible ->]. cbn [bind].
  destruct visible; cbn [negb]; [|eauto].
  destruct (getAbsoluteBoundingBox_total window el Hread) as [bbox ->]. cbn [bind].
  assert (Hsig : exists s, (if g then Ok true else isSignificant window el va cfg) = Ok s)
    by (destruct g; [eauto | now apply isSignificant_total]).
  destruct Hsig as [significant ->]. cbn [bind].
  assert (Hgrid : exists gi, (if significant && negb g then detectGridItems el else Ok None)
                             = Ok gi)
    by (destruct (significant && negb g); [now apply detectGridItems_total | eauto]).
  destruct Hgrid as [gridItems Hgrid]. rewrite Hgrid. cbn [bind].
  assert (Hproc : exists kids c1,
             processChildren
               (fun child d g0 c => buildNodeTree window fuel child d va cfg g0 c)
               el depth significant gridItems g counter = Ok (kids, c1)).
  { unfold processChildren. destruct gridItems as [items|].
    - destruct (significant && negb g); [|discriminate Hgrid].
      apply detectGridItems_Some in Hgrid. destruct Hgrid as [Hsub Hitems].
      rewrite Forall_forall in Hitems.
      destruct (buildChildren_total
                  (fun child d g0 c => buildNodeTree window fuel child d va cfg g0 c)
                  (fun _ => true) (depth + 1)%Z true items) with (acc := @nil WireframeNode)
                  (counter := counter) as [cards [c ->]].
      { intros child Hc _ c0. apply Hkid; [eapply Subseq_In; eassumption|].
        now apply Hitems. }
      cbn [bind]. apply buildChildren_total.
      intros child Hc Hsel c0. apply Hkid; [exact Hc|].
      now apply andb_prop in Hsel.
    - destruct (negb g); [|eauto].
      apply buildChildren_total. intros child Hc Hsel c0. now apply Hkid. }
  destruct Hproc as [kids [c1 ->]]. cbn [bind].
    unfold returnNode. destruct (negb significant).
    { destruct kids as [|k [|k' rest]]; eauto. }
    destruct (wrapperCollapse el bbox gridItems kids); [eauto|].
    destruct (createNode_total window el bbox depth g kids c1 Hplain) as [n [c' ->]].
    cbn. eauto.
Qed.

Lemma analyzeDom_total (body : Element) (config : PartialConfig) :
  readablePlain (descendants body) = true ->
  exists model, analyzeDom window body config = Ok model.
Proof.
  intros Hwf. unfold analyzeDom.
  match goal with
  | |- exists m, bind (buildChildren ?rec ?sel ?els ?d ?g ?a ?c) _ = _ =>
      assert (Hall : exists ns c', buildChildren rec sel els d g a c = Ok (ns, c'));
      [apply buildChildren_total | destruct Hall as [ns [c' ->]]]
  end.
  - intros child Hc Hsel c0. apply buildNodeTree_total.
    + pose proof (treeHeight_child body child Hc). lia.
    + exact Hsel.
    + eapply readablePlain_child; eassumption.
  - cbn. eauto.
Qed.

End Totality.

(** ** The recursion budget is never what stops the build *)

Lemma bind_withinBudget {A B : Type} (m : Res A) (k : A -> Res B) :
  withinBudget m -> (forall a, m = Ok a -> withinBudget (k a)) -> withinBudget (bind m k).
Proof.
  unfold withinBudget. destruct m as [a| |]; cbn; intros Hm Hk.
  - now apply Hk.
  - discriminate.
  - now elim Hm.
Qed.

Lemma Ok_withinBudget {A : Type} (a : A) : withinBudget (Ok a).
Proof. discriminate. Qed.

Lemma getBoundingClientRect_withinBudget (e : Element) :
  withinBudget (getBoundingClientRect e).
Proof. unfold getBoundingClientRect. destruct (el_layoutThrows e); discriminate. Qed.

Lemma getComputedStyle_withinBudget (e : Element) : withinBudget (getComputedStyle e).
Proof. unfold getComputedStyle. destruct (el_layoutThrows e); discriminate. Qed.

(** closes goals [withinBudget _] made of binds, tests and host reads *)
Ltac budget :=
  repeat first
    [ apply Ok_withinBudget
    | apply getBoundingClientRect_withinBudget
    | apply getComputedStyle_withinBudget
    | assumption
    | apply bind_withinBudget; [|intros ? ?]
    | match goal with
      | |- withinBudget (if ?b then _ else _) => destruct b
      | |- withinBudget (match ?x with Some _ => _ | None => _ end) => destruct x
      end ].

Lemma isElementVisible_withinBudget (e : Element) : withinBudget (isElementVisible e).
Proof. unfold isElementVisible. budget. Qed.

Lemma filterR_withinBudget {A : Type} (p : A -> Res bool) (l : list A) :
  (forall a, In a l -> withinBudget (p a)) -> withinBudget (filterR p l).
Proof.
  induction l as [|a l IH]; intros H; cbn [filterR]; [budget|].
  apply bind_withinBudget; [apply H; now left|]. intros b _.
  apply bind_withinBudget; [apply IH; intros; apply H; now right|]. intros; budget.
Qed.

Lemma mapR_withinBudget {A B : Type} (f : A -> Res B) (l : list A) :
  (forall a, In a l -> withinBudget (f a)) -> withinBudget (mapR f l).
Proof.
  induction l as [|a l IH]; intros H; cbn [mapR]; [budget|].
  apply bind_withinBudget; [apply H; now left|]. intros b _.
  apply bind_withinBudget; [apply IH; intros; apply H; now right|]. intros; budget.
Qed.

Lemma detectGridItems_withinBudget (el : Element) : withinBudget (detectGridItems el).
Proof.
  unfold detectGridItems.
  apply bind_withinBudget; [unfold isGridOrFlexContainer; budget|]. intros isGrid _.
  destruct (negb isGrid); [budget|].
  apply bind_withinBudget.
  { unfold getVisibleChildren. apply filterR_withinBudget. intros c _.
    destruct (isHTMLElement c); [|budget].
    destruct (negb _); [apply isElementVisible_withinBudget | budget]. }
  intros children _. destruct (_ <? 2)%nat; [budget|]. cbn zeta.
  destruct (_ <? 2)%nat; [budget|].
  apply bind_withinBudget.
  { unfold areChildrenSimilarlySized. destruct (_ <? 2)%nat; [budget|].
    apply bind_withinBudget; [apply mapR_withinBudget; intros; budget|].
    intros sizes _. cbn zeta. budget. }
  intros similar _. destruct (negb similar); [budget|].
  apply bind_withinBudget; [apply filterR_withinBudget; intros; budget|].
  intros; budget.
Qed.

Section Budget.

Variable window : Window.

Lemma returnNode_withinBudget (el : Element) (bbox : BoundingBox) (depth : Z)
      (isGridItem significant : bool) (gridItems : option (list Element))
      (childNodes : list WireframeNode) (counter : nat) :
  withinBudget
    (returnNode window el bbox depth isGridItem significant gridItems childNodes counter).
Proof.
  unfold returnNode. destruct (negb significant).
  { destruct childNodes as [|k [|k' rest]]; budget. }
  destruct (wrapperCollapse el bbox gridItems childNodes); [budget|].
  apply bind_withinBudget; [|intros [n c] _; budget].
  unfold createNode. cbn [generateNodeId].
  apply bind_withinBudget; [|intros; budget].
  destruct isGridItem; [budget|].
  unfold getSemanticType.
  repeat match goal with |- context [if ?b then _ else _] => destruct b end;
    try apply Ok_withinBudget.
  destruct (generateLabel el); [|discriminate].
  repeat match goal with |- context [if ?b then _ else _] => destruct b end;
    apply Ok_withinBudget.
Qed.


Lemma buildChildren_withinBudget (recur : BuildFn) (select : Element -> bool) (depth : Z)
      (isGridItem : bool) (els : list Element) :
  (forall child c, In child els -> select child = true ->
                   withinBudget (recur child depth isGridItem c)) ->
  forall acc counter,
    withinBudget (buildChildren recur select els depth isGridItem acc counter).
Proof.
  induction els as [|child rest IH]; intros H acc counter; cbn [buildChildren]; [budget|].
  assert (H' : forall child0 c, In child0 rest -> select child0 = true ->
                                withinBudget (recur child0 depth isGridItem c))
    by (intros; apply H; [now right|assumption]).
  destruct (select child) eqn:Hsel; [|now apply IH].
  apply bind_withinBudget; [apply H; [now left|exact Hsel]|].
  intros [r c1] _. now apply IH.
Qed.

(** with a budget above its height, the build of a tree returns or
    raises: it never stops for lack of budget *)
Lemma buildNodeTree_withinBudget (fuel : nat) :
  forall el depth viewportArea config isGridItem counter,
    (treeHeight el < fuel)%nat ->
    withinBudget
      (buildNodeTree window fuel el depth viewportArea config isGridItem counter).
Proof.
  induction fuel as [|fuel IH]; intros el depth va cfg g counter Hh; [lia|].
  assert (Hkid : forall c d g0 c0, In c (el_children el) ->
                   withinBudget (buildNodeTree window fuel c d va cfg g0 c0)).
  { intros c d g0 c0 Hc. apply IH. pose proof (treeHeight_child el c Hc). lia. }
  cbn [buildNodeTree]. unfold buildNodeTreeBody.
  destruct (_ && negb g); [budget|].
  apply bind_withinBudget; [apply isElementVisible_withinBudget|]. intros visible _.
  destruct (negb visible); [budget|].
  apply bind_withinBudget; [unfold getAbsoluteBoundingBox; budget|]. intros bbox _.
  apply bind_withinBudget.
  { destruct g; [budget|]. unfold isSignificant, getAbsoluteBoundingBox. budget. }
  intros significant _.
  apply bind_withinBudget.
  { destruct (significant && negb g); [apply detectGridItems_withinBudget | budget]. }
  intros gridItems Hgrid.
  apply bind_withinBudget; [|intros [kids c1] _; apply returnNode_withinBudget].
  unfold processChildren. destruct gridItems as [items|].
  - destruct (significant && negb g); [|discriminate Hgrid].
    apply detectGridItems_Some in Hgrid. destruct Hgrid as [Hsub _].
    apply bind_withinBudget.
    + apply buildChildren_withinBudget. intros child c Hc _. apply Hkid.
      eapply Subseq_In; eassumption.
    + intros [cards c] _. apply buildChildren_withinBudget.
      intros child c0 Hc _. now apply Hkid.
  - destruct (negb g); [|budget].
    apply buildChildren_withinBudget. intros child c0 Hc _. now apply Hkid.
Qed.

Lemma analyzeDom_withinBudget (body : Element) (config : PartialConfig) :
  withinBudget (analyzeDom window body config).
Proof.
  unfold analyzeDom. apply bind_withinBudget; [|intros [ns c] _; budget].
  apply buildChildren_withinBudget. intros child c Hc _.
  apply buildNodeTree_withinBudget. pose proof (treeHeight_child body child Hc). lia.
Qed.

End Budget.

(** ** The result does not depend on the budget *)

Section MoreBudget.

Variable window : Window.

Lemma buildChildren_more (recur1 recur2 : BuildFn) (select : Element -> bool) (depth : Z)
      (isGridItem : bool) (els : list Element) :
  (forall child c, withinBudget (recur1 child depth isGridItem c) ->
                   recur2 child depth isGridItem c = recur1 child depth isGridItem c) ->
  forall acc counter,
    withinBudget (buildChildren recur1 select els depth isGridItem acc counter) ->
    buildChildren recur2 select els depth isGridItem acc counter
    = buildChildren recur1 select els depth isGridItem acc counter.
Proof.
  intros Hrec. induction els as [|child rest IH]; intros acc counter H; [reflexivity|].
  cbn [buildChildren] in *. destruct (select child); [|now apply IH].
  destruct (recur1 child depth isGridItem counter) as [[r c1]| |] eqn:E.
  - rewrite Hrec by (rewrite E; discriminate). rewrite E. cbn [bind] in *. now apply IH.
  - rewrite Hrec by (rewrite E; discriminate). now rewrite E.
  - now elim H.
Qed.

Lemma processChildren_more (recur1 recur2 : BuildFn) (el : Element) (depth : Z)
      (significant : bool) (gridItems : option (list Element)) (isGridItem : bool)
      (counter : nat) :
  (forall child d g c, withinBudget (recur1 child d g c) ->
                       recur2 child d g c = recur1 child d g c) ->
  withinBudget (processChildren recur1 el depth significant gridItems isGridItem counter) ->
  processChildren recur2 el depth significant gridItems isGridItem counter
  = processChildren recur1 el depth significant gridItems isGridItem counter.
Proof.
  intros Hrec H. unfold processChildren in *. destruct gridItems as [items|].
  - destruct (buildChildren recur1 (fun _ => true) items (depth + 1)%Z true [] counter)
      as [[cards c]| |] eqn:E.
    + rewrite (buildChildren_more recur1 recur2) by (auto; rewrite E; discriminate).
      rewrite E. cbn [bind] in *. apply buildChildren_more; auto.
    + rewrite (buildChildren_more recur1 recur2) by (auto; rewrite E; discriminate).
      now rewrite E.
    + now elim H.
  - destruct (negb isGridItem); [|reflexivity]. apply buildChildren_more; auto.
Qed.

Lemma buildNodeTreeBody_more (recur1 recur2 : BuildFn) (el : Element) (depth : Z)
      (viewportArea : Q) (config : AnalyzerConfig) (isGridItem : bool) (counter : nat) :
  (forall child d g c, withinBudget (recur1 child d g c) ->
                       recur2 child d g c = recur1 child d g c) ->
  withinBudget
    (buildNodeTreeBody window recur1 el depth viewportArea config isGridItem counter) ->
  buildNodeTreeBody window recur2 el depth viewportArea config isGridItem counter
  = buildNodeTreeBody window recur1 el depth viewportArea config isGridItem counter.
Proof.
  intros Hrec H. unfold buildNodeTreeBody in *.
  destruct (_ && negb isGridItem); [reflexivity|].
  destruct (isElementVisible el) as [visible| |]; try reflexivity. cbn [bind] in *.
  destruct (negb visible); [reflexivity|].
  destruct (getAbsoluteBoundingBox window el) as [bbox| |]; try reflexivity.
  cbn [bind] in *.
  destruct (if isGridItem then Ok true else isSignificant window el viewportArea config)
    as [significant| |]; try reflexivity.
  cbn [bind] in *.
  destruct (if significant && negb isGridItem then detectGridItems el else Ok None)
    as [gridItems| |]; try reflexivity.
  cbn [bind] in *.
  destruct (processChildren recur1 el depth significant gridItems isGridItem counter)
    as [[kids c1]| |] eqn:E.
  - rewrite (processChildren_more recur1 recur2) by (auto; rewrite E; discriminate).
    now rewrite E.
  - rewrite (processChildren_more recur1 recur2) by (auto; rewrite E; discriminate).
    now rewrite E.
  - now elim H.
Qed.

(** a build that ends within its budget gives the same result with a
    larger budget *)
Lemma buildNodeTree_more (fuel : nat) :
  forall el depth viewportArea config isGridItem counter,
    withinBudget
      (buildNodeTree window fuel el depth viewportArea config isGridItem counter) ->
    buildNodeTree window (S fuel) el depth viewportArea config isGridItem counter
    = buildNodeTree window fuel el depth viewportArea config isGridItem counter.
Proof.
  induction fuel as [|fuel IH]; intros el depth va cfg g counter H.
  - now elim H.
  - change (buildNodeTree window (S (S fuel)) el depth va cfg g counter)
      with (buildNodeTreeBody window
              (fun child d g0 c => buildNodeTree window (S fuel) child d va cfg g0 c)
              el depth va cfg g counter).
    change (buildNodeTree window (S fuel) el depth va cfg g counter)
      with (buildNodeTreeBody window
              (fun child d g0 c => buildNodeTree window fuel child d va cfg g0 c)
              el depth va cfg g counter) in *.
    apply buildNodeTreeBody_more; [|exact H].
    intros child d g0 c Hc. now apply IH.
Qed.

End MoreBudget.

(** ** Failures of the content hint extraction *)

(** a vector graphic that cannot be measured: the hint extraction of the
    section raises, the section has no hints, and the page is analyzed *)
Lemma broken_graphic_is_contained :
  detectContentHintsUnsafe Page.window1280 Page.brokenSection = Throw
  /\ detectContentHints Page.window1280 Page.brokenSection = []
  /\ exists model root,
      analyzeDom Page.window1280 Page.brokenSvgPage Page.noConfig = Ok model
      /\ nodes model = [root]
      /\ wn_tagName root = "section"
      /\ wn_contentHints root = None.
Proof.
  split; [vm_compute; reflexivity|]. split; [vm_compute; reflexivity|].
  eexists. eexists. split; [vm_compute; reflexivity|]. repeat split.
Qed.

(** C7: the analysis does not return for every captured tree.  A role
    that names a member of [Object.prototype] makes [roleLabels[role]] a
    function, which [generateLabel] returns as the label although it is
    declared to return a string.  For a section, [getSemanticType] then
    calls [label.toLowerCase()], and the analysis raises, although no hint
    extraction has failed.  A header with the same role is classified by
    its tag and keeps the function as its label; the same section with the
    role [region] is analyzed. *)
Theorem analysis_raises_on_an_inherited_role :
  generateLabel Page.constructorSection = Inherited "constructor"
  /\ detectContentHintsUnsafe Page.window1280 Page.constructorSection = Ok []
  /\ analyzeDom Page.window1280 (Page.body [Page.constructorSection]) Page.noConfig
     = Throw
  /\ (exists model root,
        analyzeDom Page.window1280 (Page.body [Page.constructorHeader]) Page.noConfig
        = Ok model
        /\ nodes model = [root]
        /\ wn_label root = Inherited "constructor")
  /\ exists model root,
      analyzeDom Page.window1280 (Page.body [Page.regionSection]) Page.noConfig
      = Ok model
      /\ nodes model = [root]
      /\ wn_label root = Text "Region".
Proof.
  split; [reflexivity|]. split; [vm_compute; reflexivity|].
  split; [vm_compute; reflexivity|]. split.
  - eexists. eexists. split; [vm_compute; reflexivity|]. split; reflexivity.
  - eexists. eexists. split; [vm_compute; reflexivity|]. split; reflexivity.
Qed.

Lemma contentHints_absent_or_nonempty_witness :
  exists model n,
    analyzeDom Page.window1280 Page.headerPage Page.noConfig = Ok model
    /\ In n (flattenNodes (nodes model))
    /\ (wn_contentHints n = None \/ exists h hs, wn_contentHints n = Some (h :: hs)).
Proof.
  eexists. eexists.
  split; [vm_compute; reflexivity|].
  split; [cbn; left; reflexivity|].
  eapply (contentHints_absent_or_nonempty Page.window1280 Page.headerPage Page.noConfig).
  - vm_compute. reflexivity.
  - cbn. left. reflexivity.
Defined.

(** ** Wrapper collapse *)

Lemma Qltb_lt (a b : Q) : Qltb a b = true <-> a < b.
Proof.
  unfold Qltb. rewrite negb_true_iff. split; intros H.
  - apply Qnot_le_lt. intros Hle. apply Qle_bool_iff in Hle. congruence.
  - destruct (Qle_bool b a) eqn:E; [|reflexivity].
    apply Qle_bool_iff in E. exfalso. exact (Qlt_not_le _ _ H E).
Qed.

Lemma Qltb_ge (a b : Q) : Qltb a b = false <-> b <= a.
Proof.
  unfold Qltb. rewrite negb_false_iff. apply Qle_bool_iff.
Qed.

Lemma bboxesSimilar_iff (a b : BoundingBox) :
  bboxesSimilar a b = true <-> coversMoreThan85 a b.
Proof.
  unfold bboxesSimilar, coversMoreThan85, boxArea. rewrite Qltb_lt.
  split; intros H; [rewrite Qmult_comm | rewrite Qmult_comm in H]; exact H.
Qed.

Lemma isText_eq (v : JSValue) (s : string) : isText v s = true <-> v = Text s.
Proof.
  destruct v as [t|k]; cbn.
  - rewrite String.eqb_eq. split; [now intros -> | now intros [= ->]].
  - split; discriminate.
Qed.

Lemma isText_neq (v : JSValue) (s : string) : isText v s = false <-> v <> Text s.
Proof.
  rewrite <- isText_eq. destruct (isText v s); split; congruence.
Qed.

(** the test of [wrapperCollapse], in one expression *)
Lemma wrapperCollapse_test (el : Element) (bbox : BoundingBox) (child : WireframeNode) :
  wrapperCollapse el bbox None [child]
  = if bboxesSimilar bbox (wn_bbox child)
       && ((negb (isLandmark el) && wn_isLandmark child)
           || ((isText (generateLabel el) "Block" || isText (generateLabel el) "Section")
               && (negb (isText (wn_label child) "Block")
                   && negb (isText (wn_label child) "Section"))))
    then Some child else None.
Proof.
  unfold wrapperCollapse.
  destruct (bboxesSimilar bbox (wn_bbox child)); [|reflexivity].
  destruct (negb (isLandmark el) && wn_isLandmark child); [reflexivity|].
  destruct (isText (generateLabel el) "Block" || isText (generateLabel el) "Section");
    [|reflexivity].
  destruct (negb (isText (wn_label child) "Block")
            && negb (isText (wn_label child) "Section"));
    reflexivity.
Qed.

Lemma wrapperCollapse_test_iff (el : Element) (bbox : BoundingBox) (child : WireframeNode) :
  bboxesSimilar bbox (wn_bbox child)
  && ((negb (isLandmark el) && wn_isLandmark child)
      || ((isText (generateLabel el) "Block" || isText (generateLabel el) "Section")
          && (negb (isText (wn_label child) "Block")
              && negb (isText (wn_label child) "Section")))) = true
  <-> coversMoreThan85 bbox (wn_bbox child) /\ childIsMoreMeaningful el child.
Proof.
  unfold childIsMoreMeaningful.
  rewrite andb_true_iff, orb_true_iff, !andb_true_iff, orb_true_iff,
    !negb_true_iff, !isText_eq, !isText_neq, bboxesSimilar_iff.
  reflexivity.
Qed.

(** when the collapse applies, as a proposition *)
Lemma wrapperCollapse_iff (el : Element) (bbox : BoundingBox) (child : WireframeNode) :
  (coversMoreThan85 bbox (wn_bbox child) /\ childIsMoreMeaningful el child ->
   wrapperCollapse el bbox None [child] = Some child)
  /\ (~ (coversMoreThan85 bbox (wn_bbox child) /\ childIsMoreMeaningful el child) ->
      wrapperCollapse el bbox None [child] = None).
Proof.
  rewrite wrapperCollapse_test.
  pose proof (wrapperCollapse_test_iff el bbox child) as Hb.
  match goal with |- context [if ?b then _ else _] => destruct b end.
  - split; [reflexivity|]. intros H. exfalso. apply H. now apply Hb.
  - split; [|reflexivity]. intros H. apply Hb in H. discriminate H.
Qed.

Lemma wrapperCollapse_Some (el : Element) (bbox : BoundingBox)
      (gridItems : option (list Element)) (childNodes : list WireframeNode)
      (n : WireframeNode) :
  wrapperCollapse el bbox gridItems childNodes = Some n ->
  childNodes = [n] /\ gridItems = None
  /\ coversMoreThan85 bbox (wn_bbox n) /\ childIsMoreMeaningful el n.
Proof.
  intros H.
  assert (Hshape : exists c, childNodes = [c] /\ gridItems = None).
  { unfold wrapperCollapse in H.
    destruct childNodes as [|c [|c' rest]]; try discriminate H.
    destruct gridItems; [discriminate H|]. now exists c. }
  destruct Hshape as [c [-> ->]].
  rewrite wrapperCollapse_test in H.
  match type of H with (if ?b then _ else _) = _ => destruct b eqn:Hb end;
    [|discriminate H].
  injection H as ->. split; [reflexivity|]. split; [reflexivity|].
  now apply wrapperCollapse_test_iff.
Qed.

Section Collapse.

Variable window : Window.

(** C5, as amended: with one child node and no grid result, the child
    is returned in place of the element when its box covers MORE than
    85% of the element's and it is more meaningful (rule (a) or (b)); in
    every other case the element's own node is created around the child,
    provided the element's own label is a string.  So a landmark section
    is never replaced under rule (a): it survives unless its own label is
    a fallback and the child's is not. *)
Theorem wrapper_collapse_rule (fuel : nat) (el : Element) (depth : Z) (viewportArea : Q)
        (config : AnalyzerConfig) (counter : nat) (bbox : BoundingBox)
        (child : WireframeNode) (counter1 : nat) :
  oneChildNoGrid window fuel el depth viewportArea config counter bbox child counter1 ->
  (coversMoreThan85 bbox (wn_bbox child) /\ childIsMoreMeaningful el child ->
   buildNodeTree window (S fuel) el depth viewportArea config false counter
   = Ok (Some child, counter1))
  /\ (~ (coversMoreThan85 bbox (wn_bbox child) /\ childIsMoreMeaningful el child) ->
      (exists label, generateLabel el = Text label) ->
      exists n,
        buildNodeTree window (S fuel) el depth viewportArea config false counter
        = Ok (Some n, S counter1)
        /\ ownNodeWith window el bbox depth child n)
  /\ (isLandmark el = true ->
      coversMoreThan85 bbox (wn_bbox child) ->
      buildNodeTree window (S fuel) el depth viewportArea config false counter
      = Ok (Some child, counter1)
      <-> ((generateLabel el = Text "Block" \/ generateLabel el = Text "Section")
           /\ wn_label child <> Text "Block" /\ wn_label child <> Text "Section")).
Proof.
  intros (Hdepth & Hvis & Hbbox & Hsig & Hgrid & Hkids).
  assert (Hrun : buildNodeTree window (S fuel) el depth viewportArea config false counter
                 = returnNode window el bbox depth false true None [child] counter1).
  { cbn [buildNodeTree]. unfold buildNodeTreeBody.
    rewrite Hdepth. cbn [andb]. rewrite Hvis. cbn [bind negb].
    rewrite Hbbox. cbn [bind]. rewrite Hsig. cbn [bind andb negb].
    rewrite Hgrid. cbn [bind]. unfold processChildren. cbn [negb].
    rewrite Hkids. reflexivity. }
  rewrite Hrun. unfold returnNode. cbn [negb].
  destruct (wrapperCollapse_iff el bbox child) as [Hsome Hnone].
  split; [|split].
  - intros H. rewrite (Hsome H). reflexivity.
  - intros H Hlabel. rewrite (Hnone H).
    destruct (createNode_labelled window el bbox depth false [child] counter1 Hlabel)
      as [n [c' Hc]].
    rewrite Hc. cbn [bind].
    apply createNode_fields in Hc.
    destruct Hc as (Htag & Hbb & Hd & Hch & Hl & Hlab & _ & _ & ->).
    exists n. split; [reflexivity|]. unfold ownNodeWith. auto 10.
  - intros Hland Hcov. split.
    + intros Hret.
      destruct (wrapperCollapse el bbox None [child]) as [c|] eqn:Hw.
      * injection Hret as ->.
        apply wrapperCollapse_Some in Hw. destruct Hw as (_ & _ & _ & Hmean).
        destruct Hmean as [[Hl _]|Hb]; [congruence | exact Hb].
      * destruct (createNode window el bbox depth false [child] counter1)
          as [[n c']| |] eqn:Hc; cbn [bind] in Hret; try discriminate Hret.
        apply createNode_fields in Hc. destruct Hc as (_ & _ & _ & _ & _ & _ & _ & _ & ->).
        injection Hret as _ Hcount. exfalso. clear - Hcount. lia.
    + intros Hb. rewrite (Hsome (conj Hcov (or_intror Hb))). reflexivity.
Qed.

End Collapse.

Lemma wrapper_collapse_rule_witness :
  (oneChildNoGrid Page.window1280 1 Page.plainSection 0 CollapsePage.viewportArea
                  DEFAULT_CONFIG 0 CollapsePage.box1280 CollapsePage.heroNode 1
   /\ coversMoreThan85 CollapsePage.box1280 (wn_bbox CollapsePage.heroNode)
   /\ childIsMoreMeaningful Page.plainSection CollapsePage.heroNode
   /\ buildNodeTree Page.window1280 2 Page.plainSection 0 CollapsePage.viewportArea
                    DEFAULT_CONFIG false 0
      = Ok (Some CollapsePage.heroNode, 1%nat))
  /\ (oneChildNoGrid Page.window1280 1 Page.heroAt85 0 CollapsePage.viewportArea
                     DEFAULT_CONFIG 0 CollapsePage.box200 CollapsePage.navNode 1
      /\ ~ (coversMoreThan85 CollapsePage.box200 (wn_bbox CollapsePage.navNode)
            /\ childIsMoreMeaningful Page.heroAt85 CollapsePage.navNode)
      /\ generateLabel Page.heroAt85 = Text "Hero"
      /\ exists n,
          buildNodeTree Page.window1280 2 Page.heroAt85 0 CollapsePage.viewportArea
                        DEFAULT_CONFIG false 0 = Ok (Some n, 2%nat)
          /\ ownNodeWith Page.window1280 Page.heroAt85 CollapsePage.box200 0
                         CollapsePage.navNode n).
Proof.
  split.
  - assert (H1 : oneChildNoGrid Page.window1280 1 Page.plainSection 0
                   CollapsePage.viewportArea DEFAULT_CONFIG 0 CollapsePage.box1280
                   CollapsePage.heroNode 1)
      by (unfold oneChildNoGrid; repeat split; vm_compute; reflexivity).
    assert (H2 : coversMoreThan85 CollapsePage.box1280 (wn_bbox CollapsePage.heroNode))
      by (vm_compute; reflexivity).
    assert (H3 : childIsMoreMeaningful Page.plainSection CollapsePage.heroNode)
      by (right; split; [right; reflexivity | split; intros H; discriminate H]).
    split; [exact H1|]. split; [exact H2|]. split; [exact H3|].
    exact (proj1 (wrapper_collapse_rule Page.window1280 1 Page.plainSection 0
                    CollapsePage.viewportArea DEFAULT_CONFIG 0 CollapsePage.box1280
                    CollapsePage.heroNode 1 H1) (conj H2 H3)).
  - assert (H1 : oneChildNoGrid Page.window1280 1 Page.heroAt85 0
                   CollapsePage.viewportArea DEFAULT_CONFIG 0 CollapsePage.box200
                   CollapsePage.navNode 1)
      by (unfold oneChildNoGrid; repeat split; vm_compute; reflexivity).
    assert (H2 : ~ (coversMoreThan85 CollapsePage.box200 (wn_bbox CollapsePage.navNode)
                    /\ childIsMoreMeaningful Page.heroAt85 CollapsePage.navNode))
      by (intros [C _]; vm_compute in C; discriminate C).
    assert (H3 : generateLabel Page.heroAt85 = Text "Hero") by reflexivity.
    split; [exact H1|]. split; [exact H2|]. split; [exact H3|].
    exact (proj1 (proj2 (wrapper_collapse_rule Page.window1280 1 Page.heroAt85 0
                           CollapsePage.viewportArea DEFAULT_CONFIG 0 CollapsePage.box200
                           CollapsePage.navNode 1 H1))
                 H2 (ex_intro _ "Hero" H3)).
Defined.

(** C5, as stated, fails twice: a landmark child that covers exactly 85%
    of its non-landmark parent is not returned in its place, and a landmark
    section over a [div] with a better label is replaced by the [div]. *)
Lemma wrapper_collapse_counterexample :
  ~ collapseRule coversAtLeast85 Page.window1280 1 Page.heroAt85 0
      CollapsePage.viewportArea DEFAULT_CONFIG 0 CollapsePage.box200 CollapsePage.navNode 1
  /\ ~ sectionSurvives coversAtLeast85 Page.window1280 1 Page.plainSection 0
         CollapsePage.viewportArea DEFAULT_CONFIG 0 CollapsePage.box1280
         CollapsePage.heroNode 1.
Proof.
  split.
  - unfold collapseRule. intros H.
    assert (H1 : oneChildNoGrid Page.window1280 1 Page.heroAt85 0
                   CollapsePage.viewportArea DEFAULT_CONFIG 0 CollapsePage.box200
                   CollapsePage.navNode 1)
      by (unfold oneChildNoGrid; repeat split; vm_compute; reflexivity).
    assert (H2 : coversAtLeast85 CollapsePage.box200 (wn_bbox CollapsePage.navNode))
      by (vm_compute; intros E; discriminate E).
    assert (H3 : childIsMoreMeaningful Page.heroAt85 CollapsePage.navNode)
      by (left; split; reflexivity).
    specialize (H H1 H2 H3). vm_compute in H. discriminate H.
  - unfold sectionSurvives. intros H.
    assert (H1 : oneChildNoGrid Page.window1280 1 Page.plainSection 0
                   CollapsePage.viewportArea DEFAULT_CONFIG 0 CollapsePage.box1280
                   CollapsePage.heroNode 1)
      by (unfold oneChildNoGrid; repeat split; vm_compute; reflexivity).
    assert (H2 : coversAtLeast85 CollapsePage.box1280 (wn_bbox CollapsePage.heroNode))
      by (vm_compute; intros E; discriminate E).
    destruct (H H1 eq_refl (conj eq_refl eq_refl) H2) as [n [c [Hrun Htag]]].
    vm_compute in Hrun. injection Hrun as <- _. discriminate Htag.
Qed.

(** ** Landmarks *)

Section Landmarks.

Variable window : Window.

(** Semantic landmarks are always significant, once past the skip set
    and the minimum area *)
Lemma isSignificant_landmark (el : Element) (viewportArea : Q) (config : AnalyzerConfig)
      (bbox : BoundingBox) :
  Str.has SKIP_TAGS (Str.toLowerCase (el_tagName el)) = false ->
  getAbsoluteBoundingBox window el = Ok bbox ->
  minArea config <= boxArea bbox ->
  isLandmark el = true ->
  isSignificant window el viewportArea config = Ok true.
Proof.
  intros Hskip Hbbox Harea Hland. unfold isSignificant.
  rewrite Hskip, Hbbox. cbn [bind].
  apply Qltb_ge in Harea. unfold boxArea in Harea. rewrite Harea, Hland. reflexivity.
Qed.

(** every selected element of a child loop is built, and the node it
    gives, if any, is among the nodes of the loop *)
Lemma buildChildren_In (recur : BuildFn) (select : Element -> bool) (depth : Z)
      (isGridItem : bool) (els : list Element) :
  forall acc counter res counter',
    buildChildren recur select els depth isGridItem acc counter = Ok (res, counter') ->
    incl acc res
    /\ forall child, In child els -> select child = true ->
         exists c0 r c1, recur child depth isGridItem c0 = Ok (r, c1)
                         /\ forall n, r = Some n -> In n res.
Proof.
  induction els as [|child rest IH]; intros acc counter res counter' H.
  - injection H as <- <-. split; [apply incl_refl|]. intros ? [].
  - cbn [buildChildren] in H. destruct (select child) eqn:Hsel.
    + bindOk H r Hr. destruct r as [r c1].
      destruct (IH _ _ _ _ H) as [Hincl Hrest]. split.
      * intros a Ha. apply Hincl. destruct r; [apply in_or_app; now left | exact Ha].
      * intros ch [<-|Hin] Hs.
        -- exists counter, r, c1. split; [exact Hr|].
           intros n ->. apply Hincl. apply in_or_app. right. now left.
        -- now apply Hrest.
    + destruct (IH _ _ _ _ H) as [Hincl Hrest]. split; [exact Hincl|].
      intros ch [<-|Hin] Hs; [congruence | now apply Hrest].
Qed.

Lemma landmark_gives_node (fuel : nat) (el : Element) (depth : Z) (viewportArea : Q)
      (config : AnalyzerConfig) (bbox : BoundingBox) (counter : nat)
      (r : option WireframeNode) (counter' : nat) :
  reachedLandmark window el depth config bbox ->
  buildNodeTree window fuel el depth viewportArea config false counter
  = Ok (r, counter') ->
  exists n, r = Some n /\ standsFor window el depth viewportArea config bbox n.
Proof.
  intros (Hdepth & Hvis & Hland & Hskip & Hbbox & Harea) H.
  destruct fuel as [|fuel]; [discriminate H|].
  cbn [buildNodeTree] in H. apply buildNodeTreeBody_Ok in H.
  destruct H as [(_ & _ & [Hg|Hv])|H].
  - rewrite Hdepth in Hg. discriminate Hg.
  - rewrite Hvis in Hv. discriminate Hv.
  - destruct H as (bbox' & sig & grid & kids & c1 & _ & _ & Hb & Hsig & Hgrid & Hkids & Hret).
    rewrite Hbbox in Hb. injection Hb as <-.
    rewrite (isSignificant_landmark el viewportArea config bbox Hskip Hbbox Harea Hland)
      in Hsig.
    injection Hsig as <-.
    unfold returnNode in Hret. cbn [negb] in Hret.
    destruct (wrapperCollapse el bbox grid kids) as [child|] eqn:Hw.
    + injection Hret as <- <-. exists child. split; [reflexivity|]. right.
      apply wrapperCollapse_Some in Hw. destruct Hw as (-> & -> & Hcov & Hmean).
      destruct Hmean as [[Hl _]|(Hlab & Hc1 & Hc2)]; [congruence|].
      repeat split; try assumption.
      unfold processChildren in Hkids. cbn [negb] in Hkids. eauto.
    + bindOk Hret created Hc. destruct created as [node c2]. injection Hret as <- <-.
      apply (createNode_fields window) in Hc.
      destruct Hc as (Htag & Hbb & Hd & _ & Hl & Hlab & _).
      exists node. split; [reflexivity|]. left. rewrite Hl. auto.
Qed.

(** a child loop over two lists is the loop over the first followed by
    the loop over the second *)
Lemma buildChildren_app (recur : BuildFn) (select : Element -> bool) (depth : Z)
      (isGridItem : bool) (l1 l2 : list Element) :
  forall acc counter,
    buildChildren recur select (l1 ++ l2) depth isGridItem acc counter
    = ('(acc1, c1) <- buildChildren recur select l1 depth isGridItem acc counter ;;
       buildChildren recur select l2 depth isGridItem acc1 c1).
Proof.
  induction l1 as [|x l1 IH]; intros acc counter; [reflexivity|].
  cbn [app buildChildren]. destruct (select x); [|apply IH].
  destruct (recur x depth isGridItem counter) as [[node c1]| |]; cbn [bind];
    [apply IH | reflexivity | reflexivity].
Qed.

(** a child that is not visible gives no node *)
Lemma invisible_gives_nothing (viewportArea : Q) (config : AnalyzerConfig) (depth : Z)
      (c : Element) :
  isElementVisible c = Ok false -> givesNothing window viewportArea config depth c.
Proof.
  intros Hx _ fuel counter r counter' Hr.
  destruct fuel as [|fuel']; [discriminate Hr|].
  cbn [buildNodeTree] in Hr. apply buildNodeTreeBody_Ok in Hr.
  destruct Hr as [(-> & _)|(? & ? & ? & ? & ? & _ & Hv & _)]; [reflexivity|].
  rewrite Hx in Hv. discriminate Hv.
Qed.

(** children that give nothing leave the nodes alone *)
Lemma buildChildren_nothing (fuel : nat) (viewportArea : Q) (config : AnalyzerConfig)
      (depth : Z) (els : list Element) :
  Forall (givesNothing window viewportArea config depth) els ->
  forall acc counter res counter',
    buildChildren
      (fun c d g k => buildNodeTree window fuel c d viewportArea config g k)
      isHTMLElement els depth false acc counter = Ok (res, counter') ->
    res = acc.
Proof.
  induction 1 as [|x els Hx _ IH]; intros acc counter res counter' H.
  - now injection H as <- _.
  - cbn [buildChildren] in H. destruct (isHTMLElement x) eqn:Hhtml;
      [|eapply IH; exact H].
    bindOk H r Hr. destruct r as [r c1].
    rewrite (Hx Hhtml _ _ _ _ Hr) in H. eapply IH; exact H.
Qed.

(** a significant element always gives a node, which holds the nodes of
    its children or is the only one of them *)
Lemma returnNode_significant (el : Element) (bbox : BoundingBox) (depth : Z)
      (isGridItem : bool) (gridItems : option (list Element))
      (childNodes : list WireframeNode) (counter : nat) (r : option WireframeNode)
      (counter' : nat) :
  returnNode window el bbox depth isGridItem true gridItems childNodes counter
  = Ok (r, counter') ->
  exists n, r = Some n /\ (childNodes = [n] \/ wn_children n = childNodes).
Proof.
  intros H. destruct r as [n|].
  - exists n. split; [reflexivity|]. apply returnNode_Some in H.
    destruct H as [(Hk & _)|(_ & _ & Hc)]; [now left|]. right.
    now apply createNode_fields in Hc.
  - exfalso. unfold returnNode in H. cbn [negb] in H.
    destruct (wrapperCollapse el bbox gridItems childNodes); [discriminate H|].
    destruct (createNode window el bbox depth isGridItem childNodes counter)
      as [[node c]| |]; discriminate H.
Qed.

Lemma leadsTo_depth (viewportArea : Q) (config : AnalyzerConfig) (a : Element) (d : Z)
      (e : Element) (de : Z) :
  leadsTo window viewportArea config a d e de -> (d <= de)%Z.
Proof. induction 1; lia. Qed.

(** the node of a landmark that a call leads to is in the tree that the
    call returns *)
Lemma leadsTo_node (viewportArea : Q) (config : AnalyzerConfig) (a : Element) (d : Z)
      (e : Element) (de : Z) (bbox : BoundingBox) :
  leadsTo window viewportArea config a d e de ->
  reachedLandmark window e de config bbox ->
  forall fuel counter r counter',
    buildNodeTree window fuel a d viewportArea config false counter = Ok (r, counter') ->
    exists n m, r = Some n /\ In m (traverse n)
                /\ standsFor window e de viewportArea config bbox m.
Proof.
  intros Hlead Hreach.
  induction Hlead as [a d
                     |a d c e de Hvis Hsig Hin Hhtml Hway Hlead IH
                     |a d before c after e de Hvis Hsig Hkids Hhtml Hnone Hlead IH];
    intros fuel counter r counter' H.
  - destruct (landmark_gives_node _ _ _ _ _ _ _ _ _ Hreach H) as [n [-> Hn]].
    exists n, n. split; [reflexivity|]. split; [|exact Hn].
    rewrite traverse_eq. now left.
  - specialize (IH Hreach).
    assert (Hd : (maxDepth config <? d)%Z = false).
    { apply leadsTo_depth in Hlead. destruct Hreach as [Hde _].
      apply Z.ltb_ge in Hde. apply Z.ltb_ge. lia. }
    destruct fuel as [|fuel]; [discriminate H|].
    cbn [buildNodeTree] in H. apply buildNodeTreeBody_Ok in H.
    destruct H as [(_ & _ & [Hg|Hv])|H];
      [rewrite Hd in Hg; discriminate Hg | rewrite Hvis in Hv; discriminate Hv|].
    destruct H as (bb & sig & grid & kids & c1 & _ & _ & _ & Hs & Hgrid & Hk & Hret).
    rewrite Hsig in Hs. injection Hs as <-. cbn [andb negb] in Hgrid.
    assert (Hchild : exists c0 rc c2,
               buildNodeTree window fuel c (d + 1) viewportArea config false c0
               = Ok (rc, c2)
               /\ forall n, rc = Some n -> In n kids).
    { unfold processChildren in Hk. destruct grid as [items|].
      - destruct Hway as [Hno|Hmark]; [congruence|].
        bindOk Hk cards Hcards. destruct cards as [cards c3].
        apply buildChildren_In in Hk. destruct Hk as [_ Hall].
        apply (Hall c Hin). now rewrite Hhtml, Hmark.
      - cbn [negb] in Hk. apply buildChildren_In in Hk. destruct Hk as [_ Hall].
        exact (Hall c Hin Hhtml). }
    destruct Hchild as (c0 & rc & c2 & Hrc & Hkid).
    destruct (IH _ _ _ _ Hrc) as (nc & m & -> & Hm & Hstands).
    specialize (Hkid nc eq_refl).
    apply returnNode_significant in Hret. destruct Hret as [n [-> Hshape]].
    exists n, m. split; [reflexivity|]. split; [|exact Hstands].
    destruct Hshape as [->|Hch].
    + destruct Hkid as [<-|[]]. exact Hm.
    + rewrite traverse_eq, Hch. right. apply in_flat_map. now exists nc.
  - specialize (IH Hreach).
    assert (Hd : (maxDepth config <? d)%Z = false).
    { apply leadsTo_depth in Hlead. destruct Hreach as [Hde _].
      apply Z.ltb_ge in Hde. apply Z.ltb_ge. lia. }
    destruct fuel as [|fuel]; [discriminate H|].
    cbn [buildNodeTree] in H. apply buildNodeTreeBody_Ok in H.
    destruct H as [(_ & _ & [Hg|Hv])|H];
      [rewrite Hd in Hg; discriminate Hg | rewrite Hvis in Hv; discriminate Hv|].
    destruct H as (bb & sig & grid & kids & c1 & _ & _ & _ & Hs & Hgrid & Hk & Hret).
    rewrite Hsig in Hs. injection Hs as <-. cbn [andb] in Hgrid. injection Hgrid as <-.
    unfold processChildren in Hk. cbn [negb] in Hk.
    apply Forall_app in Hnone. destruct Hnone as [Hbefore Hafter].
    rewrite Hkids, buildChildren_app in Hk. bindOk Hk r1 Hr1. destruct r1 as [acc1 k1].
    apply (buildChildren_nothing _ _ _ _ _ Hbefore) in Hr1. subst acc1.
    cbn [buildChildren] in Hk. rewrite Hhtml in Hk.
    bindOk Hk rc Hrc. destruct rc as [rc k2].
    destruct (IH _ _ _ _ Hrc) as (nc & m & -> & Hm & Hstands).
    apply (buildChildren_nothing _ _ _ _ _ Hafter) in Hk. subst kids.
    cbn [app returnNode negb] in Hret. injection Hret as <- <-.
    exists nc, m. auto.
Qed.

(** C1, as amended: in a model that is returned, a visible landmark with
    a tag outside the skip set and a box of at least [minArea] has a node
    that stands for it (its own, or the child that replaced it in a wrapper
    collapse) whenever the build leads to it at a depth within [maxDepth]
    from a child of the analyzed root.  When the landmark is itself a child
    of the analyzed root, that node is one of the root nodes. *)
Theorem landmark_preserved_when_reached (body a : Element) (config : PartialConfig)
        (model : WireframeModel) :
  analyzeDom window body config = Ok model ->
  In a (el_children body) ->
  isHTMLElement a = true ->
  (forall e de bbox,
      leadsTo window (innerWidth window * innerHeight window) (mergeConfig config)
              a 0 e de ->
      reachedLandmark window e de (mergeConfig config) bbox ->
      exists m,
        In m (flattenNodes (nodes model))
        /\ standsFor window e de (innerWidth window * innerHeight window)
                     (mergeConfig config) bbox m)
  /\ (forall bbox,
         reachedLandmark window a 0 (mergeConfig config) bbox ->
         exists n,
           In n (nodes model)
           /\ standsFor window a 0 (innerWidth window * innerHeight window)
                        (mergeConfig config) bbox n).
Proof.
  intros Hrun Hin Hhtml.
  unfold analyzeDom in Hrun. bindOk Hrun res Hres. destruct res as [ns c].
  injection Hrun as <-. cbn [nodes].
  apply buildChildren_In in Hres. destruct Hres as [_ Hall].
  destruct (Hall a Hin Hhtml) as (c0 & r & c1 & Hb & Hr).
  split.
  - intros e de bbox Hlead Hreach.
    destruct (leadsTo_node _ _ _ _ _ _ _ Hlead Hreach _ _ _ _ Hb) as (n & m & -> & Hm & Hs).
    exists m. split; [|exact Hs].
    unfold flattenNodes. apply in_flat_map. exists n. split; [now apply Hr | exact Hm].
  - intros bbox Hreach.
    destruct (landmark_gives_node _ _ _ _ _ _ _ _ _ Hreach Hb) as [n [-> Hn]].
    exists n. split; [now apply Hr | exact Hn].
Qed.

End Landmarks.

Lemma landmark_preserved_when_reached_witness :
  (exists model,
      analyzeDom Page.window1280 Page.headerPage Page.noConfig = Ok model
      /\ In Page.pageHeader (el_children Page.headerPage)
      /\ isHTMLElement Page.pageHeader = true
      /\ leadsTo Page.window1280 (1280 * 800) DEFAULT_CONFIG
                 Page.pageHeader 0 Page.navBar 1
      /\ reachedLandmark Page.window1280 Page.navBar 1 DEFAULT_CONFIG
                         {| bb_x := 0; bb_y := 0; bb_width := 1280; bb_height := 80 |}
      /\ exists m,
          In m (flattenNodes (nodes model))
          /\ standsFor Page.window1280 Page.navBar 1 (1280 * 800) DEFAULT_CONFIG
                       {| bb_x := 0; bb_y := 0; bb_width := 1280; bb_height := 80 |} m)
  /\ exists model,
      analyzeDom Page.window1280 Page.wrappedPage Page.noConfig = Ok model
      /\ In Page.plainWrapper (el_children Page.wrappedPage)
      /\ isHTMLElement Page.plainWrapper = true
      /\ leadsTo Page.window1280 (1280 * 800) DEFAULT_CONFIG
                 Page.plainWrapper 0 Page.navBar 0
      /\ reachedLandmark Page.window1280 Page.navBar 0 DEFAULT_CONFIG
                         {| bb_x := 0; bb_y := 0; bb_width := 1280; bb_height := 80 |}
      /\ exists m,
          In m (flattenNodes (nodes model))
          /\ standsFor Page.window1280 Page.navBar 0 (1280 * 800) DEFAULT_CONFIG
                       {| bb_x := 0; bb_y := 0; bb_width := 1280; bb_height := 80 |} m.
Proof.
  assert (Hreach : forall d, (d <= 3)%Z ->
             reachedLandmark Page.window1280 Page.navBar d DEFAULT_CONFIG
               {| bb_x := 0; bb_y := 0; bb_width := 1280; bb_height := 80 |}).
  { intros d Hd. unfold reachedLandmark.
    split; [apply Z.ltb_ge; exact Hd|].
    repeat split; try (vm_compute; reflexivity).
    vm_compute. intros E. discriminate E. }
  split.
  - eexists.
    assert (Hlead : leadsTo Page.window1280 (1280 * 800) DEFAULT_CONFIG
                            Page.pageHeader 0 Page.navBar 1).
    { apply (leadsTo_significant _ _ _ Page.pageHeader 0 Page.navBar Page.navBar 1).
      - vm_compute. reflexivity.
      - vm_compute. reflexivity.
      - left. reflexivity.
      - reflexivity.
      - left. vm_compute. reflexivity.
      - apply leadsTo_here. }
    split; [vm_compute; reflexivity|].
    split; [left; reflexivity|].
    split; [reflexivity|].
    split; [exact Hlead|].
    split; [apply Hreach; lia|].
    refine (proj1 (landmark_preserved_when_reached Page.window1280 Page.headerPage
                     Page.pageHeader Page.noConfig _ _ _ eq_refl) _ _ _ Hlead
                  (Hreach 1%Z _)).
    + vm_compute. reflexivity.
    + left. reflexivity.
    + lia.
  - eexists.
    assert (Hlead : leadsTo Page.window1280 (1280 * 800) DEFAULT_CONFIG
                            Page.plainWrapper 0 Page.navBar 0).
    { apply (leadsTo_only_child _ _ _ Page.plainWrapper 0 [Page.hiddenBox] Page.navBar []
                                Page.navBar 0).
      - vm_compute. reflexivity.
      - vm_compute. reflexivity.
      - reflexivity.
      - reflexivity.
      - cbn [app]. constructor; [|constructor].
        apply invisible_gives_nothing. vm_compute. reflexivity.
      - apply leadsTo_here. }
    split; [vm_compute; reflexivity|].
    split; [left; reflexivity|].
    split; [reflexivity|].
    split; [exact Hlead|].
    split; [apply Hreach; lia|].
    refine (proj1 (landmark_preserved_when_reached Page.window1280 Page.wrappedPage
                     Page.plainWrapper Page.noConfig _ _ _ eq_refl) _ _ _ Hlead
                  (Hreach 0%Z _)).
    + vm_compute. reflexivity.
    + left. reflexivity.
    + lia.
Defined.

(** C1, as stated, fails: a [nav] nested below four sections is visited
    at depth 4, above the default [maxDepth] of 3, and gives no node. *)
Lemma landmark_beyond_maxDepth_counterexample :
  ~ landmarksPreserved Page.window1280 Page.nestedPage Page.noConfig.
Proof.
  unfold landmarksPreserved. intros H.
  remember (analyzeDom Page.window1280 Page.nestedPage Page.noConfig) as run eqn:E.
  vm_compute in E.
  specialize (H _ E Page.section5).
  destruct H as (n & d & Hn & Hd & Htag & _).
  - cbn. repeat (try (left; reflexivity); right).
  - unfold qualifyingLandmark. repeat split; try (vm_compute; reflexivity).
    eexists. split; [vm_compute; reflexivity|].
    vm_compute. intros C. discriminate C.
  - cbn in Hd. destruct Hd as [<-|[]].
    cbn in Hn.
    repeat (destruct Hn as [<-|Hn]; [discriminate Htag|]).
    destruct Hn.
Qed.

(** ** Document order *)

Lemma Built_none (Q : Element -> WireframeNode -> Prop) (els : list Element) :
  Built Q els [].
Proof. induction els; constructor; assumption. Qed.

Lemma Built_impl (Q Q' : Element -> WireframeNode -> Prop) (els : list Element)
      (ns : list WireframeNode) :
  (forall e n, In e els -> Q e n -> Q' e n) -> Built Q els ns -> Built Q' els ns.
Proof.
  intros H HB. induction HB as [|e es ns _ IH|e es n ns Hq _ IH].
  - constructor.
  - apply Built_skip. apply IH. intros; apply H; [now right|assumption].
  - apply Built_take.
    + apply H; [now left|exact Hq].
    + apply IH. intros; apply H; [now right|assumption].
Qed.

Lemma Built_Subseq (Q : Element -> WireframeNode -> Prop) (sub els : list Element)
      (ns : list WireframeNode) :
  Subseq sub els -> Built Q sub ns -> Built Q els ns.
Proof.
  intros Hs. revert ns. induction Hs as [|a sub l _ IH|a sub l _ IH]; intros ns HB.
  - exact HB.
  - apply Built_skip. now apply IH.
  - inversion HB; subst.
    + apply Built_skip. now apply IH.
    + apply Built_take; [assumption | now apply IH].
Qed.

Lemma Built_length (Q : Element -> WireframeNode -> Prop) (els : list Element)
      (ns : list WireframeNode) :
  Built Q els ns -> (List.length ns <= List.length els)%nat.
Proof. induction 1; cbn; lia. Qed.

(** as many nodes as elements: every element gave its node *)
Lemma Built_full (Q : Element -> WireframeNode -> Prop) (els : list Element)
      (ns : list WireframeNode) :
  Built Q els ns -> List.length ns = List.length els -> Forall2 Q els ns.
Proof.
  induction 1 as [|e es ns HB IH|e es n ns Hq HB IH]; cbn; intros Hlen.
  - constructor.
  - apply Built_length in HB. lia.
  - constructor; [exact Hq | apply IH; lia].
Qed.

Section DocumentOrder.

Variable window : Window.

(** every node returned is in order, and a grid item gives a leaf card
    made from it *)
Lemma buildNodeTree_InOrder (fuel : nat) :
  forall el depth viewportArea config isGridItem counter n counter',
    buildNodeTree window fuel el depth viewportArea config isGridItem counter
    = Ok (Some n, counter') ->
    InOrder true window el n
    /\ (isGridItem = true ->
        madeFrom window el n /\ wn_semanticType n = card /\ wn_children n = []).
Proof.
  induction fuel as [|fuel IH]; intros el depth va cfg g counter n counter' H;
    [discriminate H|].
  cbn [buildNodeTree] in H. apply buildNodeTreeBody_Ok in H.
  destruct H as [[Hnone _]|H]; [discriminate Hnone|].
  destruct H as (bbox & sig & grid & kids & c1 & _ & _ & Hbbox & Hsig & Hgrid & Hkids & Hret).
  set (recur := fun child d g0 c => buildNodeTree window fuel child d va cfg g0 c) in *.
  assert (Hplain : grid = None ->
            if g then kids = []
            else Built (InOrder true window) (el_children el) kids).
  { intros ->. unfold processChildren in Hkids. destruct g; cbn [negb] in Hkids.
    - now injection Hkids as <- _.
    - apply (buildChildren_Built (InOrder true window)) in Hkids.
      + destruct Hkids as [new [-> Hnew]]. exact Hnew.
      + intros child c0 k c0' _ _ Hk. exact (proj1 (IH _ _ _ _ _ _ _ _ Hk)). }
  assert (Hbubble : grid = None -> kids = [n] -> InOrder true window el n /\ g = false).
  { intros Hg ->. specialize (Hplain Hg). destruct g; [discriminate Hplain|].
    split; [|reflexivity].
    apply Built_Forall in Hplain. inversion Hplain as [|? ? [e [Hin Hord]] _]; subst.
    eapply InOrder_below; eassumption. }
  apply (returnNode_Some window) in Hret.
  destruct Hret as [(Hk & _ & Hwhy)|(Hs & Hw & Hc)]; [subst kids | subst sig].
  - assert (Hg : grid = None).
    { destruct Hwhy as [-> | ->]; [|reflexivity].
      cbn [andb] in Hgrid. now injection Hgrid as <-. }
    destruct (Hbubble Hg eq_refl) as [Hord ->]. split; [exact Hord|discriminate].
  - apply createNode_fields in Hc.
    destruct Hc as (Htag & Hbb & _ & Hch & Hland & _ & Hcard & _).
    assert (Hmade : madeFrom window el n)
      by (split; [exact Htag | split; [now rewrite Hbb | exact Hland]]).
    destruct grid as [items|].
    + destruct g; cbn [andb negb] in Hgrid; [discriminate Hgrid|].
      split; [|discriminate].
      pose proof Hgrid as Hdetect.
      apply detectGridItems_Some in Hgrid. destruct Hgrid as [Hsub Hitems].
      rewrite Forall_forall in Hitems.
      unfold processChildren in Hkids. bindOk Hkids r Hr. destruct r as [cards c].
      apply (buildChildren_Built (cardFrom window items)) in Hr.
      2:{ intros child c0 k c0' Hin _ Hk.
          destruct (proj2 (IH _ _ _ _ _ _ _ _ Hk) eq_refl) as (Hm & Hcd & Hleaf).
          split; [exact Hin|]. split; [now apply Hitems|]. auto. }
      destruct Hr as [cards' [-> Hcards]]. cbn [app] in Hkids.
      apply (buildChildren_Built
               (fun c k => isLandmark c = true /\ InOrder true window c k)) in Hkids.
      2:{ intros child c0 k c0' _ Hsel Hk. apply andb_prop in Hsel.
          split; [tauto | exact (proj1 (IH _ _ _ _ _ _ _ _ Hk))]. }
      destruct Hkids as [marks [-> Hmarks]].
      eapply InOrder_grid; try eassumption; try reflexivity.
      eapply Built_Subseq; eassumption.
    + specialize (Hplain eq_refl). split.
      * apply InOrder_here; [exact Hmade| |].
        -- intros _ Hne. destruct g.
           ++ rewrite Hch, Hplain in Hne. now contradiction Hne.
           ++ cbn [andb negb] in Hgrid. exact Hgrid.
        -- rewrite Hch. destruct g; [rewrite Hplain; apply Built_none | exact Hplain].
      * intros ->. split; [exact Hmade|]. split; [now apply Hcard|].
        now rewrite Hch.
Qed.

End DocumentOrder.

(** C3, as amended: the root nodes and the children of every node follow
    the document order of the elements they were built from, except that
    the children of a grid container are its grid-item nodes, in document
    order, followed by the nodes of its landmark children, in document
    order. *)
Theorem siblings_in_document_order (window : Window) (body : Element)
        (config : PartialConfig) :
  documentOrder true window body config.
Proof.
  unfold documentOrder. intros model H.
  unfold analyzeDom in H. bindOk H r Hr. destruct r as [ns c]. injection H as <-.
  cbn [nodes].
  apply (buildChildren_Built (InOrder true window)) in Hr.
  - destruct Hr as [new [-> Hnew]]. exact Hnew.
  - intros child c0 n c1 _ _ Hn.
    exact (proj1 (buildNodeTree_InOrder window _ _ _ _ _ _ _ _ _ Hn)).
Qed.

Lemma siblings_in_document_order_witness :
  exists model,
    analyzeDom Page.window1280 Page.mixedGridPage Page.noConfig = Ok model
    /\ Built (InOrder true Page.window1280) (el_children Page.mixedGridPage) (nodes model).
Proof.
  eexists. split; [vm_compute; reflexivity|].
  apply (siblings_in_document_order Page.window1280 Page.mixedGridPage Page.noConfig).
  vm_compute. reflexivity.
Defined.

(** a node in order below an element without children was made from it *)
Lemma InOrder_leaf (grids : bool) (window : Window) (e : Element) (n : WireframeNode) :
  el_children e = [] -> InOrder grids window e n ->
  wn_tagName n = Str.toLowerCase (el_tagName e).
Proof.
  intros Hleaf H.
  destruct H as [e n [Htag _] _ _|e n items cards marks _ [Htag _] _ _ _ _|e c n Hin _].
  - exact Htag.
  - exact Htag.
  - rewrite Hleaf in Hin. destruct Hin.
Qed.

(** below an element that is no grid container the order of a grid is
    not accepted: the card before the header is out of order, and the
    build gives the header before the card *)
Lemma swapped_children_are_out_of_order :
  ~ InOrder true Page.window1280 Page.blockMain SwappedOrder.mainNode
  /\ exists model root,
      analyzeDom Page.window1280 (Page.body [Page.blockMain]) Page.noConfig = Ok model
      /\ nodes model = [root]
      /\ map wn_tagName (wn_children root) = ["header"; "div"].
Proof.
  split.
  - intros H.
    inversion H; subst.
    + match goal with
      | Hkids : Built _ _ (wn_children _) |- _ =>
          cbn [wn_children SwappedOrder.mainNode] in Hkids;
          apply Built_full in Hkids; [|reflexivity];
          inversion Hkids as [|e1 n1 es1 ns1 Hfirst _]; subst
      end.
      apply InOrder_leaf in Hfirst; [|reflexivity]. discriminate Hfirst.
    + match goal with
      | Hdetect : detectGridItems _ = Ok (Some _) |- _ =>
          vm_compute in Hdetect; discriminate Hdetect
      end.
    + match goal with
      | Hin : In ?c (el_children _), Hbelow : InOrder _ _ ?c _ |- _ =>
          assert (Hleaf : el_children c = [])
            by (destruct Hin as [<-|[<-|[]]]; reflexivity);
          apply InOrder_leaf in Hbelow; [|exact Hleaf];
          destruct Hin as [<-|[<-|[]]]; discriminate Hbelow
      end.
  - eexists. eexists. split; [vm_compute; reflexivity|]. split; reflexivity.
Qed.

(** C3, as stated, fails: in a row-flex container holding a header and
    two boxes, the two cards come first and the header's node last. *)
Lemma grid_landmark_order_counterexample :
  ~ documentOrder false Page.window1280 Page.mixedGridPage Page.noConfig.
Proof.
  unfold documentOrder. intros H.
  remember (analyzeDom Page.window1280 Page.mixedGridPage Page.noConfig) as run eqn:E.
  vm_compute in E. specialize (H _ E). cbn [nodes] in H.
  apply Built_full in H; [|reflexivity].
  inversion H as [|e0 n0 es0 ns0 Hroot _]; subst. clear H.
  assert (Hleaves : forall c, In c (el_children Page.mixedGrid) -> el_children c = []).
  { intros c [<-|[<-|[<-|[]]]]; reflexivity. }
  inversion Hroot as [e n _ _ Hkids|e n items cards marks Hno|e c n Hin Hbelow]; subst.
  - cbn [wn_children] in Hkids. apply Built_full in Hkids; [|reflexivity].
    inversion Hkids as [|e1 n1 es1 ns1 Hfirst _]; subst.
    apply InOrder_leaf in Hfirst; [|reflexivity]. discriminate Hfirst.
  - discriminate Hno.
  - pose proof (Hleaves c Hin) as Hleaf.
    apply InOrder_leaf in Hbelow; [|exact Hleaf].
    destruct Hin as [<-|[<-|[<-|[]]]]; discriminate Hbelow.
Qed.

(** ** Content hints *)

Lemma forEach_preserves {A S : Type} (P : S -> Prop) (body : A -> S -> Res S) (l : list A) :
  (forall a s s', In a l -> body a s = Ok s' -> P s -> P s') ->
  forall s s', forEach body l s = Ok s' -> P s -> P s'.
Proof.
  induction l as [|a l IH]; intros Hbody s s' H Hs; cbn [forEach] in H.
  - now injection H as <-.
  - bindOk H s1 Hs1. eapply IH; [|exact H|].
    + intros; eapply Hbody; eauto. now right.
    + eapply Hbody; eauto. now left.
Qed.

Lemma sameType_refl (t : ContentType) : sameType t t = true.
Proof. destruct t; reflexivity. Qed.

Lemma hintsOfType_app (t : ContentType) (a b : list ContentHint) :
  hintsOfType t (a ++ b) = hintsOfType t a ++ hintsOfType t b.
Proof. apply filter_app. Qed.

Lemma isElementVisible_looks (e : Element) (b : bool) :
  isElementVisible e = Ok b -> el_layoutThrows e = false /\ b = looksVisible e.
Proof.
  unfold isElementVisible, getComputedStyle, getBoundingClientRect, looksVisible.
  destruct (el_layoutThrows e); [discriminate|]. cbn [bind]. intros H.
  split; [reflexivity|].
  destruct (css_display (el_style e) =? "none"); [now injection H as <-|].
  destruct (css_visibility (el_style e) =? "hidden"); [now injection H as <-|].
  destruct (Qeqb (css_opacity (el_style e)) 0); [now injection H as <-|].
  destruct (Qeqb (rect_width (el_rect e)) 0 || Qeqb (rect_height (el_rect e)) 0);
    now injection H as <-.
Qed.

Section Hints.

Variable window : Window.

Lemma getAbsoluteBoundingBox_absolute (e : Element) (b : BoundingBox) :
  getAbsoluteBoundingBox window e = Ok b -> b = absoluteBox window e.
Proof.
  unfold getAbsoluteBoundingBox, getBoundingClientRect.
  destruct (el_layoutThrows e); [discriminate|]. cbn. now intros [= <-].
Qed.

Lemma getElementBoundingBox_absolute (e : Element) (b : BoundingBox) :
  getElementBoundingBox window e = Ok b -> b = absoluteBox window e.
Proof.
  unfold getElementBoundingBox, getBoundingClientRect.
  destruct (el_layoutThrows e); [discriminate|]. cbn. now intros [= <-].
Qed.

(** [addHint] leaves the state alone, or appends one hint that is large
    enough while the counter of its type is below the cap *)
Lemma addHint_spec (t : ContentType) (b : BoundingBox) (l : option string)
      (st : HintState) :
  (addHint t b l st = st
   /\ (bigEnough t b = false \/ (CONTENT_MAX_COUNTS t <= counts st t)%nat))
  \/ (bigEnough t b = true
      /\ (counts st t < CONTENT_MAX_COUNTS t)%nat
      /\ hints (addHint t b l st)
         = hints st ++ [ {| hint_type := t; hint_bbox := b; hint_label := l |} ]
      /\ forall t', counts (addHint t b l st) t'
                    = if sameType t' t then S (counts st t') else counts st t').
Proof.
  unfold addHint, bigEnough.
  destruct (Qltb (bb_width b) (fst (CONTENT_MIN_SIZES t))
            || Qltb (bb_height b) (snd (CONTENT_MIN_SIZES t))); cbn [negb].
  - left. auto.
  - destruct (CONTENT_MAX_COUNTS t <=? counts st t)%nat eqn:Hc.
    + left. apply Nat.leb_le in Hc. auto.
    + right. apply Nat.leb_gt in Hc. cbn. auto.
Qed.

Lemma bigEnough_meets (t : ContentType) (b : BoundingBox) (l : option string) :
  bigEnough t b = true ->
  meetsMinSize {| hint_type := t; hint_bbox := b; hint_label := l |}.
Proof.
  unfold bigEnough, meetsMinSize. cbn. rewrite negb_true_iff, orb_false_iff.
  intros [Hw Hh]. apply Qltb_ge in Hw. apply Qltb_ge in Hh. auto.
Qed.

Lemma addHint_invariant (t : ContentType) (b : BoundingBox) (l : option string)
      (st : HintState) :
  hintInvariant st -> hintInvariant (addHint t b l st).
Proof.
  intros (Hcount & Hcap & Hsize).
  destruct (addHint_spec t b l st) as [[-> _]|(Hbig & Hlt & Hh & Hc)].
  - repeat split; assumption.
  - repeat split.
    + intros t'. rewrite Hc, Hh, hintsOfType_app, length_app, <- Hcount. cbn.
      destruct (sameType t t') eqn:E1; destruct (sameType t' t) eqn:E2; cbn;
        try lia; destruct t, t'; discriminate.
    + intros t'. rewrite Hc. specialize (Hcap t').
      destruct (sameType t' t) eqn:E; [|exact Hcap].
      assert (t' = t) by (destruct t, t'; try discriminate; reflexivity). subst. lia.
    + rewrite Hh. apply Forall_app. split; [exact Hsize|].
      constructor; [now apply bigEnough_meets | constructor].
Qed.

Lemma addHint_other_images (seen : list Element) (t : ContentType) (b : BoundingBox)
      (l : option string) (st : HintState) :
  sameType t image = false ->
  imagesSoFar window seen st -> imagesSoFar window seen (addHint t b l st).
Proof.
  intros Ht [Himg Hcount].
  destruct (addHint_spec t b l st) as [[-> _]|(_ & _ & Hh & Hc)]; [now split|].
  assert (Hsame : hintsOfType image (hints (addHint t b l st))
                  = hintsOfType image (hints st)).
  { rewrite Hh, hintsOfType_app. cbn. rewrite Ht. apply app_nil_r. }
  split.
  - now rewrite Hsame.
  - rewrite Hc, Hsame.
    replace (sameType image t) with false by (destruct t; try discriminate; reflexivity).
    exact Hcount.
Qed.

Lemma addHint_image (seen : list Element) (e : Element) (st : HintState) :
  imagesSoFar window seen st ->
  imagesSoFar window
    (seen ++ (if bigEnough image (absoluteBox window e) then [e] else []))
    (addHint image (absoluteBox window e) None st).
Proof.
  intros [Himg Hcount].
  assert (Hlen : counts st image = Nat.min 5 (List.length seen))
    by (rewrite Hcount, Himg, length_map; apply length_firstn).
  destruct (addHint_spec image (absoluteBox window e) None st)
    as [[-> Hwhy]|(Hbig & Hlt & Hh & Hc)].
  - destruct (bigEnough image (absoluteBox window e)) eqn:Hbig.
    + destruct Hwhy as [Hno|Hfull]; [discriminate Hno|]. cbn in Hfull.
      split; [|exact Hcount].
      rewrite firstn_app. replace (5 - List.length seen)%nat with 0%nat by lia.
      cbn [firstn]. now rewrite app_nil_r.
    + rewrite app_nil_r. now split.
  - rewrite Hbig. cbn in Hlt.
    assert (Hall : firstn 5 seen = seen) by (apply firstn_all2; lia).
    assert (Hnew : hintsOfType image (hints (addHint image (absoluteBox window e) None st))
                   = map (imageHintOf window) (firstn 5 (seen ++ [e]))).
    { rewrite (@firstn_all2 _ 5 (seen ++ [e]))
        by (rewrite length_app; cbn [List.length]; lia).
      rewrite Hh, hintsOfType_app, Himg, Hall, map_app. reflexivity. }
    split; [exact Hnew|].
    rewrite Hc. cbn. rewrite Hh, hintsOfType_app, length_app. cbn. lia.
Qed.

(** *** The six loops *)

Lemma imagesLoop_spec (img : Element) (st st' : HintState) :
  imagesLoop window img st = Ok st' ->
  st' = if isHTMLElement img && looksVisible img
        then addHint image (absoluteBox window img) None st else st.
Proof.
  unfold imagesLoop. destruct (isHTMLElement img); cbn [negb andb].
  - intros H. bindOk H visible Hv. apply isElementVisible_looks in Hv.
    destruct Hv as [_ <-]. destruct visible; cbn [negb] in H.
    + bindOk H bbox Hb. apply getAbsoluteBoundingBox_absolute in Hb. subst bbox.
      now injection H as <-.
    + now injection H as <-.
  - now intros [= <-].
Qed.

Lemma largeSvgLoop_spec (svg : Element) (st st' : HintState) :
  largeSvgLoop window svg st = Ok st' ->
  st' = if isSVGElement svg
           && negb (Qeqb (rect_width (el_rect svg)) 0 || Qeqb (rect_height (el_rect svg)) 0)
           && Qltb 400 (rect_width (el_rect svg) * rect_height (el_rect svg))
        then addHint image (absoluteBox window svg) None st else st.
Proof.
  unfold largeSvgLoop. destruct (isSVGElement svg); cbn [negb andb].
  - intros H. bindOk H rect Hr. unfold getBoundingClientRect in Hr.
    destruct (el_layoutThrows svg) eqn:Hthrow; [discriminate Hr|]. injection Hr as <-.
    destruct (Qeqb (rect_width (el_rect svg)) 0 || Qeqb (rect_height (el_rect svg)) 0);
      cbn [negb andb]; [now injection H as <-|].
    destruct (Qltb 400 (rect_width (el_rect svg) * rect_height (el_rect svg))).
    + bindOk H bbox Hb. apply getElementBoundingBox_absolute in Hb. subst bbox.
      now injection H as <-.
    + now injection H as <-.
  - now intros [= <-].
Qed.

Lemma buttonsLoop_spec (btn : Element) (st st' : HintState) :
  buttonsLoop window btn st = Ok st' -> addsOnly button st st'.
Proof.
  unfold buttonsLoop, addsOnly.
  destruct (isHTMLElement btn); cbn [negb]; [|intros [= <-]; now left].
  destruct (isButtonElement btn); cbn [negb]; [|intros [= <-]; now left].
  intros H. bindOk H visible Hv. destruct visible; cbn [negb] in H.
  - bindOk H bbox Hb. injection H as <-. right. eauto.
  - injection H as <-. now left.
Qed.

Lemma svgIconLoop_spec (svg : Element) (st st' : HintState) :
  svgIconLoop window svg st = Ok st' -> addsOnly icon st st'.
Proof.
  unfold svgIconLoop, addsOnly.
  destruct (isSVGElement svg); cbn [negb]; [|intros [= <-]; now left].
  intros H. bindOk H isIcon Hi. destruct isIcon.
  - bindOk H bbox Hb. injection H as <-. right. eauto.
  - injection H as <-. now left.
Qed.

Lemma iconFontLoop_spec (ic : Element) (st st' : HintState) :
  iconFontLoop window ic st = Ok st' -> addsOnly icon st st'.
Proof.
  unfold iconFontLoop, addsOnly.
  destruct (isHTMLElement ic); cbn [negb]; [|intros [= <-]; now left].
  intros H. bindOk H isIcon Hi. destruct isIcon; cbn [negb] in H.
  - bindOk H visible Hv. destruct visible; cbn [negb] in H.
    + bindOk H bbox Hb. injection H as <-. right. eauto.
    + injection H as <-. now left.
  - injection H as <-. now left.
Qed.

Lemma addsOnly_invariant (t : ContentType) (st st' : HintState) :
  addsOnly t st st' -> hintInvariant st -> hintInvariant st'.
Proof. intros [->|[b [l ->]]] H; [exact H | now apply addHint_invariant]. Qed.

Lemma addsOnly_images (seen : list Element) (t : ContentType) (st st' : HintState) :
  sameType t image = false ->
  addsOnly t st st' -> imagesSoFar window seen st -> imagesSoFar window seen st'.
Proof. intros Ht [->|[b [l ->]]] H; [exact H | now apply addHint_other_images]. Qed.

End Hints.

Lemma filter_filter {A : Type} (p q : A -> bool) (l : list A) :
  filter p (filter q l) = filter (fun a => q a && p a) l.
Proof.
  induction l as [|a l IH]; [reflexivity|]. cbn.
  destruct (q a); cbn; [destruct (p a)|]; now rewrite IH.
Qed.

Section HintCaps.

Variable window : Window.

Lemma forEach_imagesLoop (l : list Element) :
  forall seen st st',
    forEach (imagesLoop window) l st = Ok st' ->
    imagesSoFar window seen st ->
    imagesSoFar window (seen ++ filter (pictureOK window) l) st'.
Proof.
  induction l as [|e l IH]; intros seen st st' H Hseen; cbn [forEach filter] in *.
  - injection H as <-. now rewrite app_nil_r.
  - bindOk H st1 H1. apply imagesLoop_spec in H1.
    assert (Hstep : imagesSoFar window
                      (seen ++ (if pictureOK window e then [e] else [])) st1).
    { subst st1. unfold pictureOK.
      destruct (isHTMLElement e && looksVisible e); cbn [andb].
      - now apply addHint_image.
      - now rewrite app_nil_r. }
    specialize (IH _ _ _ H Hstep). rewrite <- app_assoc in IH.
    destruct (pictureOK window e); exact IH.
Qed.

Lemma forEach_largeSvgLoop (l : list Element) :
  forall seen st st',
    forEach (largeSvgLoop window) l st = Ok st' ->
    imagesSoFar window seen st ->
    imagesSoFar window (seen ++ filter (largeSvgOK window) l) st'.
Proof.
  induction l as [|e l IH]; intros seen st st' H Hseen; cbn [forEach filter] in *.
  - injection H as <-. now rewrite app_nil_r.
  - bindOk H st1 H1. apply largeSvgLoop_spec in H1.
    assert (Hstep : imagesSoFar window
                      (seen ++ (if largeSvgOK window e then [e] else [])) st1).
    { subst st1. unfold largeSvgOK.
      destruct (isSVGElement e
                && negb (Qeqb (rect_width (el_rect e)) 0
                         || Qeqb (rect_height (el_rect e)) 0)
                && Qltb 400 (rect_width (el_rect e) * rect_height (el_rect e)));
        cbn [andb].
      - now apply addHint_image.
      - now rewrite app_nil_r. }
    specialize (IH _ _ _ H Hstep). rewrite <- app_assoc in IH.
    destruct (largeSvgOK window e); exact IH.
Qed.

(** the extraction, when it returns, ends in a consistent state whose
    image hints are the first five images of the scan *)
Lemma detectContentHintsUnsafe_Ok (el : Element) (hs : list ContentHint) :
  detectContentHintsUnsafe window el = Ok hs ->
  exists st,
    hs = hints st /\ hintInvariant st
    /\ imagesSoFar window (imagesInScanOrder window el) st.
Proof.
  unfold detectContentHintsUnsafe. intros H.
  bindOk H st1 H1. bindOk H st2 H2. bindOk H st3 H3. bindOk H st4 H4.
  bindOk H st5 H5. bindOk H st6 H6. injection H as <-.
  set (st0 := {| hints := []; counts := fun _ => O |}) in *.
  assert (I0 : hintInvariant st0)
    by (repeat split; [intros t; cbn; lia | constructor]).
  assert (S0 : imagesSoFar window [] st0) by (split; reflexivity).
  (* images *)
  assert (I1 : hintInvariant st1).
  { revert H1 I0. apply forEach_preserves. intros a s s' _ Hb Hs.
    apply imagesLoop_spec in Hb. subst s'.
    destruct (isHTMLElement a && looksVisible a);
      [now apply addHint_invariant | exact Hs]. }
  pose proof (forEach_imagesLoop _ _ _ _ H1 S0) as S1. cbn [app] in S1.
  (* large vector graphics *)
  assert (I2 : hintInvariant st2).
  { revert H2 I1. apply forEach_preserves. intros a s s' _ Hb Hs.
    apply largeSvgLoop_spec in Hb. subst s'.
    match goal with |- context [if ?b then _ else _] => destruct b end;
      [now apply addHint_invariant | exact Hs]. }
  pose proof (forEach_largeSvgLoop _ _ _ _ H2 S1) as S2.
  unfold querySelectorAllTags in S2. rewrite !filter_filter in S2.
  change (imagesSoFar window (imagesInScanOrder window el) st2) in S2.
  (* buttons, icons *)
  assert (I3 : hintInvariant st3 /\ imagesSoFar window (imagesInScanOrder window el) st3).
  { pose proof (conj I2 S2) as I2S. revert H3 I2S.
    apply (forEach_preserves
             (fun s => hintInvariant s
                       /\ imagesSoFar window (imagesInScanOrder window el) s)).
    intros a s s' _ Hb [Hi Hs].
    apply buttonsLoop_spec in Hb. split.
    - eapply addsOnly_invariant; eassumption.
    - eapply addsOnly_images with (t := button); [reflexivity | exact Hb | exact Hs]. }
  assert (I4 : hintInvariant st4 /\ imagesSoFar window (imagesInScanOrder window el) st4).
  { revert H4 I3.
    apply (forEach_preserves
             (fun s => hintInvariant s
                       /\ imagesSoFar window (imagesInScanOrder window el) s)).
    intros a s s' _ Hb [Hi Hs].
    apply svgIconLoop_spec in Hb. split.
    - eapply addsOnly_invariant; eassumption.
    - eapply addsOnly_images with (t := icon); [reflexivity | exact Hb | exact Hs]. }
  assert (I5 : hintInvariant st5 /\ imagesSoFar window (imagesInScanOrder window el) st5).
  { revert H5 I4.
    apply (forEach_preserves
             (fun s => hintInvariant s
                       /\ imagesSoFar window (imagesInScanOrder window el) s)).
    intros a s s' _ Hb [Hi Hs].
    apply iconFontLoop_spec in Hb. split.
    - eapply addsOnly_invariant; eassumption.
    - eapply addsOnly_images with (t := icon); [reflexivity | exact Hb | exact Hs]. }
  (* text *)
  assert (T : addsOnly text st5 st6).
  { match type of H6 with (if ?b then _ else _) = _ => destruct b end.
    - bindOk H6 box Hbox. destruct box as [[[[minX minY] maxX] maxY]|].
      + injection H6 as <-. right. eauto.
      + injection H6 as <-. now left.
    - injection H6 as <-. now left. }
  exists st6. destruct I5 as [I5 S5]. split; [reflexivity|]. split.
  - eapply addsOnly_invariant; eassumption.
  - eapply addsOnly_images with (t := text); [reflexivity | exact T | exact S5].
Qed.

(** C6, as amended: per type, at most 5 image, 3 button, 1 text and 6
    icon hints, each at least as large as the minimum size of its type;
    and when the extraction does not fail, the image hints are those of
    the first five qualifying images in the order of the scan: the
    [img]/[picture]/[figure] descendants in document order, then the
    large vector graphics in document order.  With seven qualifying
    images there are exactly five image hints. *)
Theorem content_hint_caps (el : Element) :
  (forall t, (List.length (hintsOfType t (detectContentHints window el))
              <= CONTENT_MAX_COUNTS t)%nat)
  /\ Forall meetsMinSize (detectContentHints window el)
  /\ (forall hs,
         detectContentHintsUnsafe window el = Ok hs ->
         detectContentHints window el = hs
         /\ hintsOfType image hs
            = map (imageHintOf window) (firstn 5 (imagesInScanOrder window el))
         /\ firstFiveOf imagesInScanOrder window el
         /\ (List.length (imagesInScanOrder window el) = 7%nat ->
             List.length (hintsOfType image hs) = 5%nat))
  /\ (filter (qualifiesAsLargeSvg window) (descendants el) = [] ->
      imagesInScanOrder window el = imagesInDocumentOrder window el).
Proof.
  assert (Hcaught : forall hs, detectContentHintsUnsafe window el = Ok hs ->
                               detectContentHints window el = hs)
    by (intros hs H; unfold detectContentHints; now rewrite H).
  split; [|split; [|split]].
  - intros t. unfold detectContentHints.
    destruct (detectContentHintsUnsafe window el) as [hs| |] eqn:H;
      try (cbn; lia).
    apply detectContentHintsUnsafe_Ok in H. destruct H as (st & -> & (Hc & Hcap & _) & _).
    rewrite <- Hc. apply Hcap.
  - unfold detectContentHints.
    destruct (detectContentHintsUnsafe window el) as [hs| |] eqn:H;
      try constructor.
    apply detectContentHintsUnsafe_Ok in H. now destruct H as (st & -> & (_ & _ & Hs) & _).
  - intros hs H. pose proof (Hcaught hs H) as Hd.
    apply detectContentHintsUnsafe_Ok in H. destruct H as (st & -> & _ & [Himg _]).
    split; [exact Hd|]. split; [exact Himg|]. split.
    + unfold firstFiveOf. intros _. now rewrite Hd.
    + intros Hlen. rewrite Himg, length_map, length_firstn, Hlen. reflexivity.
  - intros Hnone. unfold imagesInScanOrder, imagesInDocumentOrder.
    rewrite Hnone, app_nil_r. apply filter_ext_in. intros a Ha.
    destruct (qualifiesAsLargeSvg window a) eqn:Hq; [|now rewrite orb_false_r].
    assert (Hin : In a (filter (qualifiesAsLargeSvg window) (descendants el)))
      by (apply filter_In; now split).
    rewrite Hnone in Hin. destruct Hin.
Qed.

End HintCaps.

Lemma content_hint_caps_witness :
  exists hs,
    detectContentHintsUnsafe Page.window1280 Page.sevenImages = Ok hs
    /\ List.length (imagesInScanOrder Page.window1280 Page.sevenImages) = 7%nat
    /\ filter (qualifiesAsLargeSvg Page.window1280) (descendants Page.sevenImages) = []
    /\ hintsOfType image hs
       = map (imageHintOf Page.window1280)
             (firstn 5 (imagesInScanOrder Page.window1280 Page.sevenImages))
    /\ List.length (hintsOfType image hs) = 5%nat
    /\ imagesInScanOrder Page.window1280 Page.sevenImages
       = imagesInDocumentOrder Page.window1280 Page.sevenImages.
Proof.
  eexists.
  assert (Hlen : List.length (imagesInScanOrder Page.window1280 Page.sevenImages) = 7%nat)
    by (vm_compute; reflexivity).
  assert (Hsvg : filter (qualifiesAsLargeSvg Page.window1280)
                        (descendants Page.sevenImages) = [])
    by (vm_compute; reflexivity).
  split; [vm_compute; reflexivity|].
  split; [exact Hlen|].
  split; [exact Hsvg|].
  pose proof (content_hint_caps Page.window1280 Page.sevenImages) as [_ [_ [Himg Hdoc]]].
  specialize (Himg _ ltac:(vm_compute; reflexivity)).
  destruct Himg as [_ [Hfirst [_ Hfive]]].
  split; [exact Hfirst|]. split; [exact (Hfive Hlen) | exact (Hdoc Hsvg)].
Defined.

(** C6, as stated, fails: with a large vector graphic before six images,
    the five image hints are those of the first five [img] elements, not
    of the first five qualifying images of the document; and when a vector
    graphic cannot be measured there is no hint at all. *)
Lemma image_hint_order_counterexample :
  ~ firstFiveOf imagesInDocumentOrder Page.window1280 Page.gallery
  /\ ~ firstFiveOf imagesInScanOrder Page.window1280 Page.brokenGallery.
Proof.
  split; unfold firstFiveOf; intros H.
  - assert (Hlen : List.length (imagesInDocumentOrder Page.window1280 Page.gallery) = 7%nat)
      by (vm_compute; reflexivity).
    specialize (H Hlen). vm_compute in H. discriminate H.
  - assert (Hlen : List.length (imagesInScanOrder Page.window1280 Page.brokenGallery) = 7%nat)
      by (vm_compute; reflexivity).
    specialize (H Hlen). vm_compute in H. discriminate H.
Qed.

(** ** Grid detection *)

Lemma Qeqb_pos (q : Q) : 0 < q -> Qeqb q 0 = false.
Proof.
  intros H. unfold Qeqb. destruct (Qeq_bool q 0) eqn:E; [|reflexivity].
  apply Qeq_bool_iff in E. lra.
Qed.

Lemma Qleb_le (a b : Q) : Qleb a b = true <-> a <= b.
Proof. apply Qle_bool_iff. Qed.

Lemma tolerance_ok (w s : Q) (n : Z) :
  (0 < n)%Z ->
  0 < s ->
  (7 # 10) * s <= inject_Z n * w ->
  inject_Z n * w <= (13 # 10) * s ->
  Qleb (Qabs (w - s / inject_Z n) / (s / inject_Z n)) (3 # 10) = true.
Proof.
  intros Hn Hs Hlo Hhi. apply Qleb_le.
  assert (Hn' : 0 < inject_Z n) by (change 0 with (inject_Z 0); now rewrite <- Zlt_Qlt).
  set (a := s / inject_Z n).
  assert (Ha : a * inject_Z n == s) by (unfold a; field; lra).
  assert (Hpos : 0 < a).
  { unfold a. apply Qlt_shift_div_l; [exact Hn'|]. lra. }
  apply Qle_shift_div_r; [exact Hpos|].
  apply Qabs_Qle_condition.
  assert (H1 : inject_Z n * (w - a) <= inject_Z n * ((3 # 10) * a)) by nra.
  assert (H2 : inject_Z n * (- ((3 # 10) * a)) <= inject_Z n * (w - a)) by nra.
  split; nra.
Qed.

Lemma tolerance_fails (w s : Q) (n : Z) :
  (0 < n)%Z ->
  0 < s ->
  inject_Z n * w < (7 # 10) * s ->
  Qleb (Qabs (w - s / inject_Z n) / (s / inject_Z n)) (3 # 10) = false.
Proof.
  intros Hn Hs Hlo.
  destruct (Qleb _ _) eqn:E; [|reflexivity]. exfalso. apply Qleb_le in E.
  assert (Hn' : 0 < inject_Z n) by (change 0 with (inject_Z 0); now rewrite <- Zlt_Qlt).
  set (a := s / inject_Z n) in *.
  assert (Ha : a * inject_Z n == s) by (unfold a; field; lra).
  assert (Hpos : 0 < a).
  { unfold a. apply Qlt_shift_div_l; [exact Hn'|]. lra. }
  assert (Hx : Qabs (w - a) <= (3 # 10) * a).
  { assert (Hm : (Qabs (w - a) / a) * a <= (3 # 10) * a)
      by (apply Qmult_le_compat_r; [exact E | lra]).
    assert (He : (Qabs (w - a) / a) * a == Qabs (w - a)) by (field; lra).
    now rewrite He in Hm. }
  apply Qabs_Qle_condition in Hx. destruct Hx as [Hx _].
  nra.
Qed.

Lemma ltb_true (a b : Q) : a < b -> Qltb a b = true.
Proof. apply Qltb_lt. Qed.
Lemma ltb_false (a b : Q) : b <= a -> Qltb a b = false.
Proof. apply Qltb_ge. Qed.

Section Grid.

Variable window : Window.
Variables el c1 c2 c3 c4 c5 : Element.
Hypothesis Hrow : rowOfFive el c1 c2 c3 c4 c5.

Lemma candidate_rect (c : Element) :
  gridCandidate c -> getBoundingClientRect c = Ok (el_rect c).
Proof.
  intros (_ & _ & Hvis & _). apply isElementVisible_looks in Hvis.
  unfold getBoundingClientRect. now rewrite (proj1 Hvis).
Qed.

Lemma candidate_bbox (c : Element) :
  gridCandidate c -> getAbsoluteBoundingBox window c = Ok (absoluteBox window c).
Proof.
  intros H. unfold getAbsoluteBoundingBox. now rewrite (candidate_rect c H).
Qed.

Lemma near_area (r : DOMRect) : near280x200 r -> Qltb 1000 (area r) = true.
Proof. intros [[? ?] [? ?]]. apply ltb_true. unfold area. nra. Qed.

Lemma five_children : el_children el = [c1; c2; c3; c4; c5].
Proof. exact (proj1 (proj2 Hrow)). Qed.

Lemma five_candidates : Forall gridCandidate [c1; c2; c3; c4; c5].
Proof. exact (proj1 (proj2 (proj2 Hrow))). Qed.

Lemma four_near :
  near280x200 (el_rect c1) /\ near280x200 (el_rect c2)
  /\ near280x200 (el_rect c3) /\ near280x200 (el_rect c4).
Proof.
  destruct Hrow as (_ & _ & _ & Hnear & _).
  inversion Hnear as [|? ? N1 H1]; subst. inversion H1 as [|? ? N2 H2]; subst.
  inversion H2 as [|? ? N3 H3]; subst. inversion H3 as [|? ? N4 _]; subst. auto.
Qed.

Lemma five_rects :
  mapR getBoundingClientRect [c1; c2; c3; c4; c5]
  = Ok (map el_rect [c1; c2; c3; c4; c5]).
Proof.
  apply mapR_all. eapply Forall_impl; [|exact five_candidates].
  intros c. apply candidate_rect.
Qed.

(** the five children pass the filters that come before the size test *)
Lemma detect_candidates :
  detectGridItems el
  = (similar <- areChildrenSimilarlySized [c1; c2; c3; c4; c5] (3 # 10) ;;
     if negb similar then Ok None
     else
       validChildren <-
         filterR (fun child =>
                    rect <- getBoundingClientRect child ;;
                    Ok (Qleb GRID_ITEM_MIN_AREA (rect_width rect * rect_height rect)))
                 [c1; c2; c3; c4; c5] ;;
       Ok (if (2 <=? List.length validChildren)%nat then Some validChildren else None)).
Proof.
  unfold detectGridItems.
  assert (Hgrid : isGridOrFlexContainer el = Ok true).
  { destruct Hrow as ((style & Hs & Hd & Hf) & _).
    unfold isGridOrFlexContainer. rewrite Hs. cbn [bind]. rewrite Hd, Hf. reflexivity. }
  assert (Hvis : getVisibleChildren el = Ok [c1; c2; c3; c4; c5]).
  { unfold getVisibleChildren. rewrite five_children. apply filterR_all.
    eapply Forall_impl; [|exact five_candidates].
    intros c (Hhtml & Hskip & Hv & _). now rewrite Hhtml, Hskip. }
  assert (Hmarks : filter (fun child => negb (isLandmark child)) [c1; c2; c3; c4; c5]
                   = [c1; c2; c3; c4; c5]).
  { apply filter_all. eapply Forall_impl; [|exact five_candidates].
    intros c (_ & _ & _ & Hl). now rewrite Hl. }
  rewrite Hgrid. cbn [bind negb]. rewrite Hvis. cbn [bind List.length Nat.ltb Nat.leb].
  rewrite Hmarks. reflexivity.
Qed.

Lemma similar_when_flat :
  rect_width (el_rect c5) * rect_height (el_rect c5) <= 1000 ->
  areChildrenSimilarlySized [c1; c2; c3; c4; c5] (3 # 10) = Ok true.
Proof.
  intros Hflat. unfold areChildrenSimilarlySized.
  rewrite five_rects. cbn [map List.length Nat.ltb Nat.leb bind filter].
  destruct four_near as (N1 & N2 & N3 & N4).
  rewrite (near_area _ N1), (near_area _ N2), (near_area _ N3), (near_area _ N4).
  rewrite (ltb_false 1000 (area (el_rect c5)) Hflat).
  cbn [List.length Nat.ltb Nat.leb fold_left forallb]. unfold ofLength.
  cbn [List.length].
  destruct N1 as [[? ?] [? ?]], N2 as [[? ?] [? ?]], N3 as [[? ?] [? ?]],
           N4 as [[? ?] [? ?]].
  rewrite !tolerance_ok; try reflexivity;
    change (inject_Z (Z.of_nat 4)) with 4; lra.
Qed.

Lemma similar_when_tall :
  1000 < rect_width (el_rect c5) * rect_height (el_rect c5) ->
  areChildrenSimilarlySized [c1; c2; c3; c4; c5] (3 # 10) = Ok false.
Proof.
  intros Htall. unfold areChildrenSimilarlySized.
  rewrite five_rects. cbn [map List.length Nat.ltb Nat.leb bind filter].
  destruct four_near as (N1 & N2 & N3 & N4).
  rewrite (near_area _ N1), (near_area _ N2), (near_area _ N3), (near_area _ N4).
  rewrite (ltb_true 1000 (area (el_rect c5)) Htall).
  cbn [List.length Nat.ltb Nat.leb fold_left forallb]. unfold ofLength.
  cbn [List.length].
  pose proof (proj2 (proj2 (proj2 (proj2 Hrow)))) as W5.
  destruct N1 as [[? ?] [? ?]], N2 as [[? ?] [? ?]], N3 as [[? ?] [? ?]],
           N4 as [[? ?] [? ?]].
  rewrite (tolerance_fails (rect_width (el_rect c5))); try reflexivity;
    [|change (inject_Z (Z.of_nat 5)) with 5; lra..].
  cbn [andb]. now rewrite !andb_false_r.
Qed.

Lemma valid_when_flat :
  rect_width (el_rect c5) * rect_height (el_rect c5) <= 1000 ->
  filterR (fun child =>
             rect <- getBoundingClientRect child ;;
             Ok (Qleb GRID_ITEM_MIN_AREA (rect_width rect * rect_height rect)))
          [c1; c2; c3; c4; c5]
  = Ok [c1; c2; c3; c4].
Proof.
  intros Hflat. pose proof five_candidates as Hc.
  inversion Hc as [|? ? G1 Hc1]; subst. inversion Hc1 as [|? ? G2 Hc2]; subst.
  inversion Hc2 as [|? ? G3 Hc3]; subst. inversion Hc3 as [|? ? G4 Hc4]; subst.
  inversion Hc4 as [|? ? G5 _]; subst.
  cbn [filterR].
  rewrite (candidate_rect _ G1), (candidate_rect _ G2), (candidate_rect _ G3),
    (candidate_rect _ G4), (candidate_rect _ G5).
  cbn [bind].
  destruct four_near as ([[? ?] [? ?]] & [[? ?] [? ?]] & [[? ?] [? ?]] & [[? ?] [? ?]]).
  assert (E : forall r, 266 <= rect_width r -> 190 <= rect_height r ->
                        Qleb GRID_ITEM_MIN_AREA (rect_width r * rect_height r) = true).
  { intros r ? ?. apply Qleb_le. unfold GRID_ITEM_MIN_AREA. nra. }
  rewrite !E by assumption.
  assert (E5 : Qleb GRID_ITEM_MIN_AREA
                    (rect_width (el_rect c5) * rect_height (el_rect c5)) = false).
  { destruct (Qleb _ _) eqn:E'; [|reflexivity]. apply Qleb_le in E'.
    unfold GRID_ITEM_MIN_AREA in E'. lra. }
  rewrite E5. reflexivity.
Qed.

Lemma detect_flat :
  rect_width (el_rect c5) * rect_height (el_rect c5) <= 1000 ->
  detectGridItems el = Ok (Some [c1; c2; c3; c4]).
Proof.
  intros Hflat. rewrite detect_candidates, (similar_when_flat Hflat). cbn [bind negb].
  rewrite (valid_when_flat Hflat). reflexivity.
Qed.

Lemma detect_tall :
  1000 < rect_width (el_rect c5) * rect_height (el_rect c5) ->
  detectGridItems el = Ok None.
Proof.
  intros Htall. rewrite detect_candidates, (similar_when_tall Htall). reflexivity.
Qed.

Lemma buildNodeTree_S (fuel : nat) (e : Element) (depth : Z) (va : Q)
      (cfg : AnalyzerConfig) (g : bool) (counter : nat) :
  buildNodeTree window (S fuel) e depth va cfg g counter
  = buildNodeTreeBody window
      (fun child d g0 c => buildNodeTree window fuel child d va cfg g0 c)
      e depth va cfg g counter.
Proof. reflexivity. Qed.

(** a candidate built as a grid item gives its card *)
Lemma build_item (fuel : nat) (c : Element) (depth : Z) (va : Q) (cfg : AnalyzerConfig)
      (counter : nat) :
  gridCandidate c ->
  buildNodeTree window (S fuel) c depth va cfg true counter
  = Ok (Some (itemCard window c depth counter), S counter).
Proof.
  intros Hc. pose proof Hc as (_ & _ & Hvis & Hland).
  cbn [buildNodeTree]. unfold buildNodeTreeBody.
  cbn [negb]. rewrite andb_false_r, Hvis. cbn [bind negb].
  rewrite (candidate_bbox c Hc). cbn [bind andb negb processChildren].
  unfold returnNode, createNode, itemCard. cbn [negb wrapperCollapse generateNodeId bind fst].
  rewrite Hland. reflexivity.
Qed.

(** no child is a landmark: the second loop of a grid container adds
    nothing *)
Lemma no_landmark_children (recur : BuildFn) (depth : Z) (acc : list WireframeNode)
      (counter : nat) :
  buildChildren recur (fun child => isHTMLElement child && isLandmark child)
                (el_children el) depth false acc counter
  = Ok (acc, counter).
Proof.
  rewrite five_children. pose proof five_candidates as Hc.
  induction Hc as [|c cs (_ & _ & _ & Hl) _ IH]; [reflexivity|].
  cbn [buildChildren]. rewrite Hl, andb_false_r. exact IH.
Qed.

(** C4, as amended: take a row-flex container with five children, all
    visible HTML elements outside the skip set and no landmarks: four
    boxes of about 280x200 (each side within 5%) and then a fifth box of
    width 100; and let the build create the container's node (it is within
    the depth limit, visible and significant, and its label is a string).
    The fifth child is left out only when its area is at most 1000 px2
    (the filter for decorative children): grid detection then keeps the
    four boxes, and the container's node has their four cards as children,
    one level down, in document order.  When the area of the fifth child
    is above 1000 px2 it takes part in the tolerance test, fails it, and
    grid detection returns nothing for the whole container: its children
    go through the loop of every other container. *)
Theorem grid_of_four (cfg : AnalyzerConfig) (va : Q) (fuel : nat) (depth : Z)
        (counter : nat) :
  builtAsBlock window cfg va el depth ->
  (rect_width (el_rect c5) * rect_height (el_rect c5) <= 1000 ->
   fourCards window cfg va fuel depth counter el c1 c2 c3 c4)
  /\ (1000 < rect_width (el_rect c5) * rect_height (el_rect c5) ->
      areChildrenSimilarlySized [c1; c2; c3; c4; c5] (3 # 10) = Ok false
      /\ noGridItems window cfg va fuel depth counter el).
Proof.
  intros (Hdepth & Hvis & Hsig & Hlabel).
  assert (Hguard : (maxDepth cfg <? depth)%Z = false) by (apply Z.ltb_ge; lia).
  assert (Hbbox : getAbsoluteBoundingBox window el = Ok (absoluteBox window el)).
  { apply isElementVisible_looks in Hvis.
    unfold getAbsoluteBoundingBox, getBoundingClientRect. now rewrite (proj1 Hvis). }
  pose proof five_candidates as Hc.
  inversion Hc as [|? ? G1 Hc1]; subst. inversion Hc1 as [|? ? G2 Hc2]; subst.
  inversion Hc2 as [|? ? G3 Hc3]; subst. inversion Hc3 as [|? ? G4 _]; subst.
  split.
  - intros Hflat. split; [now apply detect_flat|].
    destruct (createNode_labelled window el (absoluteBox window el) depth false
                [ itemCard window c1 (depth + 1) counter;
                  itemCard window c2 (depth + 1) (1 + counter);
                  itemCard window c3 (depth + 1) (2 + counter);
                  itemCard window c4 (depth + 1) (3 + counter) ]
                (4 + counter) Hlabel) as (n & c' & Hcreate).
    exists n. pose proof (createNode_fields window _ _ _ _ _ _ _ _ Hcreate)
      as (Htag & _ & Hd & Hch & _ & _ & _ & _ & ->).
    split; [|auto].
    rewrite (buildNodeTree_S (S fuel)). unfold buildNodeTreeBody.
    rewrite Hguard. cbn [andb]. rewrite Hvis. cbn [bind negb].
    rewrite Hbbox. cbn [bind]. rewrite Hsig. cbn [bind andb negb].
    rewrite (detect_flat Hflat). cbn [bind].
    unfold processChildren. cbn [buildChildren].
    rewrite (build_item fuel c1 _ va cfg _ G1). cbn [bind app].
    rewrite (build_item fuel c2 _ va cfg _ G2). cbn [bind app].
    rewrite (build_item fuel c3 _ va cfg _ G3). cbn [bind app].
    rewrite (build_item fuel c4 _ va cfg _ G4). cbn [bind app].
    rewrite no_landmark_children. cbn [bind].
    unfold returnNode. cbn [negb wrapperCollapse].
    cbn [Nat.add] in Hcreate. rewrite Hcreate. reflexivity.
  - intros Htall. split; [now apply similar_when_tall|].
    split; [now apply detect_tall|].
    rewrite (buildNodeTree_S fuel). unfold buildNodeTreeBody.
    rewrite Hguard. cbn [andb]. rewrite Hvis. cbn [bind negb].
    rewrite Hbbox. cbn [bind]. rewrite Hsig. cbn [bind andb negb].
    rewrite (detect_tall Htall). reflexivity.
Qed.

End Grid.

Lemma grid_of_four_witness :
  rowOfFive (Page.rowOf [Page.first280; Page.second280; Page.third280; Page.fourth280;
                         Page.flatFifth])
            (Page.box Page.first280) (Page.box Page.second280) (Page.box Page.third280)
            (Page.box Page.fourth280) (Page.box Page.flatFifth)
  /\ builtAsBlock Page.window1280 DEFAULT_CONFIG (1280 * 800)
                  (Page.rowOf [Page.first280; Page.second280; Page.third280;
                               Page.fourth280; Page.flatFifth]) 0
  /\ rect_width Page.flatFifth * rect_height Page.flatFifth <= 1000
  /\ fourCards Page.window1280 DEFAULT_CONFIG (1280 * 800) 0 0 0
               (Page.rowOf [Page.first280; Page.second280; Page.third280; Page.fourth280;
                            Page.flatFifth])
               (Page.box Page.first280) (Page.box Page.second280) (Page.box Page.third280)
               (Page.box Page.fourth280).
Proof.
  assert (N : forall l t, near280x200 (mkRect l t 280 200))
    by (intros l t; unfold near280x200; cbn; repeat split; intros E; discriminate E).
  assert (G : forall r, isElementVisible (Page.box r) = Ok true ->
                        gridCandidate (Page.box r))
    by (intros r Hr; unfold gridCandidate; repeat split; [exact Hr]).
  assert (R : rowOfFive (Page.rowOf [Page.first280; Page.second280; Page.third280;
                                     Page.fourth280; Page.flatFifth])
                        (Page.box Page.first280) (Page.box Page.second280)
                        (Page.box Page.third280) (Page.box Page.fourth280)
                        (Page.box Page.flatFifth)).
  { split; [exists Page.rowFlexStyle; repeat split|].
    split; [reflexivity|].
    split; [repeat constructor; apply G; vm_compute; reflexivity|].
    split; [repeat constructor; apply N | reflexivity]. }
  assert (B : builtAsBlock Page.window1280 DEFAULT_CONFIG (1280 * 800)
                (Page.rowOf [Page.first280; Page.second280; Page.third280;
                             Page.fourth280; Page.flatFifth]) 0).
  { split; [cbn; lia|]. split; [vm_compute; reflexivity|].
    split; [vm_compute; reflexivity|]. exists "Section". reflexivity. }
  assert (F : rect_width Page.flatFifth * rect_height Page.flatFifth <= 1000)
    by (intros E; discriminate E).
  split; [exact R|]. split; [exact B|]. split; [exact F|].
  exact (proj1 (grid_of_four Page.window1280 _ _ _ _ _ _ R DEFAULT_CONFIG (1280 * 800)
                  0%nat 0%Z 0%nat B) F).
Defined.

(** C4, as stated, fails: with a fifth box of 100x200 next to four boxes
    of 280x200 in a row-flex section, grid detection returns nothing and
    there are no cards. *)
Lemma grid_tall_fifth_counterexample :
  rowOfFive (Page.rowOf [Page.first280; Page.second280; Page.third280; Page.fourth280;
                         Page.tallFifth])
            (Page.box Page.first280) (Page.box Page.second280) (Page.box Page.third280)
            (Page.box Page.fourth280) (Page.box Page.tallFifth)
  /\ builtAsBlock Page.window1280 DEFAULT_CONFIG (1280 * 800)
                  (Page.rowOf [Page.first280; Page.second280; Page.third280;
                               Page.fourth280; Page.tallFifth]) 0
  /\ ~ fourCards Page.window1280 DEFAULT_CONFIG (1280 * 800) 0 0 0
                 (Page.rowOf [Page.first280; Page.second280; Page.third280;
                              Page.fourth280; Page.tallFifth])
                 (Page.box Page.first280) (Page.box Page.second280)
                 (Page.box Page.third280) (Page.box Page.fourth280)
  /\ analyzeDom Page.window1280
                (Page.body [Page.rowOf [Page.first280; Page.second280; Page.third280;
                                        Page.fourth280; Page.tallFifth]])
                Page.noConfig
     = Ok {| nodes :=
               [ {| wn_id := "wf-node-1"; wn_tagName := "section";
                    wn_label := Text "Section";
                    wn_bbox := {| bb_x := 0; bb_y := 0; bb_width := 1280;
                                  bb_height := 200 |};
                    wn_depth := 0; wn_children := []; wn_isLandmark := true;
                    wn_semanticType := content; wn_contentHints := None |} ];
             viewport := (1280, 800);
             fullPageHeight := 800;
             pageUrl := "https://example.test/";
             capturedAt := "2025-01-01T00:00:00.000Z" |}.
Proof.
  assert (N : forall l t, near280x200 (mkRect l t 280 200))
    by (intros l t; unfold near280x200; cbn; repeat split; intros E; discriminate E).
  assert (G : forall r, isElementVisible (Page.box r) = Ok true ->
                        gridCandidate (Page.box r))
    by (intros r Hr; unfold gridCandidate; repeat split; [exact Hr]).
  split.
  { split; [exists Page.rowFlexStyle; repeat split|].
    split; [reflexivity|].
    split; [repeat constructor; apply G; vm_compute; reflexivity|].
    split; [repeat constructor; apply N | reflexivity]. }
  split.
  { split; [cbn; lia|]. split; [vm_compute; reflexivity|].
    split; [vm_compute; reflexivity|]. exists "Section". reflexivity. }
  split; [|vm_compute; reflexivity].
  intros [H _]. vm_compute in H. discriminate H.
Qed.

(* ================================================================== *)
(** * Further properties: the model as a whole, the renderer, the overlay *)
(* ================================================================== *)

(** ** Where the nodes of a model come from *)

Lemma VisibleBelow_In (e d : Element) :
  VisibleBelow e d -> In d (e :: descendants e).
Proof.
  induction 1 as [e _|e c d _ Hc _ IH]; [now left|].
  right. eapply descendants_child; eassumption.
Qed.

Lemma VisibleBelow_visible (e d : Element) :
  VisibleBelow e d -> isElementVisible d = Ok true.
Proof. induction 1; assumption. Qed.

Lemma isSignificant_not_skipped (window : Window) (e : Element) (va : Q)
      (cfg : AnalyzerConfig) :
  isSignificant window e va cfg = Ok true ->
  Str.has SKIP_TAGS (Str.toLowerCase (el_tagName e)) = false.
Proof.
  unfold isSignificant.
  destruct (Str.has SKIP_TAGS (Str.toLowerCase (el_tagName e))); [discriminate|reflexivity].
Qed.

Lemma isSignificant_area (window : Window) (e : Element) (va : Q) (cfg : AnalyzerConfig)
      (bbox : BoundingBox) :
  isSignificant window e va cfg = Ok true ->
  getAbsoluteBoundingBox window e = Ok bbox ->
  minArea cfg <= boxArea bbox.
Proof.
  unfold isSignificant. intros H Hb.
  destruct (Str.has SKIP_TAGS (Str.toLowerCase (el_tagName e))); [discriminate|].
  rewrite Hb in H. cbn [bind] in H.
  destruct (Qltb (bb_width bbox * bb_height bbox) (minArea cfg)) eqn:Hlt; [discriminate|].
  apply Qltb_ge in Hlt. exact Hlt.
Qed.

(** the grid items are visible HTML children, outside the skip set, no
    landmarks, and large enough *)
Lemma detectGridItems_items (el : Element) (items : list Element) :
  detectGridItems el = Ok (Some items) ->
  Forall (fun c => In c (el_children el) /\ gridItemOK c) items.
Proof.
  unfold detectGridItems. intros H.
  bindOk H isGrid Hgrid. destruct isGrid; cbn [negb] in H; [|discriminate H].
  bindOk H children Hch.
  destruct (List.length children <? 2)%nat; [discriminate H|].
  destruct (List.length (filter (fun child => negb (isLandmark child)) children) <? 2)%nat;
    [discriminate H|].
  bindOk H similar Hsim. destruct similar; cbn [negb] in H; [|discriminate H].
  bindOk H valid Hvalid.
  destruct (2 <=? List.length valid)%nat; [|discriminate H].
  injection H as <-.
  unfold getVisibleChildren in Hch. apply filterR_Subseq in Hch.
  destruct Hch as [Hs Hvis].
  apply filterR_Subseq in Hvalid. destruct Hvalid as [Hs' Hbig].
  rewrite Forall_forall in *. intros c Hc.
  pose proof (Subseq_In _ _ _ Hs' Hc) as Hc'. apply filter_In in Hc'.
  destruct Hc' as [Hc1 Hc2].
  specialize (Hvis c Hc1). specialize (Hbig c Hc). cbn beta in Hvis.
  split; [eapply Subseq_In; eassumption|].
  destruct (isHTMLElement c) eqn:Hh; [|discriminate Hvis].
  destruct (Str.has SKIP_TAGS (Str.toLowerCase (el_tagName c))) eqn:Hskip;
    cbn [negb] in Hvis; [discriminate Hvis|].
  repeat split; try assumption.
  - now destruct (isLandmark c).
  - bindOk Hbig rect Hrect. exists rect. split; [exact Hrect|].
    injection Hbig as Hbig. apply Qleb_le in Hbig. exact Hbig.
Qed.

Section Provenance.

Variable window : Window.

Lemma createNode_semantic (el : Element) (bbox : BoundingBox) (depth : Z)
      (childNodes : list WireframeNode) (counter : nat) (n : WireframeNode)
      (counter' : nat) :
  createNode window el bbox depth false childNodes counter = Ok (n, counter') ->
  getSemanticType el (wn_label n) = Ok (wn_semanticType n).
Proof.
  unfold createNode. cbn [generateNodeId]. intros H. bindOk H sem Hsem.
  injection H as <- <-. cbn. exact Hsem.
Qed.

Lemma sourcedBelow_weaken (va : Q) (cfg : AnalyzerConfig) (el : Element) (d d' : Z)
      (n : WireframeNode) :
  (d' <= d)%Z -> sourcedBelow window va cfg el d n -> sourcedBelow window va cfg el d' n.
Proof. intros Hd [H1 H2]. split; [lia | exact H2]. Qed.

Lemma sourcedBelow_child (va : Q) (cfg : AnalyzerConfig) (el c : Element) (d : Z)
      (n : WireframeNode) :
  isElementVisible el = Ok true -> In c (el_children el) ->
  sourcedBelow window va cfg c d n -> sourcedBelow window va cfg el d n.
Proof.
  intros Hv Hc [H1 [e [He Hn]]]. split; [exact H1|].
  exists e. split; [eapply VisibleBelow_child; eassumption | exact Hn].
Qed.

(** every node of a returned tree was created for a visible element at or
    below the element of the call, and lies at the depth of the call or
    deeper *)
Lemma buildNodeTree_sourced (fuel : nat) :
  forall el depth viewportArea config isGridItem counter n counter',
    isHTMLElement el = true ->
    (isGridItem = true -> gridItemOK el /\ (depth <= maxDepth config + 1)%Z) ->
    buildNodeTree window fuel el depth viewportArea config isGridItem counter
    = Ok (Some n, counter') ->
    NodeAll (sourcedBelow window viewportArea config el depth) n.
Proof.
  induction fuel as [|fuel IH]; intros el depth va cfg g counter n counter' Hhtml Hitem H;
    [discriminate H|].
  cbn [buildNodeTree] in H. apply buildNodeTreeBody_Ok in H.
  destruct H as [[Hnone _]|H]; [discriminate Hnone|].
  destruct H as (bbox & sig & grid & kids & c1 & Hguard & Hvis & Hbbox & Hsig & Hgrid
                 & Hkids & Hret).
  set (recur := fun child d0 g1 c0 => buildNodeTree window fuel child d0 va cfg g1 c0)
    in *.
  assert (Hloop : forall select els d g0 acc c res c',
             buildChildren recur select els d g0 acc c = Ok (res, c') ->
             (forall child, In child els -> select child = true ->
                            In child (el_children el) /\ isHTMLElement child = true
                            /\ (g0 = true ->
                                gridItemOK child /\ (d <= maxDepth cfg + 1)%Z)) ->
             Forall (NodeAll (sourcedBelow window va cfg el d)) acc ->
             Forall (NodeAll (sourcedBelow window va cfg el d)) res).
  { intros select els d g0 acc c res c' Hb Hsel Hacc.
    apply (buildChildren_Built
             (fun _ k => NodeAll (sourcedBelow window va cfg el d) k)) in Hb.
    - destruct Hb as [new [-> Hnew]]. apply Forall_app. split; [exact Hacc|].
      eapply Forall_impl; [|exact (Built_Forall _ _ _ Hnew)].
      intros k [_ [_ Hk]]. exact Hk.
    - intros child c0 k c0' Hin Hs Hk.
      destruct (Hsel child Hin Hs) as (Hc & Hh & Hg).
      intros m Hm. eapply sourcedBelow_child; [exact Hvis | exact Hc |].
      exact (IH _ _ _ _ _ _ _ _ Hh Hg Hk m Hm). }
  assert (Hall : Forall (NodeAll (sourcedBelow window va cfg el
                                               (if sig then depth + 1 else depth)%Z)) kids).
  { unfold processChildren in Hkids. destruct grid as [items|].
    - destruct sig; [|discriminate Hgrid]. destruct g; [discriminate Hgrid|].
      cbn [andb negb] in Hgrid, Hguard. rewrite andb_true_r in Hguard.
      apply Z.ltb_ge in Hguard.
      apply detectGridItems_items in Hgrid. rewrite Forall_forall in Hgrid.
      bindOk Hkids r Hr. destruct r as [cards c].
      eapply Hloop; [exact Hkids| |].
      + intros child Hin Hs. apply andb_prop in Hs. destruct Hs as [Hh _].
        split; [exact Hin|]. split; [exact Hh|]. discriminate.
      + eapply Hloop; [exact Hr| |constructor].
        intros child Hin _. destruct (Hgrid child Hin) as [Hc Hok].
        split; [exact Hc|]. split; [apply Hok|]. intros _. split; [exact Hok|lia].
    - destruct g; cbn [negb] in Hkids.
      + injection Hkids as <- _. constructor.
      + eapply Hloop; [exact Hkids| |constructor].
        intros child Hin Hs. split; [exact Hin|]. split; [exact Hs|]. discriminate. }
  apply (returnNode_Some window) in Hret.
  destruct Hret as [(-> & _ & _)|(-> & _ & Hc)].
  - inversion Hall as [|? ? Hn _]; subst.
    intros m Hm. eapply sourcedBelow_weaken; [|exact (Hn m Hm)]. destruct sig; lia.
  - pose proof (createNode_fields window _ _ _ _ _ _ _ _ Hc)
      as (Htag & Hbb & Hd & Hch & Hlm & Hlabel & Hcard & _ & _).
    intros m Hm. rewrite traverse_eq in Hm. destruct Hm as [<-|Hm].
    + split; [lia|]. exists el. split; [now apply VisibleBelow_here|].
      split; [exact Hhtml|]. split.
      { repeat split; [exact Htag | now rewrite Hbb | exact Hlm]. }
      destruct g.
      * right. destruct (Hitem eq_refl) as [Hok Hdepth].
        repeat split; try apply Hok; try (rewrite Hd; exact Hdepth); auto.
        unfold processChildren in Hkids. injection Hgrid as <-.
        cbn [negb] in Hkids. injection Hkids as <- _. exact Hch.
      * left. cbn [andb negb] in Hguard. rewrite andb_true_r in Hguard.
        apply Z.ltb_ge in Hguard.
        repeat split; [exact Hsig | now rewrite Hd | exact Hlabel |].
        eapply createNode_semantic. exact Hc.
    + rewrite Hch in Hm. apply in_flat_map in Hm. destruct Hm as [k [Hk1 Hk2]].
      rewrite Forall_forall in Hall.
      eapply sourcedBelow_weaken; [|exact (Hall k Hk1 m Hk2)]. lia.
Qed.

(** the same, for the model [analyzeDom] returns *)
Lemma analyzeDom_sourced (body : Element) (config : PartialConfig) (model : WireframeModel)
      (n : WireframeNode) :
  analyzeDom window body config = Ok model ->
  In n (flattenNodes (nodes model)) ->
  exists c, In c (el_children body)
            /\ sourcedBelow window (innerWidth window * innerHeight window)
                            (mergeConfig config) c 0 n.
Proof.
  intros H Hn.
  unfold analyzeDom in H. bindOk H r Hr. destruct r as [ns c]. injection H as <-.
  cbn [nodes] in Hn. unfold flattenNodes in Hn. apply in_flat_map in Hn.
  destruct Hn as [root [Hroot Hn]].
  apply (buildChildren_Built
           (fun e k => In e (el_children body)
                       /\ NodeAll (sourcedBelow window
                                     (innerWidth window * innerHeight window)
                                     (mergeConfig config) e 0) k)) in Hr.
  - destruct Hr as [new [-> Hnew]].
    apply Built_Forall in Hnew. rewrite Forall_forall in Hnew.
    destruct (Hnew root Hroot) as [e [_ [He Hall]]].
    exists e. split; [exact He | exact (Hall n Hn)].
  - intros ch c0 k c1 Hin Hsel Hk. split; [exact Hin|].
    eapply buildNodeTree_sourced; [exact Hsel | | exact Hk].
    intros Hf. discriminate Hf.
Qed.

End Provenance.

(** ** Invariants of a returned model *)

(** X1: every node of a returned model was created for an HTML element
    below the analyzed root that is visible together with all its
    ancestors up to a child of the root; the node carries the element's
    lower-case tag name, its absolute box and its landmark flag. *)
Theorem nodes_come_from_visible_elements (window : Window) (body : Element)
        (config : PartialConfig) (model : WireframeModel) (n : WireframeNode) :
  analyzeDom window body config = Ok model ->
  In n (flattenNodes (nodes model)) ->
  exists c e,
    In c (el_children body) /\ VisibleBelow c e
    /\ In e (descendants body)
    /\ isHTMLElement e = true
    /\ ownFields window e n.
Proof.
  intros H Hn.
  destruct (analyzeDom_sourced window body config model n H Hn)
    as (c & Hc & _ & e & He & Hhtml & Hown & _).
  exists c, e. repeat split; try assumption; try apply Hown.
  eapply descendants_child; [exact Hc|]. now apply VisibleBelow_In.
Qed.

Lemma nodes_come_from_visible_elements_witness :
  exists model n,
    analyzeDom Page.window1280 Page.mixedGridPage Page.noConfig = Ok model
    /\ In n (flattenNodes (nodes model))
    /\ exists c e,
        In c (el_children Page.mixedGridPage) /\ VisibleBelow c e
        /\ In e (descendants Page.mixedGridPage)
        /\ isHTMLElement e = true
        /\ ownFields Page.window1280 e n.
Proof.
  eexists. eexists.
  split; [vm_compute; reflexivity|].
  split; [cbn; right; left; reflexivity|].
  eapply (nodes_come_from_visible_elements Page.window1280 Page.mixedGridPage Page.noConfig).
  - vm_compute. reflexivity.
  - cbn. right. left. reflexivity.
Defined.

(** X2: no node of a returned model has a tag of the skip set, whether it
    was created for a significant element or for a grid item. *)
Theorem no_node_for_a_skipped_tag (window : Window) (body : Element)
        (config : PartialConfig) (model : WireframeModel) (n : WireframeNode) :
  analyzeDom window body config = Ok model ->
  In n (flattenNodes (nodes model)) ->
  Str.has SKIP_TAGS (wn_tagName n) = false.
Proof.
  intros H Hn.
  destruct (analyzeDom_sourced window body config model n H Hn)
    as (c & _ & _ & e & _ & _ & (Htag & _) & [Hblock|Hcard]).
  - rewrite Htag. destruct Hblock as [Hsig _].
    eapply isSignificant_not_skipped. exact Hsig.
  - rewrite Htag. apply Hcard.
Qed.

Lemma no_node_for_a_skipped_tag_witness :
  exists model n,
    analyzeDom Page.window1280 Page.mixedGridPage Page.noConfig = Ok model
    /\ In n (flattenNodes (nodes model))
    /\ Str.has SKIP_TAGS (wn_tagName n) = false.
Proof.
  eexists. eexists.
  split; [vm_compute; reflexivity|].
  split; [cbn; right; left; reflexivity|].
  eapply (no_node_for_a_skipped_tag Page.window1280 Page.mixedGridPage Page.noConfig).
  - vm_compute. reflexivity.
  - cbn. right. left. reflexivity.
Defined.

(** X3: the box of every node of a returned model has at least the
    configured minimum area, except for the cards of a grid, which are
    leaves of at least 2500 px2. *)
Theorem nodes_meet_the_minimum_area (window : Window) (body : Element)
        (config : PartialConfig) (model : WireframeModel) (n : WireframeNode) :
  analyzeDom window body config = Ok model ->
  In n (flattenNodes (nodes model)) ->
  minArea (mergeConfig config) <= boxArea (wn_bbox n)
  \/ (wn_semanticType n = card /\ wn_children n = []
      /\ GRID_ITEM_MIN_AREA <= boxArea (wn_bbox n)).
Proof.
  intros H Hn.
  destruct (analyzeDom_sourced window body config model n H Hn)
    as (c & _ & _ & e & _ & _ & (_ & Hbox & _) & [Hblock|Hcard]).
  - left. destruct Hblock as [Hsig _]. eapply isSignificant_area; eassumption.
  - right. destruct Hcard as ((_ & _ & _ & _ & rect & Hrect & Hbig) & _ & _ & Hsem & Hch).
    repeat split; [exact Hsem | exact Hch |].
    unfold getAbsoluteBoundingBox in Hbox. rewrite Hrect in Hbox. cbn [bind] in Hbox.
    injection Hbox as Hbox. rewrite <- Hbox. exact Hbig.
Qed.

Lemma nodes_meet_the_minimum_area_witness :
  exists model n,
    analyzeDom Page.window1280 Page.mixedGridPage Page.noConfig = Ok model
    /\ In n (flattenNodes (nodes model))
    /\ (minArea (mergeConfig Page.noConfig) <= boxArea (wn_bbox n)
        \/ (wn_semanticType n = card /\ wn_children n = []
            /\ GRID_ITEM_MIN_AREA <= boxArea (wn_bbox n))).
Proof.
  eexists. eexists.
  split; [vm_compute; reflexivity|].
  split; [cbn; right; left; reflexivity|].
  eapply (nodes_meet_the_minimum_area Page.window1280 Page.mixedGridPage Page.noConfig).
  - vm_compute. reflexivity.
  - cbn. right. left. reflexivity.
Defined.

(** X4: the depth of every node of a returned model lies between 0 and
    [maxDepth + 1], and a node one level past [maxDepth] is a card of a
    grid, without children. *)
Theorem node_depth_bounds (window : Window) (body : Element)
        (config : PartialConfig) (model : WireframeModel) (n : WireframeNode) :
  analyzeDom window body config = Ok model ->
  In n (flattenNodes (nodes model)) ->
  (0 <= wn_depth n <= maxDepth (mergeConfig config) + 1)%Z
  /\ ((maxDepth (mergeConfig config) < wn_depth n)%Z ->
      wn_semanticType n = card /\ wn_children n = []).
Proof.
  intros H Hn.
  destruct (analyzeDom_sourced window body config model n H Hn)
    as (c & _ & Hlow & e & _ & _ & _ & [Hblock|Hcard]).
  - destruct Hblock as (_ & Hd & _). split; [lia|]. intros Hdeep. lia.
  - destruct Hcard as (_ & Hd & _ & Hsem & Hch). split; [lia|]. intros _. now split.
Qed.

Lemma node_depth_bounds_witness :
  exists model n,
    analyzeDom Page.window1280 Page.mixedGridPage Page.noConfig = Ok model
    /\ In n (flattenNodes (nodes model))
    /\ (0 <= wn_depth n <= maxDepth (mergeConfig Page.noConfig) + 1)%Z
    /\ ((maxDepth (mergeConfig Page.noConfig) < wn_depth n)%Z ->
        wn_semanticType n = card /\ wn_children n = []).
Proof.
  eexists. eexists.
  split; [vm_compute; reflexivity|].
  split; [cbn; right; left; reflexivity|].
  eapply (node_depth_bounds Page.window1280 Page.mixedGridPage Page.noConfig).
  - vm_compute. reflexivity.
  - cbn. right. left. reflexivity.
Defined.

(** X5: in a returned model a node with a landmark tag is flagged as a
    landmark, and a [header] node has the semantic type [header]: a
    landmark is never taken as a grid item, which would make it a card. *)
Theorem header_nodes_are_headers (window : Window) (body : Element)
        (config : PartialConfig) (model : WireframeModel) (n : WireframeNode) :
  analyzeDom window body config = Ok model ->
  In n (flattenNodes (nodes model)) ->
  (Str.has LANDMARK_TAGS (wn_tagName n) = true -> wn_isLandmark n = true)
  /\ (wn_tagName n = "header" -> wn_semanticType n = header).
Proof.
  intros H Hn.
  destruct (analyzeDom_sourced window body config model n H Hn)
    as (c & _ & _ & e & _ & _ & (Htag & _ & Hlm) & Hkind).
  assert (Hmark : Str.has LANDMARK_TAGS (wn_tagName n) = true -> isLandmark e = true).
  { rewrite Htag. unfold isLandmark. now intros ->. }
  split; [intros Ht; rewrite Hlm; now apply Hmark|].
  intros Hheader. destruct Hkind as [Hblock|Hcard].
  - destruct Hblock as (_ & _ & _ & Hsem). unfold getSemanticType in Hsem.
    rewrite <- Htag, Hheader in Hsem. cbn in Hsem. now injection Hsem as <-.
  - destruct Hcard as ((_ & _ & _ & Hno & _) & _).
    rewrite Hmark in Hno; [discriminate Hno|]. now rewrite Hheader.
Qed.

Lemma header_nodes_are_headers_witness :
  exists model n,
    analyzeDom Page.window1280 Page.headerPage Page.noConfig = Ok model
    /\ In n (flattenNodes (nodes model))
    /\ Str.has LANDMARK_TAGS (wn_tagName n) = true
    /\ wn_tagName n = "header"
    /\ wn_isLandmark n = true
    /\ wn_semanticType n = header.
Proof.
  eexists. eexists.
  split; [vm_compute; reflexivity|].
  split; [cbn; left; reflexivity|].
  split; [reflexivity|]. split; [reflexivity|].
  pose proof (header_nodes_are_headers Page.window1280 Page.headerPage Page.noConfig)
    as Hx.
  edestruct Hx as [H1 H2]; [vm_compute; reflexivity | cbn; left; reflexivity |].
  split; [apply H1; reflexivity | apply H2; reflexivity].
Defined.

(** ** Node identifiers *)

Lemma idOf_injective : Injective idOf.
Proof.
  intros a b H. unfold idOf in H. cbn in H. injection H as H.
  unfold Str.ofNat in H.
  apply (f_equal NilEmpty.uint_of_string) in H. rewrite !NilEmpty.usu in H.
  injection H as H. now apply Unsigned.to_uint_inj.
Qed.

Lemma flattenNodes_app (a b : list WireframeNode) :
  flattenNodes (a ++ b) = flattenNodes a ++ flattenNodes b.
Proof. unfold flattenNodes. apply flat_map_app. Qed.

Lemma Numbered_nil (lo hi : nat) : Numbered lo hi [].
Proof. exists []. repeat split; constructor. Qed.

Lemma Numbered_weaken (lo hi lo' hi' : nat) (ns : list WireframeNode) :
  (lo' <= lo)%nat -> (hi <= hi')%nat -> Numbered lo hi ns -> Numbered lo' hi' ns.
Proof.
  intros Hlo Hhi (ks & Hids & Hnd & Hr). exists ks. repeat split; try assumption.
  eapply Forall_impl; [|exact Hr]. cbn. intros k Hk. lia.
Qed.

Lemma Numbered_app (lo mid hi : nat) (a b : list WireframeNode) :
  (lo <= mid <= hi)%nat ->
  Numbered lo mid a -> Numbered mid hi b -> Numbered lo hi (a ++ b).
Proof.
  intros Hm (ka & Ha & Hnda & Hra) (kb & Hb & Hndb & Hrb).
  exists (ka ++ kb). rewrite flattenNodes_app, !map_app, Ha, Hb.
  split; [reflexivity|]. rewrite Forall_forall in Hra, Hrb. split.
  - apply NoDup_app; try assumption.
    intros k Hka Hkb. specialize (Hra k Hka). specialize (Hrb k Hkb). lia.
  - apply Forall_app. split; apply Forall_forall; intros k Hk.
    + specialize (Hra k Hk). lia.
    + specialize (Hrb k Hk). lia.
Qed.

Lemma Numbered_node (lo c : nat) (n : WireframeNode) :
  (lo <= c)%nat -> wn_id n = idOf (S c) -> Numbered lo c (wn_children n) ->
  Numbered lo (S c) [n].
Proof.
  intros Hlo Hid (ks & Hids & Hnd & Hr). exists (S c :: ks).
  unfold flattenNodes in *. cbn [flat_map]. rewrite app_nil_r, traverse_eq.
  cbn [map]. rewrite Hid, Hids. split; [reflexivity|].
  rewrite Forall_forall in Hr. split.
  - constructor; [|exact Hnd]. intros Hin. specialize (Hr _ Hin). lia.
  - constructor; [lia|]. apply Forall_forall. intros k Hk. specialize (Hr k Hk). lia.
Qed.

Section Identifiers.

Variable window : Window.

Lemma createNode_id (el : Element) (bbox : BoundingBox) (depth : Z) (isGridItem : bool)
      (childNodes : list WireframeNode) (counter : nat) (n : WireframeNode)
      (counter' : nat) :
  createNode window el bbox depth isGridItem childNodes counter = Ok (n, counter') ->
  wn_id n = idOf (S counter) /\ wn_children n = childNodes /\ counter' = S counter.
Proof.
  unfold createNode. cbn [generateNodeId]. intros H. bindOk H sem Hsem.
  injection H as <- <-. cbn. repeat split.
Qed.

(** the value a call returns: no node, one of the child nodes, or a node
    created with the next identifier *)
Lemma returnNode_numbered (el : Element) (bbox : BoundingBox) (depth : Z)
      (isGridItem significant : bool) (gridItems : option (list Element))
      (childNodes : list WireframeNode) (lo counter : nat)
      (r : option WireframeNode) (counter' : nat) :
  (lo <= counter)%nat -> Numbered lo counter childNodes ->
  returnNode window el bbox depth isGridItem significant gridItems childNodes counter
  = Ok (r, counter') ->
  (counter <= counter')%nat
  /\ Numbered lo counter' (match r with Some n => [n] | None => [] end).
Proof.
  intros Hlo Hkids H. unfold returnNode in H. destruct significant; cbn [negb] in H.
  - destruct (wrapperCollapse el bbox gridItems childNodes) as [child|] eqn:Hw.
    + injection H as <- <-. split; [lia|].
      unfold wrapperCollapse in Hw.
      destruct childNodes as [|c [|c' rest]]; try discriminate.
      destruct gridItems; try discriminate.
      assert (child = c) as ->; [|exact Hkids].
      repeat match type of Hw with
             | (if ?b then _ else _) = _ => destruct b; try discriminate
             end; now injection Hw.
    + bindOk H res Hc. destruct res as [node c2]. injection H as <- <-.
      apply createNode_id in Hc. destruct Hc as (Hid & Hch & ->).
      split; [lia|]. apply Numbered_node; [exact Hlo | exact Hid | now rewrite Hch].
  - destruct childNodes as [|c [|c' rest]]; injection H as <- <-;
      (split; [lia|]); try apply Numbered_nil. exact Hkids.
Qed.

Lemma buildChildren_numbered (recur : BuildFn) (select : Element -> bool) (depth : Z)
      (isGridItem : bool) (els : list Element) :
  (forall child c r c', recur child depth isGridItem c = Ok (r, c') ->
                        (c <= c')%nat
                        /\ Numbered c c' (match r with Some n => [n] | None => [] end)) ->
  forall lo acc counter res counter',
    (lo <= counter)%nat -> Numbered lo counter acc ->
    buildChildren recur select els depth isGridItem acc counter = Ok (res, counter') ->
    (counter <= counter')%nat /\ Numbered lo counter' res.
Proof.
  intros Hrec. induction els as [|child rest IH]; intros lo acc counter res counter' Hlo Hacc H.
  - injection H as <- <-. split; [lia | exact Hacc].
  - cbn [buildChildren] in H. destruct (select child).
    + bindOk H r Hr. destruct r as [r c1].
      destruct (Hrec _ _ _ _ Hr) as [Hle Hnew].
      apply IH with (lo := lo) in H; [destruct H as [H1 H2]; split; [lia | exact H2]|lia|].
      destruct r as [n|].
      * eapply Numbered_app with (mid := counter); [lia | exact Hacc | exact Hnew].
      * eapply Numbered_weaken; [| |exact Hacc]; lia.
    + now apply IH with (lo := lo) in H.
Qed.

(** a call uses up the counter values between the value it is given and
    the value it returns, and the identifiers of the tree it returns were
    made at distinct values among them *)
Lemma buildNodeTree_numbered (fuel : nat) :
  forall el depth viewportArea config isGridItem counter r counter',
    buildNodeTree window fuel el depth viewportArea config isGridItem counter
    = Ok (r, counter') ->
    (counter <= counter')%nat
    /\ Numbered counter counter' (match r with Some n => [n] | None => [] end).
Proof.
  induction fuel as [|fuel IH]; intros el depth va cfg g counter r counter' H;
    [discriminate H|].
  cbn [buildNodeTree] in H. apply buildNodeTreeBody_Ok in H.
  destruct H as [(-> & -> & _)|H]; [split; [lia | apply Numbered_nil]|].
  destruct H as (bbox & sig & grid & kids & c1 & _ & _ & _ & _ & _ & Hkids & Hret).
  assert (Hk : (counter <= c1)%nat /\ Numbered counter c1 kids).
  { unfold processChildren in Hkids. destruct grid as [items|].
    - bindOk Hkids res Hr. destruct res as [cards c].
      eapply buildChildren_numbered in Hr;
        [|intros; eapply IH; eassumption | apply Nat.le_refl | apply Numbered_nil].
      destruct Hr as [Hle Hcards].
      eapply buildChildren_numbered in Hkids;
        [|intros; eapply IH; eassumption | exact Hle | exact Hcards].
      destruct Hkids as [Hle' Hall]. split; [lia | exact Hall].
    - destruct (negb g).
      + eapply buildChildren_numbered in Hkids;
          [exact Hkids | intros; eapply IH; eassumption | apply Nat.le_refl
           | apply Numbered_nil].
      + injection Hkids as <- <-. split; [lia | apply Numbered_nil]. }
  destruct Hk as [Hle Hnum].
  eapply returnNode_numbered in Hret; [|exact Hle | exact Hnum].
  destruct Hret as [Hle' Hres]. split; [lia | exact Hres].
Qed.

End Identifiers.

Lemma analyzeDom_numbered (window : Window) (body : Element) (config : PartialConfig)
      (model : WireframeModel) :
  analyzeDom window body config = Ok model ->
  NoDup (map wn_id (flattenNodes (nodes model))).
Proof.
  intros H. unfold analyzeDom in H. bindOk H r Hr. destruct r as [ns c].
  injection H as <-. cbn [nodes].
  eapply buildChildren_numbered in Hr;
    [|intros; eapply buildNodeTree_numbered; eassumption | apply Nat.le_refl
     | apply Numbered_nil].
  destruct Hr as [_ (ks & Hids & Hnd & _)]. rewrite Hids.
  apply Injective_map_NoDup; [exact idOf_injective | exact Hnd].
Qed.

(** X6: the identifiers of the nodes of a returned model are pairwise
    distinct. *)
Theorem node_ids_are_unique (window : Window) (body : Element) (config : PartialConfig)
        (model : WireframeModel) :
  analyzeDom window body config = Ok model ->
  NoDup (map wn_id (flattenNodes (nodes model))).
Proof. apply analyzeDom_numbered. Qed.

Lemma node_ids_are_unique_witness :
  exists model,
    analyzeDom Page.window1280 Page.mixedGridPage Page.noConfig = Ok model
    /\ NoDup (map wn_id (flattenNodes (nodes model))).
Proof.
  eexists. split; [vm_compute; reflexivity|].
  apply (node_ids_are_unique Page.window1280 Page.mixedGridPage Page.noConfig).
  vm_compute. reflexivity.
Defined.

(** ** The part of the configuration that is read *)



Section ConfigRead.

Variable window : Window.




End ConfigRead.

(** ** Labels *)

Lemma mapChars_length (f : ascii -> ascii) (s : string) :
  Str.length (Str.mapChars f s) = Str.length s.
Proof. unfold Str.length. induction s as [|c s IH]; cbn; [reflexivity | now rewrite IH]. Qed.

Lemma take_length (n : nat) (s : string) :
  Str.length (Str.take n s) = Nat.min n (Str.length s).
Proof.
  unfold Str.length. revert s. induction n as [|n IH]; intros [|c s]; cbn; try reflexivity.
  now rewrite IH.
Qed.

Lemma append_length (a b : string) :
  Str.length (a ++ b) = (Str.length a + Str.length b)%nat.
Proof. unfold Str.length. induction a as [|c a IH]; cbn; [reflexivity | now rewrite IH]. Qed.

Lemma length_zero (s : string) : Str.length s = 0%nat <-> s = "".
Proof. destruct s; cbn; split; intros H; try reflexivity; discriminate H. Qed.

Lemma splitCamel_length (s : string) : (Str.length s <= Str.length (Str.splitCamel s))%nat.
Proof.
  unfold Str.length.
  assert (H : forall n s, (String.length s <= n)%nat ->
                          (String.length s <= String.length (Str.splitCamel s))%nat).
  { clear s. induction n as [|n IH]; intros [|a [|b s2]] Hn; cbn in *; try lia.
    destruct (Str.isLower a && Str.isUpper b); cbn.
    - assert (String.length s2 <= String.length (Str.splitCamel s2))%nat
        by (apply IH; lia). lia.
    - assert (String.length (String b s2) <= String.length (Str.splitCamel (String b s2)))%nat
        by (apply IH; cbn; lia). cbn in *. lia. }
  apply (H (String.length s)). lia.
Qed.

(** the label a table of patterns gives is one of its labels *)
Lemma firstPattern_In (patterns : list (RegExp * string)) (s l : string) :
  firstPattern patterns s = Some l -> In l (map snd patterns).
Proof.
  induction patterns as [|[p lab] rest IH]; cbn; [discriminate|].
  destruct (test p s); [intros [= <-]; now left | intros H; right; now apply IH].
Qed.

Lemma structural_labels_nonempty (s l : string) :
  firstPattern STRUCTURAL_CLASS_PATTERNS s = Some l -> l <> "".
Proof.
  intros H. apply firstPattern_In in H.
  assert (Hall : forallb (fun x => negb (x =? "")) (map snd STRUCTURAL_CLASS_PATTERNS) = true)
    by reflexivity.
  rewrite forallb_forall in Hall. specialize (Hall l H).
  intros ->. discriminate Hall.
Qed.

Lemma lookup_In (table : list (string * string)) (key v : string) :
  Str.lookup table key = Some v -> In v (map snd table).
Proof.
  induction table as [|[k x] rest IH]; cbn; [discriminate|].
  destruct (k =? key); [intros [= <-]; now left | intros H; right; now apply IH].
Qed.

Lemma tableGet_nonempty (table : list (string * string)) (key : string) (l : JSValue) :
  forallb (fun x => negb (x =? "")) (map snd table) = true ->
  tableGet table key = Some l -> l <> Text "".
Proof.
  intros Hall H. unfold tableGet in H.
  destruct (Str.lookup table key) as [v|] eqn:Hv.
  - injection H as <-. apply lookup_In in Hv. rewrite forallb_forall in Hall.
    specialize (Hall v Hv). intros [= ->]. discriminate Hall.
  - destruct (Str.has Str.objectPrototypeKeys key); [|discriminate H].
    injection H as <-. discriminate.
Qed.

Lemma capitalised_nonempty (s : string) :
  s <> "" -> (Str.toUpperCase (Str.charAt0 s) ++ Str.slice1 s)%string <> "".
Proof. destruct s as [|c s]; [congruence|]. cbn. discriminate. Qed.

(** an inferred label is not empty and has at most 28 characters *)
Lemma inferLabelFromContent_length (el : Element) (l : string) :
  inferLabelFromContent el = Some l -> (1 <= Str.length l <= 28)%nat.
Proof.
  unfold inferLabelFromContent.
  destruct (querySelectorTags ["h1"; "h2"; "h3"] el) as [heading|]; [|discriminate].
  destruct (Str.truthy (el_textContent heading)); [|discriminate].
  cbv zeta.
  destruct ((0 <? Str.length (Str.trim (el_textContent heading)))%nat
            && (Str.length (Str.trim (el_textContent heading)) <? 50)%nat) eqn:Hlen;
    [|discriminate].
  apply andb_prop in Hlen. destruct Hlen as [H0 H50].
  apply Nat.ltb_lt in H0. apply Nat.ltb_lt in H50.
  remember (Str.take 25 (Str.trim (el_textContent heading))) as label eqn:El.
  assert (Hl : Str.length label = Nat.min 25 (Str.length (Str.trim (el_textContent heading))))
    by (rewrite El; apply take_length).
  clear El. intros [= <-].
  match goal with |- context [if ?b then _ else _] => destruct b end.
  - rewrite append_length, Hl. change (Str.length "...") with 3%nat. lia.
  - rewrite Hl. lia.
Qed.

Lemma labelFromId_nonempty (id : string) : id <> "" -> labelFromId id <> "".
Proof.
  intros Hid. unfold labelFromId.
  destruct (firstPattern STRUCTURAL_CLASS_PATTERNS id) eqn:Hp;
    [eapply structural_labels_nonempty; eassumption|].
  apply capitalised_nonempty. intros H. apply length_zero in H.
  unfold Str.toLowerCase in H. rewrite mapChars_length in H.
  pose proof (splitCamel_length (Str.replaceDashes id)) as Hs.
  unfold Str.replaceDashes in Hs. rewrite mapChars_length in Hs.
  assert (Str.length id = 0%nat) as H0 by (unfold Str.replaceDashes in H; lia).
  apply length_zero in H0. contradiction.
Qed.

Lemma getClassLabel_nonempty (el : Element) (l : string) :
  getClassLabel el = Some l -> l <> "".
Proof.
  unfold getClassLabel. destruct (className el) as [cls|]; [|discriminate].
  destruct (negb (Str.truthy cls)); [discriminate|]. apply structural_labels_nonempty.
Qed.

Lemma generateLabel_nonempty (el : Element) :
  el_tagName el <> "" -> generateLabel el <> Text "".
Proof.
  intros Htag. unfold generateLabel.
  destruct (getClassLabel el) as [l|] eqn:Hc.
  { intros [= ->]. now apply (getClassLabel_nonempty el ""). }
  destruct (Str.truthy (el_id el) && (2 <? Str.length (el_id el))%nat
            && (Str.length (el_id el) <? 30)%nat) eqn:Hid.
  { intros [= H]. apply labelFromId_nonempty in H; [exact H|].
    intros E. rewrite E in Hid. discriminate Hid. }
  unfold labelFromRole. cbv zeta.
  match goal with
  | |- match el_role el with Some _ => _ | None => ?f end <> _ =>
      assert (Hfrom : f <> Text "")
  end.
  { match goal with
    | |- context [if ?b then inferLabelFromContent el else None] =>
        destruct (if b then inferLabelFromContent el else None) as [l|] eqn:Hinf
    end.
    - intros [= ->].
      match type of Hinf with
      | (if ?b then _ else _) = _ => destruct b; [|discriminate Hinf]
      end.
      apply inferLabelFromContent_length in Hinf. cbn in Hinf. lia.
    - destruct (tableGet tagLabels (Str.toLowerCase (el_tagName el))) as [l|] eqn:Ht.
      + eapply tableGet_nonempty; [|exact Ht]. reflexivity.
      + destruct (Str.toLowerCase (el_tagName el) =? "div"); [discriminate|].
        intros [= H]. revert H. apply capitalised_nonempty.
        intros H. apply length_zero in H. unfold Str.toLowerCase in H.
        rewrite mapChars_length in H. apply length_zero in H. contradiction. }
  destruct (el_role el) as [role|]; [|exact Hfrom].
  destruct (Str.truthy role); [|exact Hfrom].
  destruct (tableGet roleLabels role) as [l|] eqn:Hr; [|exact Hfrom].
  eapply tableGet_nonempty; [|exact Hr]. reflexivity.
Qed.

Lemma inferGridItemLabel_nonempty (el : Element) : inferGridItemLabel el <> "".
Proof.
  unfold inferGridItemLabel. destruct (getClassLabel el) as [l|] eqn:Hc.
  - eapply getClassLabel_nonempty. exact Hc.
  - destruct (inferLabelFromContent el) as [l|] eqn:Hinf; [|discriminate].
    intros ->. apply inferLabelFromContent_length in Hinf. cbn in Hinf. lia.
Qed.

(** X8: the label of a node of a returned model is never the empty
    string, as long as no element of the page has an empty tag name. *)
Theorem node_labels_are_not_empty (window : Window) (body : Element)
        (config : PartialConfig) (model : WireframeModel) (n : WireframeNode) :
  (forall e, In e (descendants body) -> el_tagName e <> "") ->
  analyzeDom window body config = Ok model ->
  In n (flattenNodes (nodes model)) ->
  wn_label n <> Text "".
Proof.
  intros Htags H Hn.
  destruct (analyzeDom_sourced window body config model n H Hn)
    as (c & Hc & _ & e & He & _ & _ & Hkind).
  assert (Hin : In e (descendants body)).
  { eapply descendants_child; [exact Hc|]. now apply VisibleBelow_In. }
  destruct Hkind as [(_ & _ & Hl & _)|(_ & _ & Hl & _)]; rewrite Hl.
  - apply generateLabel_nonempty. now apply Htags.
  - intros [= E]. now apply (inferGridItemLabel_nonempty e).
Qed.

Lemma node_labels_are_not_empty_witness :
  exists model n,
    (forall e, In e (descendants Page.mixedGridPage) -> el_tagName e <> "")
    /\ analyzeDom Page.window1280 Page.mixedGridPage Page.noConfig = Ok model
    /\ In n (flattenNodes (nodes model))
    /\ wn_label n <> Text "".
Proof.
  eexists. eexists.
  assert (Htags : forall e, In e (descendants Page.mixedGridPage) -> el_tagName e <> "").
  { intros e He. cbn in He.
    repeat (destruct He as [<-|He]; [discriminate|]). destruct He. }
  split; [exact Htags|].
  split; [vm_compute; reflexivity|].
  split; [cbn; right; left; reflexivity|].
  eapply (node_labels_are_not_empty Page.window1280 Page.mixedGridPage Page.noConfig).
  - exact Htags.
  - vm_compute. reflexivity.
  - cbn. right. left. reflexivity.
Defined.

(** X9: a label inferred from the first heading of an element is never
    empty and never longer than 28 characters: 25 characters of the
    heading and the three dots of the ellipsis. *)
Theorem inferred_label_length (el : Element) (l : string) :
  inferLabelFromContent el = Some l -> (1 <= Str.length l <= 28)%nat.
Proof. apply inferLabelFromContent_length. Qed.

Lemma inferred_label_length_witness :
  exists l,
    inferLabelFromContent Article.story = Some l /\ (1 <= Str.length l <= 28)%nat.
Proof.
  eexists. split; [vm_compute; reflexivity|].
  apply (inferred_label_length Article.story). vm_compute. reflexivity.
Defined.

(** ** Grid detection, in general *)

(** X10: what grid detection returns are at least two children of a grid
    or row-flex container, in document order, each of them a visible HTML
    element outside the skip set, no landmark, and of at least 2500 px2. *)
Theorem grid_items_are_sound (el : Element) (items : list Element) :
  detectGridItems el = Ok (Some items) ->
  isGridOrFlexContainer el = Ok true
  /\ (2 <= List.length items)%nat
  /\ Subseq items (el_children el)
  /\ Forall gridItemOK items.
Proof.
  intros H.
  pose proof (detectGridItems_Some el items H) as [Hsub _].
  pose proof (detectGridItems_items el items H) as Hok.
  split; [|split; [|split; [exact Hsub|]]].
  - unfold detectGridItems in H. bindOk H isGrid Hgrid.
    destruct isGrid; cbn [negb] in H; [exact Hgrid | discriminate H].
  - unfold detectGridItems in H. bindOk H isGrid Hgrid.
    destruct isGrid; cbn [negb] in H; [|discriminate H].
    bindOk H children Hch.
    destruct (List.length children <? 2)%nat; [discriminate H|].
    destruct (List.length (filter (fun child => negb (isLandmark child)) children) <? 2)%nat;
      [discriminate H|].
    bindOk H similar Hsim. destruct similar; cbn [negb] in H; [|discriminate H].
    bindOk H valid Hvalid.
    destruct (2 <=? List.length valid)%nat eqn:Hlen; [|discriminate H].
    injection H as <-. now apply Nat.leb_le.
  - eapply Forall_impl; [|exact Hok]. intros c [_ Hc]. exact Hc.
Qed.

Lemma grid_items_are_sound_witness :
  detectGridItems Page.mixedGrid = Ok (Some [Page.cardA; Page.cardB])
  /\ isGridOrFlexContainer Page.mixedGrid = Ok true
  /\ (2 <= List.length [Page.cardA; Page.cardB])%nat
  /\ Subseq [Page.cardA; Page.cardB] (el_children Page.mixedGrid)
  /\ Forall gridItemOK [Page.cardA; Page.cardB].
Proof.
  assert (H : detectGridItems Page.mixedGrid = Ok (Some [Page.cardA; Page.cardB]))
    by (vm_compute; reflexivity).
  split; [exact H|].
  exact (grid_items_are_sound Page.mixedGrid [Page.cardA; Page.cardB] H).
Defined.

(** the sum a [reduce] computes over sizes that all measure [w] *)
Lemma sum_uniform (f : DOMRect -> Q) (w : Q) (sizes : list DOMRect) :
  Forall (fun s => f s == w) sizes ->
  forall a, fold_left (fun sum s => sum + f s) sizes a == a + ofLength sizes * w.
Proof.
  unfold ofLength.
  induction 1 as [|s sizes Hs _ IH]; intros a.
  - cbn. ring.
  - cbn [fold_left]. rewrite IH, Hs.
    replace (List.length (s :: sizes)) with (S (List.length sizes)) by reflexivity.
    rewrite Nat2Z.inj_succ. unfold Z.succ. rewrite inject_Z_plus. ring.
Qed.

Lemma ofLength_pos {A : Type} (l : list A) : (1 <= List.length l)%nat -> 0 < ofLength l.
Proof.
  intros H. unfold ofLength. change 0 with (inject_Z 0). rewrite <- Zlt_Qlt. lia.
Qed.

(** a side that equals the average passes the tolerance test *)
Lemma tolerance_uniform (x avg tolerance : Q) :
  x == avg -> 0 <= tolerance -> Qleb (Qabs (x - avg) / avg) tolerance = true.
Proof.
  intros Hx Htol. apply Qleb_le.
  assert (E : Qabs (x - avg) / avg == 0).
  { assert (E0 : x - avg == 0) by (rewrite Hx; ring).
    rewrite E0. cbn. unfold Qdiv. ring. }
  rewrite E. exact Htol.
Qed.

Lemma areChildrenSimilarlySized_uniform (w h tolerance : Q) (children : list Element) :
  (2 <= List.length children)%nat ->
  Forall (uniformItem w h) children ->
  1000 < w * h -> 0 <= tolerance ->
  areChildrenSimilarlySized children tolerance = Ok true.
Proof.
  intros Hlen Hall Harea Htol. unfold areChildrenSimilarlySized.
  replace (List.length children <? 2)%nat with false
    by (symmetry; apply Nat.ltb_ge; exact Hlen).
  rewrite (mapR_all getBoundingClientRect el_rect).
  2:{ eapply Forall_impl; [|exact Hall]. intros c (_ & _ & Hv & _).
      apply isElementVisible_looks in Hv. destruct Hv as [Hr _].
      now apply readable_rect. }
  cbn [bind].
  assert (Hsizes : Forall (fun s => rect_width s == w /\ rect_height s == h)
                          (map el_rect children)).
  { apply Forall_map. eapply Forall_impl; [|exact Hall].
    intros c (_ & _ & _ & _ & Hw & Hh). now split. }
  rewrite filter_all.
  2:{ eapply Forall_impl; [|exact Hsizes]. intros s [Hw Hh].
      apply ltb_true. unfold area. now rewrite Hw, Hh. }
  rewrite length_map.
  replace (List.length children <? 2)%nat with false
    by (symmetry; apply Nat.ltb_ge; exact Hlen).
  f_equal. apply forallb_forall. intros s Hs.
  rewrite Forall_forall in Hsizes. destruct (Hsizes s Hs) as [Hw Hh].
  assert (Hn : 0 < ofLength (map el_rect children))
    by (apply ofLength_pos; rewrite length_map; lia).
  apply andb_true_intro. split; apply tolerance_uniform; try exact Htol.
  - rewrite (sum_uniform rect_width w).
    + rewrite Hw. field. lra.
    + apply Forall_forall. intros s' Hs'. now apply Hsizes.
  - rewrite (sum_uniform rect_height h).
    + rewrite Hh. field. lra.
    + apply Forall_forall. intros s' Hs'. now apply Hsizes.
Qed.

(** X11: in a grid or row-flex container with at least two children, all
    of them visible HTML elements outside the skip set, no landmarks, and
    all of one size of at least 2500 px2, every child is a grid item. *)
Theorem uniform_grid_is_detected (el : Element) (w h : Q) :
  isGridOrFlexContainer el = Ok true ->
  (2 <= List.length (el_children el))%nat ->
  Forall (uniformItem w h) (el_children el) ->
  GRID_ITEM_MIN_AREA <= w * h ->
  detectGridItems el = Ok (Some (el_children el)).
Proof.
  intros Hgrid Hlen Hall Harea. unfold detectGridItems. rewrite Hgrid. cbn [bind negb].
  assert (Hlen' : (List.length (el_children el) <? 2)%nat = false)
    by (apply Nat.ltb_ge; exact Hlen).
  unfold getVisibleChildren. rewrite filterR_all.
  2:{ eapply Forall_impl; [|exact Hall]. intros c (Hh & Hs & Hv & _).
      now rewrite Hh, Hs. }
  cbn [bind]. rewrite Hlen'. rewrite filter_all.
  2:{ eapply Forall_impl; [|exact Hall]. intros c (_ & _ & _ & Hl & _). now rewrite Hl. }
  rewrite Hlen'.
  unfold GRID_ITEM_MIN_AREA in Harea.
  rewrite (areChildrenSimilarlySized_uniform w h); try assumption; try lra.
  cbn [bind negb]. rewrite filterR_all.
  2:{ eapply Forall_impl; [|exact Hall]. intros c (_ & _ & Hv & _ & Hw & Hh).
      apply isElementVisible_looks in Hv. destruct Hv as [Hr _].
      rewrite (readable_rect c Hr). cbn [bind]. f_equal. apply Qleb_le.
      unfold GRID_ITEM_MIN_AREA. now rewrite Hw, Hh. }
  cbn [bind]. replace (2 <=? List.length (el_children el))%nat with true
    by (symmetry; apply Nat.leb_le; exact Hlen).
  reflexivity.
Qed.

Lemma uniform_grid_is_detected_witness :
  isGridOrFlexContainer (Page.rowOf [Page.first280; Page.second280; Page.third280]) = Ok true
  /\ (2 <= List.length (el_children (Page.rowOf [Page.first280; Page.second280;
                                                  Page.third280])))%nat
  /\ Forall (uniformItem 280 200)
            (el_children (Page.rowOf [Page.first280; Page.second280; Page.third280]))
  /\ GRID_ITEM_MIN_AREA <= 280 * 200
  /\ detectGridItems (Page.rowOf [Page.first280; Page.second280; Page.third280])
     = Ok (Some (el_children (Page.rowOf [Page.first280; Page.second280; Page.third280]))).
Proof.
  assert (Hu : Forall (uniformItem 280 200)
                 (el_children (Page.rowOf [Page.first280; Page.second280; Page.third280]))).
  { repeat constructor. }
  assert (Ha : GRID_ITEM_MIN_AREA <= 280 * 200) by (intros E; discriminate E).
  split; [reflexivity|]. split; [cbn; lia|]. split; [exact Hu|]. split; [exact Ha|].
  apply (uniform_grid_is_detected _ 280 200); [reflexivity | cbn; lia | exact Hu | exact Ha].
Defined.

(** ** The hints of one extraction *)

Lemma addHint_grows (t : ContentType) (P : option string -> Prop) (b : BoundingBox)
      (l : option string) (st : HintState) :
  P l -> grows t P st (addHint t b l st).
Proof.
  intros Hl. destruct (addHint_spec t b l st) as [[-> _]|(_ & _ & Hh & _)].
  - exists []. split; [now rewrite app_nil_r | constructor].
  - exists [ {| hint_type := t; hint_bbox := b; hint_label := l |} ].
    split; [exact Hh|]. constructor; [now split | constructor].
Qed.

Lemma grows_refl (t : ContentType) (P : option string -> Prop) (st : HintState) :
  grows t P st st.
Proof. exists []. split; [now rewrite app_nil_r | constructor]. Qed.

Lemma grows_trans (t : ContentType) (P : option string -> Prop) (a b c : HintState) :
  grows t P a b -> grows t P b c -> grows t P a c.
Proof.
  intros (n1 & H1 & F1) (n2 & H2 & F2). exists (n1 ++ n2).
  split; [now rewrite H2, H1, app_assoc | now apply Forall_app].
Qed.

Lemma forEach_grows (t : ContentType) (P : option string -> Prop)
      (body : Element -> HintState -> Res HintState) (l : list Element) :
  (forall a s s', body a s = Ok s' -> addsLabelled t P s s') ->
  forall st st', forEach body l st = Ok st' -> grows t P st st'.
Proof.
  intros Hbody. induction l as [|a l IH]; intros st st' H; cbn [forEach] in H.
  - injection H as <-. apply grows_refl.
  - bindOk H s1 H1. eapply grows_trans; [|exact (IH _ _ H)].
    destruct (Hbody _ _ _ H1) as [->|(b & lab & Hl & ->)];
      [apply grows_refl | now apply addHint_grows].
Qed.

Lemma take_trim_label (s : string) :
  buttonLabel (if Str.truthy (Str.take 20 s) then Some (Str.take 20 s) else None).
Proof.
  destruct (Str.take 20 s) as [|c r] eqn:E; cbn [Str.truthy]; [exact I|].
  assert (H : (1 <= Str.length (Str.take 20 s))%nat) by (rewrite E; cbn; lia).
  unfold buttonLabel. rewrite <- E. rewrite take_length in *. lia.
Qed.

Section HintGroups.

Variable window : Window.

Lemma imagesLoop_labelled (img : Element) (st st' : HintState) :
  imagesLoop window img st = Ok st' -> addsLabelled image noLabel st st'.
Proof.
  intros H. apply imagesLoop_spec in H. subst st'.
  destruct (isHTMLElement img && looksVisible img); [right | now left].
  eexists. eexists. split; [reflexivity | reflexivity].
Qed.

Lemma largeSvgLoop_labelled (svg : Element) (st st' : HintState) :
  largeSvgLoop window svg st = Ok st' -> addsLabelled image noLabel st st'.
Proof.
  intros H. apply largeSvgLoop_spec in H. subst st'.
  match goal with |- context [if ?b then _ else _] => destruct b end;
    [right | now left].
  eexists. eexists. split; [reflexivity | reflexivity].
Qed.

Lemma buttonsLoop_labelled (btn : Element) (st st' : HintState) :
  buttonsLoop window btn st = Ok st' -> addsLabelled button buttonLabel st st'.
Proof.
  unfold buttonsLoop, addsLabelled.
  destruct (isHTMLElement btn); cbn [negb]; [|intros [= <-]; now left].
  destruct (isButtonElement btn); cbn [negb]; [|intros [= <-]; now left].
  intros H. bindOk H visible Hv. destruct visible; cbn [negb] in H.
  - bindOk H bbox Hb. injection H as <-. right.
    eexists. eexists. split; [|reflexivity]. apply take_trim_label.
  - injection H as <-. now left.
Qed.

Lemma svgIconLoop_labelled (svg : Element) (st st' : HintState) :
  svgIconLoop window svg st = Ok st' -> addsLabelled icon noLabel st st'.
Proof.
  unfold svgIconLoop, addsLabelled.
  destruct (isSVGElement svg); cbn [negb]; [|intros [= <-]; now left].
  intros H. bindOk H isIcon Hi. destruct isIcon.
  - bindOk H bbox Hb. injection H as <-. right.
    eexists. eexists. split; [reflexivity | reflexivity].
  - injection H as <-. now left.
Qed.

Lemma iconFontLoop_labelled (ic : Element) (st st' : HintState) :
  iconFontLoop window ic st = Ok st' -> addsLabelled icon noLabel st st'.
Proof.
  unfold iconFontLoop, addsLabelled.
  destruct (isHTMLElement ic); cbn [negb]; [|intros [= <-]; now left].
  intros H. bindOk H isIcon Hi. destruct isIcon; cbn [negb] in H.
  - bindOk H visible Hv. destruct visible; cbn [negb] in H.
    + bindOk H bbox Hb. injection H as <-. right.
      eexists. eexists. split; [reflexivity | reflexivity].
    + injection H as <-. now left.
  - injection H as <-. now left.
Qed.

(** the running box of the text loop covers every counted element seen *)
Lemma growTextBox_covers (b : BoundingBox) (acc : TextBox) :
  covers (growTextBox b acc) b
  /\ forall b', covers acc b' -> covers (growTextBox b acc) b'.
Proof.
  unfold growTextBox, covers, Qmin, Qmax.
  destruct acc as [[[[minX minY] maxX] maxY]|].
  - destruct (Qle_bool minX (bb_x b)) eqn:E1;
    destruct (Qle_bool minY (bb_y b)) eqn:E2;
    destruct (Qle_bool maxX (bb_x b + bb_width b)) eqn:E3;
    destruct (Qle_bool maxY (bb_y b + bb_height b)) eqn:E4;
    repeat match goal with
           | H : Qle_bool _ _ = true |- _ => apply Qle_bool_iff in H
           | H : Qle_bool ?a ?b = false |- _ =>
               assert (b <= a)
                 by (destruct (Qlt_le_dec b a) as [L|L];
                     [apply Qlt_le_weak; exact L
                     | apply Qle_bool_iff in L; congruence]);
               clear H
           end;
    (split; [|intros b' (? & ? & ? & ?)]); repeat split; lra.
  - split; [repeat split; lra | intros b' []].
Qed.

Lemma textLoop_covers (t : Element) (acc acc' : TextBox) :
  textLoop window t acc = Ok acc' ->
  (forall b, covers acc b -> covers acc' b)
  /\ (isHTMLElement t && looksVisible t
      && negb (Qltb (rect_width (el_rect t)) 20 || Qltb (rect_height (el_rect t)) 10)
      = true -> covers acc' (absoluteBox window t)).
Proof.
  unfold textLoop. destruct (isHTMLElement t); cbn [negb andb];
    [|intros [= <-]; split; [auto | discriminate]].
  intros H. bindOk H visible Hv. apply isElementVisible_looks in Hv.
  destruct Hv as [Hread ->]. destruct (looksVisible t); cbn [negb andb] in *;
    [|injection H as <-; split; [auto | discriminate]].
  rewrite (readable_rect t Hread) in H. cbn [bind] in H.
  destruct (Qltb (rect_width (el_rect t)) 20 || Qltb (rect_height (el_rect t)) 10);
    cbn [negb]; [injection H as <-; split; [auto | discriminate]|].
  bindOk H bbox Hb. apply getAbsoluteBoundingBox_absolute in Hb. subst bbox.
  injection H as <-.
  destruct (growTextBox_covers (absoluteBox window t) acc) as [H1 H2].
  split; [exact H2 | intros _; exact H1].
Qed.

Lemma forEach_textLoop (l : list Element) :
  forall acc acc',
    forEach (textLoop window) l acc = Ok acc' ->
    (forall b, covers acc b -> covers acc' b)
    /\ forall t, In t l ->
                 isHTMLElement t && looksVisible t
                 && negb (Qltb (rect_width (el_rect t)) 20
                          || Qltb (rect_height (el_rect t)) 10) = true ->
                 covers acc' (absoluteBox window t).
Proof.
  induction l as [|e l IH]; intros acc acc' H; cbn [forEach] in H.
  - injection H as <-. split; [auto | intros t []].
  - bindOk H acc1 H1. apply textLoop_covers in H1. destruct H1 as [Hkeep Hnew].
    destruct (IH _ _ H) as [Hkeep' Hrest]. split; [auto|].
    intros t [<-|Hin] Hc; [apply Hkeep', Hnew, Hc | now apply Hrest].
Qed.

(** the extraction, phase by phase *)
Lemma detectContentHintsUnsafe_phases (el : Element) (hs : list ContentHint) :
  detectContentHintsUnsafe window el = Ok hs ->
  exists images buttons icons texts,
    hs = images ++ buttons ++ icons ++ texts
    /\ hintsOf image noLabel images
    /\ hintsOf button buttonLabel buttons
    /\ hintsOf icon noLabel icons
    /\ hintsOf text noLabel texts
    /\ forall h t, In h texts -> In t (descendants el) -> countedText t = true ->
                   spans (hint_bbox h) (absoluteBox window t).
Proof.
  unfold detectContentHintsUnsafe. intros H.
  bindOk H st1 H1. bindOk H st2 H2. bindOk H st3 H3. bindOk H st4 H4.
  bindOk H st5 H5. bindOk H st6 H6. injection H as <-.
  apply (forEach_grows image noLabel) in H1; [|apply imagesLoop_labelled].
  apply (forEach_grows image noLabel) in H2; [|apply largeSvgLoop_labelled].
  apply (forEach_grows button buttonLabel) in H3; [|apply buttonsLoop_labelled].
  apply (forEach_grows icon noLabel) in H4; [|apply svgIconLoop_labelled].
  apply (forEach_grows icon noLabel) in H5; [|apply iconFontLoop_labelled].
  pose proof (grows_trans _ _ _ _ _ H1 H2) as (imgs & Ei & Fi). cbn [hints app] in Ei.
  destruct H3 as (btns & Eb & Fb).
  pose proof (grows_trans _ _ _ _ _ H4 H5) as (ics & Ec & Fc).
  assert (T : exists texts,
             hints st6 = hints st5 ++ texts /\ hintsOf text noLabel texts
             /\ forall h t, In h texts -> In t (descendants el) -> countedText t = true ->
                            spans (hint_bbox h) (absoluteBox window t)).
  { match type of H6 with (if ?b then _ else _) = _ => destruct b end.
    - bindOk H6 box Hbox. destruct box as [[[[minX minY] maxX] maxY]|].
      + injection H6 as <-.
        apply forEach_textLoop in Hbox. destruct Hbox as [_ Hcov].
        match goal with
        | |- context [addHint text ?b None st5] =>
            destruct (addHint_spec text b None st5) as [[-> _]|(_ & _ & Hh & _)]
        end.
        * exists []. split; [now rewrite app_nil_r|]. split; [constructor|].
          intros h t [].
        * eexists. split; [exact Hh|]. split; [repeat constructor|].
          intros h t [<-|[]] Hin Hc.
          unfold countedText in Hc. apply andb_prop in Hc. destruct Hc as [Hc Hsize].
          apply andb_prop in Hc. destruct Hc as [Hc Hvis].
          apply andb_prop in Hc. destruct Hc as [Htag Hhtml].
          assert (Hin' : In t (querySelectorAllTags
                                 ["p"; "h1"; "h2"; "h3"; "h4"; "h5"; "h6"] el))
            by (apply filter_In; now split).
          specialize (Hcov t Hin'). rewrite Hhtml, Hvis, Hsize in Hcov.
          specialize (Hcov eq_refl). cbn [covers] in Hcov.
          destruct Hcov as (? & ? & ? & ?). unfold spans.
          cbn [hint_bbox bb_x bb_y bb_width bb_height]. repeat split; lra.
      + injection H6 as <-. exists []. split; [now rewrite app_nil_r|].
        split; [constructor | intros h t []].
    - injection H6 as <-. exists []. split; [now rewrite app_nil_r|].
      split; [constructor | intros h t []]. }
  destruct T as (texts & Et & Ft & Hcov).
  exists imgs, btns, ics, texts.
  split; [now rewrite Et, Ec, Eb, Ei, <- !app_assoc|].
  split; [exact Fi|]. split; [exact Fb|]. split; [exact Fc|]. split; [exact Ft|].
  exact Hcov.
Qed.

End HintGroups.

(** X12: the hints of an element are listed by phase of the scan: the
    image hints, then the button hints, then the icon hints, then the text
    hint.  Only button hints carry a label, which is never empty and has
    at most 20 characters. *)
Theorem hints_are_grouped_by_type (window : Window) (el : Element) :
  exists images buttons icons texts,
    detectContentHints window el = images ++ buttons ++ icons ++ texts
    /\ hintsOf image noLabel images
    /\ hintsOf button buttonLabel buttons
    /\ hintsOf icon noLabel icons
    /\ hintsOf text noLabel texts.
Proof.
  unfold detectContentHints.
  destruct (detectContentHintsUnsafe window el) as [hs| |] eqn:H;
    try (exists [], [], [], []; repeat split; constructor).
  apply detectContentHintsUnsafe_phases in H.
  destruct H as (images & buttons & icons & texts & E & Hi & Hb & Hc & Ht & _).
  exists images, buttons, icons, texts.
  split; [exact E|]. split; [exact Hi|]. split; [exact Hb|]. split; [exact Hc|].
  exact Ht.
Qed.

(** X13: the box of a text hint spans the box of every text element
    that was counted for it, every visible [p] or heading below the
    element that is at least 20 wide and 10 high: the hint starts at or
    before the left and top edges of the text, and the right and bottom
    edges of the text, measured from the left and top edges of the hint,
    lie within the width and the height of the hint. *)
Theorem text_hint_spans_the_text (window : Window) (el : Element) (h : ContentHint)
        (t : Element) :
  In h (detectContentHints window el) ->
  hint_type h = text ->
  In t (descendants el) ->
  countedText t = true ->
  spans (hint_bbox h) (absoluteBox window t).
Proof.
  unfold detectContentHints. intros Hin Htype Ht Hc.
  destruct (detectContentHintsUnsafe window el) as [hs| |] eqn:H;
    try (destruct Hin).
  apply detectContentHintsUnsafe_phases in H.
  destruct H as (images & buttons & icons & texts & -> & Hi & Hb & Hic & _ & Hcov).
  assert (Hother : forall k P l, hintsOf k P l -> k <> text -> ~ In h l).
  { intros k P l Hl Hk Hh. unfold hintsOf in Hl. rewrite Forall_forall in Hl.
    destruct (Hl h Hh) as [E _]. congruence. }
  apply in_app_or in Hin. destruct Hin as [Hin|Hin];
    [now apply (Hother _ _ _ Hi) in Hin|].
  apply in_app_or in Hin. destruct Hin as [Hin|Hin];
    [now apply (Hother _ _ _ Hb) in Hin|].
  apply in_app_or in Hin. destruct Hin as [Hin|Hin];
    [now apply (Hother _ _ _ Hic) in Hin|].
  now apply Hcov.
Qed.

Lemma text_hint_spans_the_text_witness :
  In Article.storyText (detectContentHints Page.window1280 Article.story)
  /\ hint_type Article.storyText = text
  /\ In Article.paragraph (descendants Article.story)
  /\ countedText Article.paragraph = true
  /\ spans (hint_bbox Article.storyText)
              (absoluteBox Page.window1280 Article.paragraph).
Proof.
  assert (H1 : In Article.storyText (detectContentHints Page.window1280 Article.story))
    by (vm_compute; left; reflexivity).
  assert (H3 : In Article.paragraph (descendants Article.story))
    by (cbn; right; left; reflexivity).
  assert (H4 : countedText Article.paragraph = true) by (vm_compute; reflexivity).
  split; [exact H1|]. split; [reflexivity|]. split; [exact H3|]. split; [exact H4|].
  exact (text_hint_spans_the_text Page.window1280 Article.story Article.storyText
           Article.paragraph H1 eq_refl H3 H4).
Defined.

(** ** Trees of nodes *)

(** induction on a node, with the property at hand for its children *)
Lemma WireframeNode_tree_ind (P : WireframeNode -> Prop) :
  (forall n, Forall P (wn_children n) -> P n) -> forall n, P n.
Proof.
  intros H. fix IH 1. intros n. apply H.
  destruct n as [id tag label bbox depth children lm st ch]. cbn [wn_children].
  induction children as [|c cs IHcs]; constructor; [apply IH | exact IHcs].
Qed.

Lemma fold_count (f : WireframeNode -> nat) (l : list WireframeNode) (a : nat) :
  fold_left (fun count node => (count + f node)%nat) l a
  = (a + list_sum (map f l))%nat.
Proof.
  revert a. induction l as [|n l IH]; intros a; cbn; [lia|].
  rewrite IH. unfold list_sum. lia.
Qed.

Lemma length_flat_map {A B : Type} (f : A -> list B) (l : list A) :
  List.length (flat_map f l) = list_sum (map (fun a => List.length (f a)) l).
Proof.
  induction l as [|a l IH]; [reflexivity|].
  cbn. now rewrite length_app, IH.
Qed.

Lemma countBelow_traverse (n : WireframeNode) :
  countBelow n = List.length (traverse n).
Proof.
  induction n as [n IH] using WireframeNode_tree_ind.
  rewrite traverse_eq. destruct n as [id tag label bbox depth children lm st ch].
  cbn [countBelow wn_children List.length] in *.
  rewrite fold_count, length_flat_map. cbn [Nat.add]. f_equal.
  induction IH as [|c cs Hc _ IHcs]; [reflexivity|].
  cbn [map]. unfold list_sum in *. cbn [fold_right]. now rewrite Hc, IHcs.
Qed.

(** X14: the number of blocks the overlay reports is the number of nodes
    of the flattened tree. *)
Theorem countNodes_counts_the_flattened_tree (nodes : list WireframeNode) :
  countNodes nodes = List.length (flattenNodes nodes).
Proof.
  unfold countNodes, flattenNodes. rewrite fold_count, length_flat_map. cbn [Nat.add].
  f_equal. apply map_ext. intros n. apply countBelow_traverse.
Qed.

(** X15: the flattened tree holds the given nodes and, with every node,
    its children: it is closed under the child relation, so it holds every
    node of the tree. *)
Theorem flattenNodes_is_closed (nodes : list WireframeNode) :
  incl nodes (flattenNodes nodes)
  /\ forall parent child,
      In parent (flattenNodes nodes) -> In child (wn_children parent) ->
      In child (flattenNodes nodes).
Proof.
  assert (Hself : forall n, In n (traverse n))
    by (intros n; rewrite traverse_eq; now left).
  assert (Hclosed : forall n parent child,
             In parent (traverse n) -> In child (wn_children parent) ->
             In child (traverse n)).
  { induction n as [n IH] using WireframeNode_tree_ind. intros parent child Hp Hc.
    rewrite traverse_eq in *. destruct Hp as [<-|Hp].
    - right. apply in_flat_map. exists child. split; [exact Hc | apply Hself].
    - right. apply in_flat_map in Hp. destruct Hp as [k [Hk Hp]].
      apply in_flat_map. exists k. split; [exact Hk|].
      rewrite Forall_forall in IH. exact (IH k Hk parent child Hp Hc). }
  split.
  - intros n Hn. unfold flattenNodes. apply in_flat_map. exists n.
    split; [exact Hn | apply Hself].
  - intros parent child Hp Hc. unfold flattenNodes in *. apply in_flat_map in Hp.
    destruct Hp as [n [Hn Hp]]. apply in_flat_map. exists n.
    split; [exact Hn | exact (Hclosed n parent child Hp Hc)].
Qed.

(** ** Click detection *)

Lemma searchBadges_spec (badges : list BadgeInfo) (canvasX canvasY : Q) (n : nat) :
  (n <= List.length badges)%nat ->
  match searchBadges badges canvasX canvasY n with
  | Some b =>
      exists i, (i < n)%nat /\ nth_error badges i = Some b /\ onBadge canvasX canvasY b
                /\ forall j k, (i < j < n)%nat -> nth_error badges j = Some k ->
                               ~ onBadge canvasX canvasY k
  | None =>
      forall j k, (j < n)%nat -> nth_error badges j = Some k -> ~ onBadge canvasX canvasY k
  end.
Proof.
  induction n as [|i IH]; intros Hn; cbn [searchBadges].
  - intros j k Hj. lia.
  - destruct (nth_error badges i) as [badge|] eqn:Hi.
    2:{ apply nth_error_None in Hi. lia. }
    match goal with |- context [if ?b then _ else _] => destruct b eqn:Hhit end.
    + exists i. split; [lia|]. split; [exact Hi|]. split.
      * apply andb_prop in Hhit. destruct Hhit as [Hhit H4].
        apply andb_prop in Hhit. destruct Hhit as [Hhit H3].
        apply andb_prop in Hhit. destruct Hhit as [H1 H2].
        apply Qleb_le in H1, H2, H3, H4. unfold onBadge. auto.
      * intros j k Hj. lia.
    + assert (Hmiss : ~ onBadge canvasX canvasY badge).
      { intros [[H1 H2] [H3 H4]]. apply Qleb_le in H1, H2, H3, H4.
        rewrite H1, H2, H3, H4 in Hhit. discriminate Hhit. }
      specialize (IH ltac:(lia)).
      destruct (searchBadges badges canvasX canvasY i) as [b|].
      * destruct IH as (i0 & Hi0 & Hb & Hon & Hlater). exists i0.
        split; [lia|]. split; [exact Hb|]. split; [exact Hon|].
        intros j k Hj Hk. destruct (Nat.eq_dec j i) as [->|Hne].
        -- rewrite Hi in Hk. injection Hk as <-. exact Hmiss.
        -- apply (Hlater j k); [lia | exact Hk].
      * intros j k Hj Hk. destruct (Nat.eq_dec j i) as [->|Hne].
        -- rewrite Hi in Hk. injection Hk as <-. exact Hmiss.
        -- apply (IH j k); [lia | exact Hk].
Qed.

(** X16: a click is given to the last badge of the list that it lies on,
    the one drawn on top; it is given to no badge only when it lies on
    none. *)
Theorem findBadgeAtPosition_finds_the_topmost (badges : list BadgeInfo)
        (canvasX canvasY : Q) :
  match findBadgeAtPosition badges canvasX canvasY with
  | Some b =>
      exists i, nth_error badges i = Some b /\ onBadge canvasX canvasY b
                /\ forall j k, (i < j)%nat -> nth_error badges j = Some k ->
                               ~ onBadge canvasX canvasY k
  | None => forall k, In k badges -> ~ onBadge canvasX canvasY k
  end.
Proof.
  unfold findBadgeAtPosition.
  pose proof (searchBadges_spec badges canvasX canvasY (List.length badges) (Nat.le_refl _))
    as H.
  destruct (searchBadges badges canvasX canvasY (List.length badges)) as [b|].
  - destruct H as (i & Hi & Hb & Hon & Hlater). exists i.
    split; [exact Hb|]. split; [exact Hon|].
    intros j k Hj Hk. apply (Hlater j k); [|exact Hk].
    split; [exact Hj|]. apply nth_error_Some. congruence.
  - intros k Hk. apply In_nth_error in Hk. destruct Hk as [j Hj].
    apply (H j k); [|exact Hj]. apply nth_error_Some. congruence.
Qed.

(** ** Borders and fill colours *)

Lemma getBorderWidth_antitone (d1 d2 : Z) :
  (0 <= d1 <= d2)%Z -> (1 <= getBorderWidth d2 <= getBorderWidth d1)%Z.
Proof.
  intros H. unfold getBorderWidth.
  destruct (d1 =? 0)%Z eqn:E1; destruct (d2 =? 0)%Z eqn:E2;
    destruct (d1 <=? 2)%Z eqn:L1; destruct (d2 <=? 2)%Z eqn:L2; lia.
Qed.

(** X17: in a returned model the border of a child is never thicker
    than the border of its parent, and every border is 1 to 3 px wide. *)
Theorem borders_get_thinner_with_depth (window : Window) (body : Element)
        (config : PartialConfig) (model : WireframeModel) (parent child : WireframeNode) :
  analyzeDom window body config = Ok model ->
  In parent (flattenNodes (nodes model)) ->
  In child (wn_children parent) ->
  (1 <= getBorderWidth (wn_depth child) <= getBorderWidth (wn_depth parent))%Z
  /\ (getBorderWidth (wn_depth parent) <= 3)%Z.
Proof.
  intros H Hp Hc.
  pose proof (depth_grows_along_edges window body config model parent child H Hp Hc) as Hd.
  destruct (analyzeDom_sourced window body config model parent H Hp)
    as (c & _ & Hlow & _).
  split; [apply getBorderWidth_antitone; lia|].
  unfold getBorderWidth. destruct (wn_depth parent =? 0)%Z; [lia|].
  destruct (wn_depth parent <=? 2)%Z; lia.
Qed.

Lemma borders_get_thinner_with_depth_witness :
  exists model parent child,
    analyzeDom Page.window1280 Page.headerPage Page.noConfig = Ok model
    /\ In parent (flattenNodes (nodes model))
    /\ In child (wn_children parent)
    /\ (1 <= getBorderWidth (wn_depth child) <= getBorderWidth (wn_depth parent))%Z
    /\ (getBorderWidth (wn_depth parent) <= 3)%Z.
Proof.
  eexists. eexists. eexists.
  split; [vm_compute; reflexivity|].
  split; [cbn; left; reflexivity|].
  split; [cbn; left; reflexivity|].
  eapply (borders_get_thinner_with_depth Page.window1280 Page.headerPage Page.noConfig).
  - vm_compute. reflexivity.
  - cbn. left. reflexivity.
  - cbn. left. reflexivity.
Defined.

Lemma fillChannels_eq (t : SemanticType) (depth : Z) :
  fillChannels t depth
  = let '(r, g, b) := baseChannels t in
    let darkenAmount := Z.min (depth * 5) 20 in
    (Some (Z.max 0 (r - darkenAmount)), Some (Z.max 0 (g - darkenAmount)),
     Some (Z.max 0 (b - darkenAmount))).
Proof. destruct t; reflexivity. Qed.

Lemma baseChannels_light (t : SemanticType) :
  let '(r, g, b) := baseChannels t in
  (227 <= r <= 255 /\ 227 <= g <= 255 /\ 227 <= b <= 255)%Z.
Proof. destruct t; cbn; lia. Qed.

(** X18: at a depth that is not negative, the three channels of a fill
    colour are numbers between 207 and 255, they do not grow with the
    depth, and from depth 4 on the colour no longer changes. *)
Theorem fill_colours_darken_to_a_limit (t : SemanticType) (depth : Z) :
  (0 <= depth)%Z ->
  (exists r g b r' g' b' : Z,
      fillChannels t depth = (Some r, Some g, Some b)
      /\ fillChannels t (depth + 1) = (Some r', Some g', Some b')
      /\ (207 <= r' <= r /\ r <= 255)%Z
      /\ (207 <= g' <= g /\ g <= 255)%Z
      /\ (207 <= b' <= b /\ b <= 255)%Z)
  /\ ((4 <= depth)%Z -> getFillColor t depth = getFillColor t 4).
Proof.
  intros Hd. split.
  - rewrite !fillChannels_eq. pose proof (baseChannels_light t) as Hl.
    destruct (baseChannels t) as [[r g] b]. cbv zeta.
    do 6 eexists. split; [reflexivity|]. split; [reflexivity|]. lia.
  - intros H4. unfold getFillColor. rewrite !fillChannels_eq.
    destruct (baseChannels t) as [[r g] b]. cbv zeta.
    replace (Z.min (depth * 5) 20) with (Z.min (4 * 5) 20) by lia. reflexivity.
Qed.

Lemma fill_colours_darken_to_a_limit_witness :
  (0 <= 5)%Z
  /\ fillChannels hero 5 = (Some 223, Some 209, Some 225)%Z
  /\ getFillColor hero 5 = "rgb(223, 209, 225)"
  /\ getFillColor hero 5 = getFillColor hero 4.
Proof.
  split; [lia|]. split; [reflexivity|]. split; [reflexivity|].
  apply (fill_colours_darken_to_a_limit hero 5); lia.
Defined.

(** ** The order in which content hints are drawn *)

Lemma insertByType_here (h : ContentHint) (sorted : list ContentHint) :
  Forall (fun k => (typeOrder (hint_type h) <= typeOrder (hint_type k))%nat) sorted ->
  insertByType h sorted = h :: sorted.
Proof.
  destruct sorted as [|k rest]; [reflexivity|]. intros H. inversion H as [|? ? Hk _]; subst.
  cbn [insertByType]. apply Nat.leb_le in Hk. now rewrite Hk.
Qed.

Lemma insertByType_skip (h : ContentHint) (a b : list ContentHint) :
  Forall (fun k => (typeOrder (hint_type k) < typeOrder (hint_type h))%nat) a ->
  insertByType h (a ++ b) = a ++ insertByType h b.
Proof.
  induction 1 as [|k a Hk _ IH]; [reflexivity|].
  cbn [app insertByType]. apply Nat.leb_gt in Hk. now rewrite Hk, IH.
Qed.

Lemma hintsOfType_types (t : ContentType) (hs : list ContentHint) :
  Forall (fun k => hint_type k = t) (hintsOfType t hs).
Proof.
  unfold hintsOfType. apply Forall_forall. intros k Hk. apply filter_In in Hk.
  destruct Hk as [_ Hk]. destruct (hint_type k), t; try discriminate; reflexivity.
Qed.

Lemma hintsOfType_cons (t : ContentType) (h : ContentHint) (hs : list ContentHint) :
  hintsOfType t (h :: hs)
  = if sameType (hint_type h) t then h :: hintsOfType t hs else hintsOfType t hs.
Proof. reflexivity. Qed.

(** a stable sort by type lists the text hints, then the image, the
    button and the icon hints, each group in its order *)
Lemma sortByType_groups (hs : list ContentHint) :
  sortByType hs
  = hintsOfType text hs ++ hintsOfType image hs ++ hintsOfType button hs
    ++ hintsOfType icon hs.
Proof.
  induction hs as [|h hs IH]; [reflexivity|].
  unfold sortByType in *. cbn [fold_right]. rewrite IH. rewrite !hintsOfType_cons.
  assert (Hlt : forall t, (typeOrder t < typeOrder (hint_type h))%nat ->
                          Forall (fun k => (typeOrder (hint_type k)
                                            < typeOrder (hint_type h))%nat)
                                 (hintsOfType t hs)).
  { intros t Ht. eapply Forall_impl; [|apply hintsOfType_types].
    cbn. intros k ->. exact Ht. }
  assert (Hge : forall t, (typeOrder (hint_type h) <= typeOrder t)%nat ->
                          Forall (fun k => (typeOrder (hint_type h)
                                            <= typeOrder (hint_type k))%nat)
                                 (hintsOfType t hs)).
  { intros t Ht. eapply Forall_impl; [|apply hintsOfType_types].
    cbn. intros k ->. exact Ht. }
  assert (Hcases : hint_type h = image \/ hint_type h = button
                   \/ hint_type h = text \/ hint_type h = icon)
    by (destruct (hint_type h); auto).
  destruct Hcases as [E|[E|[E|E]]]; rewrite E; cbn [sameType].
  - (* image *)
    rewrite insertByType_skip by (apply Hlt; rewrite E; cbn; lia).
    rewrite insertByType_here; [reflexivity|].
    repeat (apply Forall_app; split); apply Hge; rewrite E; cbn; lia.
  - (* button *)
    rewrite insertByType_skip by (apply Hlt; rewrite E; cbn; lia).
    rewrite insertByType_skip by (apply Hlt; rewrite E; cbn; lia).
    rewrite insertByType_here; [reflexivity|].
    repeat (apply Forall_app; split); apply Hge; rewrite E; cbn; lia.
  - (* text *)
    rewrite insertByType_here; [reflexivity|].
    repeat (apply Forall_app; split); apply Hge; rewrite E; cbn; lia.
  - (* icon *)
    rewrite insertByType_skip by (apply Hlt; rewrite E; cbn; lia).
    rewrite insertByType_skip by (apply Hlt; rewrite E; cbn; lia).
    rewrite insertByType_skip by (apply Hlt; rewrite E; cbn; lia).
    rewrite insertByType_here; [reflexivity|].
    apply Hge; rewrite E; cbn; lia.
Qed.

Lemma fold_left_same {A S : Type} (f g : S -> A -> S) (l : list A) (s : S) :
  (forall a s', In a l -> f s' a = g s' a) -> fold_left f l s = fold_left g l s.
Proof.
  revert s. induction l as [|a l IH]; intros s H; [reflexivity|].
  cbn [fold_left]. rewrite H by now left. apply IH. intros; apply H. now right.
Qed.

(** X19: the content hints of a node are drawn back to front by type:
    all text hints, then all image hints, then all button hints, then all
    icon hints, each group in the order of the list. *)
Theorem hints_are_drawn_back_to_front (measureText : Canvas.Font -> JSValue -> Q)
        (hints : list ContentHint) (ctx : Canvas.Context) :
  renderContentHints measureText hints ctx
  = fold_left (fun c h => renderIconPlaceholder h c) (hintsOfType icon hints)
      (fold_left (fun c h => renderButtonPlaceholder measureText h c)
         (hintsOfType button hints)
         (fold_left (fun c h => renderImagePlaceholder h c) (hintsOfType image hints)
            (fold_left (fun c h => renderTextPlaceholder h c) (hintsOfType text hints)
               ctx))).
Proof.
  unfold renderContentHints. rewrite sortByType_groups, !fold_left_app.
  assert (Hsame : forall t f l s,
             (forall h c, hint_type h = t ->
                          match hint_type h with
                          | image => renderImagePlaceholder h c
                          | button => renderButtonPlaceholder measureText h c
                          | text => renderTextPlaceholder h c
                          | icon => renderIconPlaceholder h c
                          end = f c h) ->
             fold_left
               (fun c h =>
                  match hint_type h with
                  | image => renderImagePlaceholder h c
                  | button => renderButtonPlaceholder measureText h c
                  | text => renderTextPlaceholder h c
                  | icon => renderIconPlaceholder h c
                  end) (hintsOfType t l) s
             = fold_left f (hintsOfType t l) s).
  { intros t f l s Hf. apply fold_left_same. intros h c Hh. apply Hf.
    pose proof (hintsOfType_types t l) as Ht. rewrite Forall_forall in Ht. now apply Ht. }
  rewrite (Hsame text (fun c h => renderTextPlaceholder h c))
    by (intros h c ->; reflexivity).
  rewrite (Hsame image (fun c h => renderImagePlaceholder h c))
    by (intros h c ->; reflexivity).
  rewrite (Hsame button (fun c h => renderButtonPlaceholder measureText h c))
    by (intros h c ->; reflexivity).
  rewrite (Hsame icon (fun c h => renderIconPlaceholder h c))
    by (intros h c ->; reflexivity).
  reflexivity.
Qed.

(** ** Shortened labels *)

Lemma string_of_app (a b : list ascii) :
  string_of_list_ascii (a ++ b)
  = (string_of_list_ascii a ++ string_of_list_ascii b)%string.
Proof. induction a as [|c a IH]; [reflexivity|]. cbn. now rewrite IH. Qed.

Lemma string_of_length (l : list ascii) :
  Str.length (string_of_list_ascii l) = List.length l.
Proof. unfold Str.length. induction l as [|c l IH]; [reflexivity|]. cbn. now rewrite IH. Qed.

Lemma prefix_append (p q : string) : String.prefix p (p ++ q) = true.
Proof.
  induction p as [|c p IH]; [now destruct q|].
  cbn. destruct (ascii_dec c c) as [_|N]; [exact IH | now elim N].
Qed.

Lemma prefix_trans (a b c : string) :
  String.prefix a b = true -> String.prefix b c = true -> String.prefix a c = true.
Proof.
  revert b c. induction a as [|x a IH]; intros b c Hab Hbc; [now destruct c|].
  destruct b as [|y b]; [discriminate Hab|]. destruct c as [|z c]; [discriminate Hbc|].
  cbn in *. destruct (ascii_dec x y) as [->|]; [|discriminate Hab].
  destruct (ascii_dec y z) as [->|]; [|discriminate Hbc].
  eapply IH; eassumption.
Qed.

Lemma dropLast_prefix (s : string) : String.prefix (JSString.dropLast s) s = true.
Proof.
  induction s as [|c s IH]; [reflexivity|].
  cbn [JSString.dropLast]. destruct s as [|d s]; [reflexivity|].
  cbn [String.prefix]. destruct (ascii_dec c c) as [_|N]; [exact IH | now elim N].
Qed.

Lemma dropLast_length (s : string) : Str.length (JSString.dropLast s) = pred (Str.length s).
Proof.
  unfold Str.length. induction s as [|c s IH]; [reflexivity|].
  cbn [JSString.dropLast]. destruct s as [|d s]; [reflexivity|].
  cbn [String.length] in *. now rewrite IH.
Qed.

(** the loop drops characters from the end, keeps at least 3 of them,
    and stops at a label that fits or has 3 characters at most *)
Lemma shorten_spec (fits : string -> bool) (chars : list ascii) :
  (exists dropped, chars = dropped ++ shorten fits chars)
  /\ ((3 <= List.length chars)%nat -> (3 <= List.length (shorten fits chars))%nat)
  /\ ((List.length (shorten fits chars) <= 3)%nat
      \/ fits (string_of_list_ascii (rev (shorten fits chars)) ++ "...")%string = true).
Proof.
  induction chars as [|c rest IH].
  - split; [now exists []|]. split; [cbn; lia | left; cbn; lia].
  - cbn [shorten].
    destruct ((3 <? List.length (c :: rest))%nat
              && negb (fits (string_of_list_ascii (rev (c :: rest)) ++ "...")%string))
      eqn:Hcond.
    + apply andb_prop in Hcond. destruct Hcond as [Hlen _]. apply Nat.ltb_lt in Hlen.
      cbn [List.length] in Hlen.
      destruct IH as ((dropped & Hd) & Hmin & Hexit).
      split; [exists (c :: dropped); cbn; now rewrite <- Hd|].
      split; [intros _; apply Hmin; lia | exact Hexit].
    + split; [now exists []|]. split; [auto|].
      apply andb_false_iff in Hcond. destruct Hcond as [Hlen|Hfit].
      * left. apply Nat.ltb_ge in Hlen. exact Hlen.
      * right. now apply negb_false_iff in Hfit.
Qed.

Lemma shortenLabel_spec (fits : string -> bool) (s : string) :
  String.prefix (shortenLabel fits s) s = true
  /\ ((3 <= Str.length s)%nat -> (3 <= Str.length (shortenLabel fits s))%nat)
  /\ (Str.length (shortenLabel fits s) <= Str.length s)%nat
  /\ ((Str.length (shortenLabel fits s) <= 3)%nat
      \/ fits (shortenLabel fits s ++ "...")%string = true).
Proof.
  unfold shortenLabel.
  destruct (shorten_spec fits (rev (list_ascii_of_string s)))
    as ((dropped & Hd) & Hmin & Hexit).
  assert (Hs : s = (string_of_list_ascii
                      (rev (shorten fits (rev (list_ascii_of_string s))))
                    ++ string_of_list_ascii (rev dropped))%string).
  { rewrite <- string_of_app, <- rev_app_distr, <- Hd, rev_involutive.
    symmetry. apply string_of_list_ascii_of_string. }
  assert (Hlen : Str.length s = List.length (list_ascii_of_string s)).
  { rewrite <- (string_of_list_ascii_of_string s) at 1. apply string_of_length. }
  split; [|split; [|split]].
  - rewrite Hs at 2. apply prefix_append.
  - intros H3. rewrite string_of_length, length_rev. apply Hmin.
    rewrite length_rev. lia.
  - rewrite Hs at 2. rewrite append_length. lia.
  - rewrite string_of_length, length_rev. exact Hexit.
Qed.

(** X20: the text a label badge displays is the label itself, or a prefix
    of the label of at least 3 characters followed by an ellipsis.  What
    is displayed fits into the width left for it, unless the label was
    cut down to 3 characters or had no more than 3.  The badge is as wide
    as the displayed text and 12 px, and as high as the font and 6 px. *)
Theorem badge_text_is_a_fitting_prefix (measureText : Canvas.Font -> JSValue -> Q)
        (s : string) (x y maxWidth fontSize : Q) (ctx : Canvas.Context) :
  let measure := measureText (Canvas.font (Canvas.setFont fontSize ctx)) in
  let result := snd (renderLabelBadge measureText (Text s) x y maxWidth fontSize ctx) in
  displayedFor measure (maxWidth - 6 * 2 - 16) s (snd result)
  /\ fst (fst result) = measure (snd result) + 6 * 2
  /\ snd (fst result) = fontSize + 3 * 2.
Proof.
  cbv zeta. unfold renderLabelBadge. cbv zeta. cbn [snd fst].
  split; [|split; reflexivity].
  set (measure := measureText (Canvas.font (Canvas.setFont fontSize ctx))).
  set (maxTextWidth := maxWidth - 6 * 2 - 16).
  destruct (Qltb maxTextWidth (measure (Text s)) && (3 <? Str.length s)%nat) eqn:Hcond.
  - right. apply andb_prop in Hcond. destruct Hcond as [_ Hlen].
    apply Nat.ltb_lt in Hlen.
    destruct (shortenLabel_spec
                (fun s' => negb (Qltb maxTextWidth (measure (Text s')))) (JSString.dropLast s))
      as (Hpre & Hmin & Hmax & Hexit).
    rewrite dropLast_length in Hmin, Hmax.
    eexists. split; [reflexivity|].
    split; [eapply prefix_trans; [exact Hpre | apply dropLast_prefix]|].
    split; [lia|].
    destruct Hexit as [H3|Hfit]; [right; lia | left].
    apply negb_true_iff, Qltb_ge in Hfit. exact Hfit.
  - left. split; [reflexivity|].
    apply andb_false_iff in Hcond. destruct Hcond as [Hfit|Hlen].
    + left. now apply Qltb_ge in Hfit.
    + right. now apply Nat.ltb_ge in Hlen.
Qed.

(** ** Badges *)

Lemma Subseq_app {A : Type} (a1 b1 a2 b2 : list A) :
  Subseq a1 b1 -> Subseq a2 b2 -> Subseq (a1 ++ a2) (b1 ++ b2).
Proof.
  intros H1 H2. induction H1 as [|x sub l _ IH|x sub l _ IH]; cbn.
  - exact H2.
  - now apply Subseq_skip.
  - now apply Subseq_take.
Qed.

Lemma Subseq_nil_l {A : Type} (l : list A) : Subseq [] l.
Proof. induction l; constructor; assumption. Qed.

Lemma Subseq_NoDup {A : Type} (sub l : list A) : Subseq sub l -> NoDup l -> NoDup sub.
Proof.
  induction 1 as [|x sub l Hs IH|x sub l Hs IH]; intros Hnd.
  - constructor.
  - inversion Hnd; subst. now apply IH.
  - inversion Hnd as [|? ? Hx Hl]; subst. constructor; [|now apply IH].
    intros Hin. apply Hx. eapply Subseq_In; eassumption.
Qed.

Section Badges.

Variable measureText : Canvas.Font -> JSValue -> Q.

(** the badge a node gets, when it gets one *)
Lemma renderNode_badge (node : WireframeNode) (config : RendererConfig)
      (ctx : Canvas.Context) (badge : BadgeInfo) :
  snd (renderNode measureText node config ctx) = Some badge ->
  showLabels config = true /\ badgeOn config node badge.
Proof.
  unfold renderNode. cbv zeta.
  match goal with |- context [if ?b then (ctx, None) else _] => destruct b end;
    [discriminate|].
  destruct (showLabels config); cbn [andb]; [|discriminate].
  match goal with |- context [if ?b then _ else (_, None)] => destruct b end;
    [|discriminate].
  fold (shownLabel config node).
  assert (Hshown : match labelOverrides config with
                   | Some overrides =>
                       match JSMap.get overrides (wn_id node) with
                       | Some l => Text l
                       | None => wn_label node
                       end
                   | None => wn_label node
                   end = shownLabel config node) by reflexivity.
  match goal with
  | |- context [isText ?d ""] =>
      assert (Hd : d = shownLabel config node)
        by (unfold shownLabel; destruct (labelOverrides config) as [m|]; [|reflexivity];
            destruct (JSMap.get m (wn_id node)); reflexivity);
      rewrite Hd
  end.
  destruct (isText (shownLabel config node) "") eqn:Hempty; [discriminate|].
  apply isText_neq in Hempty.
  match goal with
  | |- context [renderLabelBadge ?m ?l ?x ?y ?w ?f ?c] =>
      destruct (renderLabelBadge m l x y w f c) as [ctx' [[bw bh] shown]] eqn:Hbadge
  end.
  cbn [snd]. intros [= <-]. split; [reflexivity|].
  unfold badgeOn. cbn [badge_nodeId badge_label badge_x badge_y badge_height].
  repeat split; try assumption.
  unfold renderLabelBadge in Hbadge. cbv zeta in Hbadge. now injection Hbadge as _ _ <- _.
Qed.

(** the badges of a tree come from its nodes, in the order of the
    flattened tree, one per node at most *)
Lemma renderTree_badges (config : RendererConfig) (node : WireframeNode) :
  forall ctx acc,
  exists new,
    snd (renderTree measureText config node (ctx, acc)) = acc ++ new
    /\ Subseq (map badge_nodeId new) (map wn_id (traverse node))
    /\ Forall (fun b => exists n, In n (traverse node) /\ badgeOn config n b) new
    /\ (showLabels config = false -> new = []).
Proof.
  induction node as [node IH] using WireframeNode_tree_ind. intros ctx acc.
  assert (Hkids : forall kids, Forall (fun k => forall ctx acc,
                    exists new,
                      snd (renderTree measureText config k (ctx, acc)) = acc ++ new
                      /\ Subseq (map badge_nodeId new) (map wn_id (traverse k))
                      /\ Forall (fun b => exists n, In n (traverse k) /\ badgeOn config n b)
                                new
                      /\ (showLabels config = false -> new = [])) kids ->
            forall ctx acc,
            exists new,
              snd (fold_left (fun a child => renderTree measureText config child a)
                             kids (ctx, acc)) = acc ++ new
              /\ Subseq (map badge_nodeId new) (map wn_id (flat_map traverse kids))
              /\ Forall (fun b => exists n, In n (flat_map traverse kids)
                                            /\ badgeOn config n b) new
              /\ (showLabels config = false -> new = [])).
  { induction 1 as [|k kids Hk _ IHk]; intros c a.
    - exists []. cbn. rewrite app_nil_r. repeat split; constructor.
    - cbn [fold_left flat_map].
      destruct (Hk c a) as (new1 & E1 & S1 & F1 & N1).
      destruct (renderTree measureText config k (c, a)) as [c1 a1]. cbn [snd] in E1.
      subst a1. destruct (IHk c1 (a ++ new1)) as (new2 & E2 & S2 & F2 & N2).
      exists (new1 ++ new2). rewrite E2, app_assoc. split; [reflexivity|].
      rewrite !map_app. split; [now apply Subseq_app|]. split.
      + apply Forall_app. split.
        * eapply Forall_impl; [|exact F1]. intros b (n & Hn & Hb).
          exists n. split; [apply in_or_app; now left | exact Hb].
        * eapply Forall_impl; [|exact F2]. intros b (n & Hn & Hb).
          exists n. split; [apply in_or_app; now right | exact Hb].
      + intros Hoff. now rewrite N1, N2. }
  rewrite traverse_eq.
  destruct node as [id tag label bbox depth children lm st ch].
  cbn [renderTree wn_children] in *.
  set (node := {| wn_id := id; wn_tagName := tag; wn_label := label; wn_bbox := bbox;
                  wn_depth := depth; wn_children := children; wn_isLandmark := lm;
                  wn_semanticType := st; wn_contentHints := ch |}) in *.
  pose proof (renderNode_badge node config ctx) as Hbadge.
  destruct (renderNode measureText node config ctx) as [ctx1 [b|]]; cbn [snd] in Hbadge.
  - destruct (Hbadge b eq_refl) as [Hon Hb].
    destruct (Hkids children IH ctx1 (acc ++ [b])) as (new & E & S & F & N).
    exists (b :: new). rewrite E, <- app_assoc. split; [reflexivity|].
    cbn [map]. split; [|split].
    + destruct Hb as [-> _]. now apply Subseq_take.
    + constructor; [exists node; split; [now left | exact Hb]|].
      eapply Forall_impl; [|exact F]. intros b' (n & Hn & Hb').
      exists n. split; [now right | exact Hb'].
    + intros Hoff. rewrite Hoff in Hon. discriminate Hon.
  - destruct (Hkids children IH ctx1 acc) as (new & E & S & F & N).
    exists new. split; [exact E|]. cbn [map]. split; [now apply Subseq_skip|].
    split; [|exact N].
    eapply Forall_impl; [|exact F]. intros b' (n & Hn & Hb').
    exists n. split; [now right | exact Hb'].
Qed.

Lemma renderNodeTree_badges (config : RendererConfig) (nodes : list WireframeNode) :
  forall ctx acc,
  exists new,
    snd (renderNodeTree measureText nodes config ctx acc) = acc ++ new
    /\ Subseq (map badge_nodeId new) (map wn_id (flattenNodes nodes))
    /\ Forall (fun b => exists n, In n (flattenNodes nodes) /\ badgeOn config n b) new
    /\ (showLabels config = false -> new = []).
Proof.
  unfold renderNodeTree, flattenNodes.
  induction nodes as [|k kids IHk]; intros c a.
  - exists []. cbn. rewrite app_nil_r. repeat split; constructor.
  - cbn [fold_left flat_map].
    destruct (renderTree_badges config k c a) as (new1 & E1 & S1 & F1 & N1).
    destruct (renderTree measureText config k (c, a)) as [c1 a1]. cbn [snd] in E1.
    subst a1. destruct (IHk c1 (a ++ new1)) as (new2 & E2 & S2 & F2 & N2).
    exists (new1 ++ new2). rewrite E2, app_assoc. split; [reflexivity|].
    rewrite !map_app. split; [now apply Subseq_app|]. split.
    + apply Forall_app. split.
      * eapply Forall_impl; [|exact F1]. intros b (n & Hn & Hb).
        exists n. split; [apply in_or_app; now left | exact Hb].
      * eapply Forall_impl; [|exact F2]. intros b (n & Hn & Hb).
        exists n. split; [apply in_or_app; now right | exact Hb].
    + intros Hoff. now rewrite N1, N2.
Qed.

Lemma renderWireframe_badges (model : WireframeModel)
      (canvas canvas' : Canvas.HTMLCanvasElement) (config : PartialRendererConfig)
      (badges : list BadgeInfo) :
  renderWireframe measureText model canvas config = Ok (canvas', badges) ->
  Subseq (map badge_nodeId badges) (map wn_id (flattenNodes (nodes model)))
  /\ Forall (fun b => exists n, In n (flattenNodes (nodes model))
                                /\ badgeOn (mergeRendererConfig config) n b) badges
  /\ (showLabels (mergeRendererConfig config) = false -> badges = []).
Proof.
  unfold renderWireframe. cbv zeta.
  destruct (Canvas.context2d canvas) as [ctx|]; [|discriminate].
  match goal with
  | |- context [renderNodeTree measureText ?ns ?cfg ?c []] =>
      destruct (renderNodeTree_badges cfg ns c []) as (new & E & S & F & N);
      destruct (renderNodeTree measureText ns cfg c []) as [c1 bs]
  end.
  cbn [snd app] in E. subst bs. intros [= _ <-]. auto.
Qed.

End Badges.

(** X21: the badges a rendering returns come from the nodes of the model
    in the order of the flattened tree, one badge per node at most.  Each
    badge carries the identifier of its node and the label shown for it
    (the override of the node, or its own label), which is not empty, and
    sits 8 px inside the top left corner of the node's box.  Without
    [showLabels] there are no badges. *)
Theorem badges_follow_the_nodes (measureText : Canvas.Font -> JSValue -> Q)
        (model : WireframeModel) (canvas canvas' : Canvas.HTMLCanvasElement)
        (config : PartialRendererConfig) (badges : list BadgeInfo) :
  renderWireframe measureText model canvas config = Ok (canvas', badges) ->
  Subseq (map badge_nodeId badges) (map wn_id (flattenNodes (nodes model)))
  /\ Forall (fun b => exists n, In n (flattenNodes (nodes model))
                                /\ badgeOn (mergeRendererConfig config) n b) badges
  /\ (p_showLabels config <> Some true -> badges = []).
Proof.
  intros H. apply renderWireframe_badges in H. destruct H as (S & F & N).
  split; [exact S|]. split; [exact F|]. intros Hoff. apply N.
  unfold mergeRendererConfig. cbn [showLabels].
  destruct (p_showLabels config) as [[]|]; [now elim Hoff | reflexivity | reflexivity].
Qed.

(** X22: rendering an analyzed page gives at most one badge per node
    identifier, so that an identifier names one badge. *)
Theorem analyzed_badges_have_distinct_ids (measureText : Canvas.Font -> JSValue -> Q)
        (window : Window) (body : Element) (config : PartialConfig)
        (model : WireframeModel) (canvas canvas' : Canvas.HTMLCanvasElement)
        (rendererConfig : PartialRendererConfig) (badges : list BadgeInfo) :
  analyzeDom window body config = Ok model ->
  renderWireframe measureText model canvas rendererConfig = Ok (canvas', badges) ->
  NoDup (map badge_nodeId badges).
Proof.
  intros Ha Hr. apply renderWireframe_badges in Hr. destruct Hr as (S & _).
  eapply Subseq_NoDup; [exact S|]. eapply analyzeDom_numbered. exact Ha.
Qed.

Lemma badges_follow_the_nodes_witness :
  exists model canvas' badges,
    analyzeDom Page.window1280 Page.headerPage Page.noConfig = Ok model
    /\ renderWireframe Screen.measure model Screen.canvas Screen.labelled
       = Ok (canvas', badges)
    /\ Subseq (map badge_nodeId badges) (map wn_id (flattenNodes (nodes model)))
    /\ Forall (fun b => exists n, In n (flattenNodes (nodes model))
                                  /\ badgeOn (mergeRendererConfig Screen.labelled) n b)
              badges
    /\ (p_showLabels Screen.labelled <> Some true -> badges = []).
Proof.
  eexists. eexists. eexists.
  split; [vm_compute; reflexivity|].
  split; [vm_compute; reflexivity|].
  eapply (badges_follow_the_nodes Screen.measure _ Screen.canvas _ Screen.labelled).
  vm_compute. reflexivity.
Defined.

Lemma analyzed_badges_have_distinct_ids_witness :
  exists model canvas' badges,
    analyzeDom Page.window1280 Page.headerPage Page.noConfig = Ok model
    /\ renderWireframe Screen.measure model Screen.canvas Screen.labelled
       = Ok (canvas', badges)
    /\ NoDup (map badge_nodeId badges).
Proof.
  eexists. eexists. eexists.
  split; [vm_compute; reflexivity|].
  split; [vm_compute; reflexivity|].
  eapply (analyzed_badges_have_distinct_ids Screen.measure Page.window1280 Page.headerPage
            Page.noConfig _ Screen.canvas _ Screen.labelled).
  - vm_compute. reflexivity.
  - vm_compute. reflexivity.
Defined.

(** ** Editing a label *)

Lemma JSMap_get_set (m : JSMap.t) (key value : string) :
  JSMap.get (JSMap.set m key value) key = Some value.
Proof.
  unfold JSMap.get. induction m as [|[k v] m IH]; cbn.
  - now rewrite String.eqb_refl.
  - destruct (k =? key) eqn:E; cbn; rewrite E; [reflexivity | exact IH].
Qed.

Lemma JSMap_get_set_other (m : JSMap.t) (key value other : string) :
  other <> key -> JSMap.get (JSMap.set m key value) other = JSMap.get m other.
Proof.
  intros Hne. unfold JSMap.get. induction m as [|[k v] m IH]; cbn.
  - destruct (key =? other) eqn:E; [|reflexivity].
    apply String.eqb_eq in E. congruence.
  - destruct (k =? key) eqn:E; cbn.
    + apply String.eqb_eq in E. subst k.
      destruct (key =? other) eqn:E'; [|reflexivity].
      apply String.eqb_eq in E'. congruence.
    + destruct (k =? other); [reflexivity | exact IH].
Qed.

(** X23: when the editor of a badge is left with a new text, the text
    is trimmed and stored as the override of the badge's node, the other
    overrides are kept, and after the re-rendering every badge of that
    node shows the new text; if the new text is empty the node has no
    badge any more. *)
Theorem an_edited_label_is_shown (measureText : Canvas.Font -> JSValue -> Q)
        (badge : BadgeInfo) (value : string) (state state' : WireframeMapperState)
        (model : WireframeModel) (canvas : Canvas.HTMLCanvasElement) :
  st_model state = Some model ->
  st_canvas state = Some canvas ->
  badge_label badge <> Text (Str.trim value) ->
  saveEdit measureText badge value state = Ok state' ->
  JSMap.get (st_labelOverrides state') (badge_nodeId badge) = Some (Str.trim value)
  /\ (forall other, other <> badge_nodeId badge ->
                    JSMap.get (st_labelOverrides state') other
                    = JSMap.get (st_labelOverrides state) other)
  /\ (forall b, In b (st_badges state') -> badge_nodeId b = badge_nodeId badge ->
                badge_label b = Text (Str.trim value))
  /\ (Str.trim value = "" ->
      ~ In (badge_nodeId badge) (map badge_nodeId (st_badges state'))).
Proof.
  intros Hm Hc Hnew H. unfold saveEdit in H. cbv zeta in H.
  apply isText_neq in Hnew. rewrite Hnew in H. cbn [negb] in H.
  unfold rerender in H. cbn [st_model st_canvas st_showLabels st_labelOverrides] in H.
  rewrite Hm, Hc in H. bindOk H r Hr. destruct r as [canvas' badges].
  injection H as <-. cbn [st_labelOverrides st_badges].
  apply renderWireframe_badges in Hr. destruct Hr as (_ & F & _).
  assert (Hshown : forall b, In b badges -> badge_nodeId b = badge_nodeId badge ->
                             badge_label b = Text (Str.trim value)
                             /\ badge_label b <> Text "").
  { intros b Hb Hid. rewrite Forall_forall in F.
    destruct (F b Hb) as (n & _ & Hn & Hl & Hne & _). split; [|exact Hne].
    rewrite Hl. unfold shownLabel, mergeRendererConfig. cbn [labelOverrides p_labelOverrides].
    rewrite <- Hn, Hid, JSMap_get_set. reflexivity. }
  split; [apply JSMap_get_set|]. split; [intros other Ho; now apply JSMap_get_set_other|].
  split; [intros b Hb Hid; now apply Hshown|].
  intros Hempty Hin. apply in_map_iff in Hin. destruct Hin as (b & Hid & Hb).
  destruct (Hshown b Hb Hid) as [Hl Hne]. rewrite Hempty in Hl. contradiction.
Qed.

Lemma an_edited_label_is_shown_witness :
  exists state',
    st_model Screen.overlay = Some Screen.headerModel
    /\ st_canvas Screen.overlay = Some Screen.canvas
    /\ badge_label Screen.headerBadge <> Text (Str.trim "  Top  ")
    /\ saveEdit Screen.measure Screen.headerBadge "  Top  " Screen.overlay = Ok state'
    /\ JSMap.get (st_labelOverrides state') (badge_nodeId Screen.headerBadge)
       = Some (Str.trim "  Top  ")
    /\ (forall b, In b (st_badges state') ->
                  badge_nodeId b = badge_nodeId Screen.headerBadge ->
                  badge_label b = Text (Str.trim "  Top  ")).
Proof.
  eexists.
  assert (Hnew : badge_label Screen.headerBadge <> Text (Str.trim "  Top  "))
    by (vm_compute; intros E; discriminate E).
  split; [reflexivity|]. split; [reflexivity|]. split; [exact Hnew|].
  split; [vm_compute; reflexivity|].
  edestruct (an_edited_label_is_shown Screen.measure Screen.headerBadge "  Top  "
               Screen.overlay) as (H1 & _ & H3 & _);
    [reflexivity | reflexivity | exact Hnew | vm_compute; reflexivity |].
  split; [exact H1 | exact H3].
Defined.

(** ** The name of an exported file *)

Lemma collapseDashes_safe (s : string) :
  forall afterDash, safeName afterDash (collapseDashes afterDash (dashOthers s)) = true.
Proof.
  unfold dashOthers. induction s as [|c s IH]; intros afterDash; [reflexivity|].
  cbn [Str.mapChars collapseDashes].
  destruct (isAlphaNumeric c) eqn:Hc.
  - destruct (Ascii.eqb c "-") eqn:Hd.
    + apply Ascii.eqb_eq in Hd. subst c. discriminate Hc.
    + cbn [safeName]. rewrite Hd, Hc. apply IH.
  - change (Ascii.eqb "-" "-") with true. cbv iota.
    destruct afterDash; [apply IH|].
    cbn [safeName]. change (Ascii.eqb "-" "-") with true. cbv iota. apply IH.
Qed.

Lemma take_safe (n : nat) (s : string) :
  forall afterDash, safeName afterDash s = true -> safeName afterDash (Str.take n s) = true.
Proof.
  revert s. induction n as [|n IH]; intros [|c s] afterDash H; try reflexivity.
  cbn [Str.take safeName] in *. destruct (Ascii.eqb c "-").
  - apply andb_prop in H. destruct H as [-> H]. now apply IH.
  - apply andb_prop in H. destruct H as [-> H]. now apply IH.
Qed.

(** X24: the part of an exported file's name that comes from the page
    title holds letters, digits and single dashes only, and 50 characters
    at most. *)
Theorem export_name_is_safe (title : string) :
  safeName false (exportPageTitle title) = true
  /\ (Str.length (exportPageTitle title) <= 50)%nat.
Proof.
  unfold exportPageTitle. split.
  - apply take_safe, collapseDashes_safe.
  - rewrite take_length. lia.
Qed.

(** ** When the analysis returns *)

(** X25: the analysis returns a model for every tree in which the style
    and the box of every HTML element can be read and no role or tag
    name is the name of a member of [Object.prototype], whatever the
    reads of the other elements (vector graphics) do and whatever the
    hint extraction raises.  The build of a child of the root returns
    within every recursion budget above the height of its subtree, and
    the budget that [analyzeDom] is given is never what stops it. *)
Theorem analysis_returns_on_readable_trees (window : Window) (body : Element)
        (config : PartialConfig) :
  readablePlain (descendants body) = true ->
  (exists model, analyzeDom window body config = Ok model)
  /\ (forall c fuel depth viewportArea cfg isGridItem counter,
         In c (el_children body) ->
         isHTMLElement c = true ->
         (treeHeight c < fuel)%nat ->
         exists r counter',
           buildNodeTree window fuel c depth viewportArea cfg isGridItem counter
           = Ok (r, counter'))
  /\ withinBudget (analyzeDom window body config).
Proof.
  intros Hread. split; [now apply analyzeDom_total|]. split.
  - intros c fuel depth va cfg g counter Hin Hhtml Hfuel.
    apply buildNodeTree_total; [exact Hfuel | exact Hhtml|].
    eapply readablePlain_child; eassumption.
  - apply analyzeDom_withinBudget.
Qed.

Lemma analysis_returns_on_readable_trees_witness :
  readablePlain (descendants Page.brokenSvgPage) = true
  /\ detectContentHintsUnsafe Page.window1280 Page.brokenSection = Throw
  /\ exists model, analyzeDom Page.window1280 Page.brokenSvgPage Page.noConfig = Ok model.
Proof.
  assert (H : readablePlain (descendants Page.brokenSvgPage) = true)
    by (vm_compute; reflexivity).
  split; [exact H|]. split; [vm_compute; reflexivity|].
  exact (proj1 (analysis_returns_on_readable_trees Page.window1280 Page.brokenSvgPage
                  Page.noConfig H)).
Defined.
